(** * snjs: payload projections, protocol service, item manager

    A shallow embedding of the parts of the client core that the
    specification's testable properties talk about:

    - [lib/protocol/payloads/generator] (payload field sets and the
      [CreatePayload] family),
    - [lib/services/protocol_service] (batch encryption and decryption, key
      selection, the key-mode state machine, items-key reconciliation),
    - [lib/services/item_manager] (reference indices, observers, dirty set),
    - the version 001 operator ([encryptText] / [decryptText], the string
      framing and [decryptItem]) and the helpers of the operator base class,
    - the passcode wrapper, unlocking, sign-out and start-up of the key
      manager, the item queries of the item manager, and the credential check
      of the privileges service.

    JavaScript objects used as dictionaries are finite maps over their own
    properties, exceptions are an explicit [Throw] result, callbacks
    registered with a service are functions that return or throw, and code
    that mutates service state before throwing is a state-passing function
    that returns the state reached. *)

From Stdlib Require Import ZArith Lia.
From stdpp Require Import gmap strings list fin_maps.

Open Scope string_scope.

(** ** Results of calls that may throw *)

Inductive result (A : Type) : Type :=
| Ok (a : A)
| Throw (e : string).
Arguments Ok {A} a.
Arguments Throw {A} e.

(** ** Enumerations *)

(** [lib/models/content_types.ts] *)
Module ContentType.
Inductive t :=
| Any | Item | RootKey | ItemsKey | EncryptedStorage | Note | Tag | SmartTag
| Component | Editor | ActionsExtension | UserPrefs | Privileges
| HistorySession | Theme | Mfa | ServerExtension | FilesafeCredentials
| FilesafeFileMetadata | FilesafeIntegration | ExtensionRepo.

#[global] Instance eq_dec : EqDecision t.
Proof. solve_decision. Defined.
End ContentType.

(** The payload field names of [@Payloads/fields], as the generator lists
    them. *)
Module PayloadField.
Inductive t :=
| Uuid | ContentType | ItemsKeyId | EncItemKey | Content | CreatedAt
| UpdatedAt | Deleted | Legacy003AuthHash | Legacy003AuthParams | Dirty
| DirtiedDate | ErrorDecrypting | ErrorDecryptingChanged | WaitingForKey
| Dummy | LastSyncBegan | LastSyncEnd.

#[global] Instance eq_dec : EqDecision t.
Proof. solve_decision. Defined.
End PayloadField.

(** [lib/protocol/payloads/sources] *)
Module PayloadSource.
Inductive t :=
| RemoteRetrieved | RemoteSaved | LocalSaved | LocalRetrieved | LocalDirtied
| ComponentRetrieved | DesktopInstalled | RemoteActionRetrieved | FileImport
| RemoteConflict | ImportConflict | SavedOrSaving | DecryptedTransient
| ConflictUuid | ConflictData | LocalChanged | SessionHistory.

#[global] Instance eq_dec : EqDecision t.
Proof. solve_decision. Defined.
End PayloadSource.

(** The intents of [@Protocol/intents] that the generator and the protocol
    service dispatch on. *)
Module EncryptionIntent.
Inductive t :=
| Sync | SyncDecrypted
| LocalStorageEncrypted | LocalStorageDecrypted | LocalStoragePreferEncrypted
| FileEncrypted | FileDecrypted | FilePreferEncrypted.

#[global] Instance eq_dec : EqDecision t.
Proof. solve_decision. Defined.
End EncryptionIntent.

Module PayloadFormat.
Inductive t :=
| EncryptedString | DecryptedBareObject | DecryptedBase64String.

#[global] Instance eq_dec : EqDecision t.
Proof. solve_decision. Defined.
End PayloadFormat.

(** ** JavaScript values held by a raw payload *)

#[warnings="-register-all"]
Inductive JsValue :=
| JNull
| JBool (b : bool)
| JNum (n : Z)
| JStr (s : string)
| JArr (l : list JsValue)
| JObj (l : list (string * JsValue)).

Definition isString (v : option JsValue) : bool :=
  match v with Some (JStr _) => true | _ => false end.

Definition isNullOrUndefined (v : option JsValue) : bool :=
  match v with None | Some JNull => true | _ => false end.

(** [value === true] *)
Definition isTrue (v : option JsValue) : bool :=
  match v with Some (JBool true) => true | _ => false end.

(** JavaScript truthiness of a property that may be absent. *)
Definition truthy (v : option JsValue) : bool :=
  match v with
  | None | Some JNull => false
  | Some (JBool b) => b
  | Some (JNum n) => negb (n =? 0)%Z
  | Some (JStr s) => negb (String.eqb s EmptyString)
  | Some (JArr _) | Some (JObj _) => true
  end.

(** [SFItem.deepMerge] of [lib/models/core/item.js]: lodash [mergeWith] whose
    customizer replaces arrays wholesale.  Objects are merged key by key,
    every other source value replaces the destination. *)
Fixpoint mergeValue (dst src : JsValue) {struct src} : JsValue :=
  match src with
  | JObj fs =>
      match dst with
      | JObj fd =>
          JObj
            ((fix assign (fs : list (string * JsValue))
                  (acc : list (string * JsValue)) {struct fs} :=
                match fs with
                | [] => acc
                | (k, v) :: rest =>
                    assign rest
                      ((fix put (acc : list (string * JsValue)) :=
                          match acc with
                          | [] => [(k, v)]
                          | (k', d) :: acc' =>
                              if String.eqb k k'
                              then (k', mergeValue d v) :: acc'
                              else (k', d) :: put acc'
                          end) acc)
                end) fs fd)
      | _ => src
      end
  | _ => src
  end.

(** ** Raw payloads and [PurePayload] *)

(** A raw payload is a JavaScript object whose own keys are payload fields;
    [None] is an absent (undefined) property. *)
Definition RawPayload := PayloadField.t -> option JsValue.

Definition emptyObject : RawPayload := fun _ => None.

Definition setField (f : PayloadField.t) (v : JsValue) (o : RawPayload)
  : RawPayload :=
  fun g => if decide (g = f) then Some v else o g.

(** [pickByCopy(object, fields)]: a copy that keeps the listed keys only. *)
Definition pickByCopy (object : RawPayload) (fields : list PayloadField.t)
  : RawPayload :=
  fun f => if decide (f ∈ fields) then object f else None.

(** [deepMerge(rawPayload, Copy(override))] on the top-level keys. *)
Definition deepMerge (a b : RawPayload) : RawPayload :=
  fun f =>
    match b f with
    | None => a f
    | Some vb =>
        match a f with
        | Some va => Some (mergeValue va vb)
        | None => Some vb
        end
    end.

Record PurePayload := mkPayload {
  raw : RawPayload;
  fields : list PayloadField.t
}.

Module Generator.
Import PayloadField.

Definition MaxPayloadFields : list PayloadField.t :=
  [ Uuid; ContentType; ItemsKeyId; EncItemKey; Content; CreatedAt; UpdatedAt;
    Deleted; Legacy003AuthHash; Legacy003AuthParams; Dirty; DirtiedDate;
    ErrorDecrypting; ErrorDecryptingChanged; WaitingForKey; Dummy;
    LastSyncBegan; LastSyncEnd ].

Definition EncryptionParametersFields : list PayloadField.t :=
  [ Uuid; ItemsKeyId; EncItemKey; Content; Legacy003AuthHash;
    ErrorDecrypting; ErrorDecryptingChanged; WaitingForKey ].

Definition FilePayloadFields : list PayloadField.t :=
  [ Uuid; ContentType; ItemsKeyId; EncItemKey; Content; CreatedAt; UpdatedAt;
    Legacy003AuthHash ].

Definition StoragePayloadFields : list PayloadField.t :=
  [ Uuid; ContentType; ItemsKeyId; EncItemKey; Content; CreatedAt; UpdatedAt;
    Deleted; Legacy003AuthHash; Legacy003AuthParams; Dirty; DirtiedDate;
    ErrorDecrypting; WaitingForKey ].

Definition ServerPayloadFields : list PayloadField.t :=
  [ Uuid; ContentType; ItemsKeyId; EncItemKey; Content; CreatedAt; UpdatedAt;
    Deleted; Legacy003AuthHash ].

Definition SessionHistoryPayloadFields : list PayloadField.t :=
  [ Uuid; ContentType; Content; UpdatedAt ].

Definition ComponentRetrievedPayloadFields : list PayloadField.t :=
  [ Uuid; Content; CreatedAt ].

Definition ServerSavedPayloadFields : list PayloadField.t :=
  [ Uuid; ContentType; UpdatedAt; Deleted; Dirty; LastSyncEnd ].

Definition CreatePayload (object : RawPayload) (fields : list PayloadField.t)
    (override : option RawPayload) : PurePayload :=
  let rawPayload := pickByCopy object fields in
  match override with
  | Some o => mkPayload (deepMerge rawPayload o) fields
  | None => mkPayload rawPayload fields
  end.

Definition CreateMaxPayloadFromAnyObject (object : RawPayload)
    (source : option PayloadSource.t) (intent : option EncryptionIntent.t)
    (override : option RawPayload) : result PurePayload :=
  match source with
  | Some _ =>
      Throw "Use CreateSourcedPayloadFromObject if creating payload with source."
  | None =>
      match intent with
      | Some _ =>
          Throw "Use CreateIntentPayloadFromObject if creating payload with intent."
      | None => Ok (CreatePayload object MaxPayloadFields override)
      end
  end.

Definition payloadFieldsForIntent (intent : EncryptionIntent.t)
  : result (list PayloadField.t) :=
  match intent with
  | EncryptionIntent.FileEncrypted
  | EncryptionIntent.FileDecrypted
  | EncryptionIntent.FilePreferEncrypted => Ok FilePayloadFields
  | EncryptionIntent.LocalStoragePreferEncrypted
  | EncryptionIntent.LocalStorageDecrypted
  | EncryptionIntent.LocalStorageEncrypted => Ok StoragePayloadFields
  | EncryptionIntent.Sync
  | EncryptionIntent.SyncDecrypted => Ok ServerPayloadFields
  end.

Definition payloadFieldsForSource (source : PayloadSource.t)
  : result (list PayloadField.t) :=
  match source with
  | PayloadSource.FileImport => Ok FilePayloadFields
  | PayloadSource.SessionHistory => Ok SessionHistoryPayloadFields
  | PayloadSource.ComponentRetrieved => Ok ComponentRetrievedPayloadFields
  | PayloadSource.LocalRetrieved
  | PayloadSource.LocalDirtied => Ok StoragePayloadFields
  | PayloadSource.RemoteRetrieved
  | PayloadSource.ConflictData
  | PayloadSource.ConflictUuid => Ok ServerPayloadFields
  | PayloadSource.LocalSaved
  | PayloadSource.RemoteSaved => Ok ServerSavedPayloadFields
  | _ => Throw "No payload fields found for source"
  end.

Definition CreateIntentPayloadFromObject (object : RawPayload)
    (intent : EncryptionIntent.t) (override : option RawPayload)
  : result PurePayload :=
  match payloadFieldsForIntent intent with
  | Ok payloadFields => Ok (CreatePayload object payloadFields override)
  | Throw e => Throw e
  end.

Definition CreateSourcedPayloadFromObject (object : RawPayload)
    (source : PayloadSource.t) (override : option RawPayload)
  : result PurePayload :=
  match payloadFieldsForSource source with
  | Ok payloadFields => Ok (CreatePayload object payloadFields override)
  | Throw e => Throw e
  end.

Definition CreateEncryptionParameters (r : RawPayload) : PurePayload :=
  CreatePayload r EncryptionParametersFields None.

Definition CopyEncryptionParameters (r : RawPayload)
    (override : option RawPayload) : PurePayload :=
  CreatePayload r EncryptionParametersFields override.
End Generator.

(** ** Payload getters *)

Definition content (p : PurePayload) : option JsValue :=
  raw p PayloadField.Content.

Definition errorDecrypting (p : PurePayload) : bool :=
  truthy (raw p PayloadField.ErrorDecrypting).

Definition waitingForKey (p : PurePayload) : bool :=
  truthy (raw p PayloadField.WaitingForKey).

Definition errorDecryptingValueChanged (p : PurePayload) : bool :=
  truthy (raw p PayloadField.ErrorDecryptingChanged).

Definition VersionLength : nat := 3.

Definition startsWith (s pre : string) : bool :=
  String.eqb (String.substring 0 (String.length pre) s) pre.

(** Modelled from the spec: the [format] getter of [PurePayload]
    ([@Payloads/pure_payload] is not part of the sources).  Content is either
    a structured map (a bare decrypted object), a string with the version
    prefix 000 (base64 of JSON), or a version-prefixed ciphertext string. *)
Definition format (p : PurePayload) : option PayloadFormat.t :=
  match content p with
  | Some (JStr s) =>
      if startsWith s "000" then Some PayloadFormat.DecryptedBase64String
      else Some PayloadFormat.EncryptedString
  | Some (JObj _) => Some PayloadFormat.DecryptedBareObject
  | _ => None
  end.

(** Modelled from the spec: the [version] getter of [PurePayload], the
    version prefix of a string content. *)
Definition version (p : PurePayload) : option string :=
  match content p with
  | Some (JStr s) => Some (String.substring 0 VersionLength s)
  | _ => None
  end.

(** ** The result monad *)

#[global] Instance result_ret : MRet result := fun _ a => Ok a.
#[global] Instance result_bind : MBind result :=
  fun _ _ f r => match r with Ok a => f a | Throw e => Throw e end.

(** ** Keys *)

(** [rk_ref] stands for the identity of the JavaScript object: the service
    compares root keys with [===]. *)
Record SNRootKey := mkRootKey {
  rk_ref : nat;
  rk_uuid : option string;
  rk_version : string;
  masterKey : string;
  dataAuthenticationKey : option string
}.

Record SNItemsKey := mkItemsKey {
  ik_uuid : string;
  ik_version : string;
  itemsKey : string;
  ik_dataAuthenticationKey : option string;
  isDefault : bool;
  ik_updated_at : option Z;
  ik_deleted : bool;
  ik_dirty : bool
}.

Inductive Key :=
| RootKeyOf (k : SNRootKey)
| ItemsKeyOf (k : SNItemsKey).

Definition keyVersion (k : Key) : string :=
  match k with
  | RootKeyOf k => rk_version k
  | ItemsKeyOf k => ik_version k
  end.

(** Modelled from the spec: the [neverSynced] getter of an item (the item
    model of this revision is not part of the sources): [updated_at] is null
    or the epoch. *)
Definition neverSynced (k : SNItemsKey) : bool :=
  match ik_updated_at k with
  | None => true
  | Some t => (t =? 0)%Z
  end.

Record SNRootKeyParams := mkKeyParams {
  kp_identifier : string;
  kp_version : string;
  kp_salt : string
}.

Module KeyMode.
Inductive t := RootKeyNone | RootKeyOnly | RootKeyPlusWrapper | WrapperOnly.

#[global] Instance eq_dec : EqDecision t.
Proof. solve_decision. Defined.
End KeyMode.

Module StorageKey.
Inductive t := RootKeyParams | WrappedRootKey | RootKeyWrapperKeyParams.

#[global] Instance eq_dec : EqDecision t.
Proof. solve_decision. Defined.

#[global] Instance countable : Countable t.
Proof.
  refine (inj_countable'
            (fun k => match k with
                      | RootKeyParams => 0
                      | WrappedRootKey => 1
                      | RootKeyWrapperKeyParams => 2
                      end)
            (fun n => match n with
                      | 0 => RootKeyParams
                      | 1 => WrappedRootKey
                      | _ => RootKeyWrapperKeyParams
                      end) _).
  by intros [].
Defined.
End StorageKey.

(** Values of the nonwrapped storage domain that the key manager writes. *)
Inductive StorageValue :=
| PortableKeyParams (p : SNRootKeyParams)
| StoredPayload (p : PurePayload).

(** ** Intents *)

(** Modelled from the spec: [isDecryptedIntent] and
    [intentRequiresEncryption] of [@Protocol/intents] (not part of the
    sources), read off the intent table: the three [...Decrypted] intents take
    no key, and [Sync], [LocalStorageEncrypted] and [FileEncrypted] require
    one. *)
Definition isDecryptedIntent (intent : EncryptionIntent.t) : bool :=
  match intent with
  | EncryptionIntent.SyncDecrypted
  | EncryptionIntent.LocalStorageDecrypted
  | EncryptionIntent.FileDecrypted => true
  | _ => false
  end.

Definition intentRequiresEncryption (intent : EncryptionIntent.t) : bool :=
  match intent with
  | EncryptionIntent.Sync
  | EncryptionIntent.LocalStorageEncrypted
  | EncryptionIntent.FileEncrypted => true
  | _ => false
  end.

Definition contentTypeString (c : ContentType.t) : string :=
  match c with
  | ContentType.Any => "*"
  | ContentType.Item => "SF|Item"
  | ContentType.RootKey => "SN|RootKey|NoSync"
  | ContentType.ItemsKey => "SN|ItemsKey"
  | ContentType.EncryptedStorage => "SN|EncryptedStorage"
  | ContentType.Note => "Note"
  | ContentType.Tag => "Tag"
  | ContentType.SmartTag => "SN|SmartTag"
  | ContentType.Component => "SN|Component"
  | ContentType.Editor => "SN|Editor"
  | ContentType.ActionsExtension => "Extension"
  | ContentType.UserPrefs => "SN|UserPreferences"
  | ContentType.Privileges => "SN|Privileges"
  | ContentType.HistorySession => "SN|HistorySession"
  | ContentType.Theme => "SN|Theme"
  | ContentType.Mfa => "SF|MFA"
  | ContentType.ServerExtension => "SF|Extension"
  | ContentType.FilesafeCredentials => "SN|FileSafe|Credentials"
  | ContentType.FilesafeFileMetadata => "SN|FileSafe|FileMetadata"
  | ContentType.FilesafeIntegration => "SN|FileSafe|Integration"
  | ContentType.ExtensionRepo => "SN|ExtensionRepo"
  end.

(** [value === contentType] for a payload property. *)
Definition isContentType (v : option JsValue) (c : ContentType.t) : bool :=
  match v with
  | Some (JStr s) => String.eqb s (contentTypeString c)
  | _ => false
  end.

(** ** Protocol service *)

Record ServiceState := mkService {
  keyMode : KeyMode.t;
  rootKey : option SNRootKey;
  (** the nonwrapped value domain of the storage service *)
  storage : gmap StorageKey.t StorageValue;
  (** the device keychain *)
  keychain : option SNRootKey;
  (** [modelManager.itemsKeys] *)
  itemsKeys : list SNItemsKey;
  (** rounds of [notifyObserversOfKeyChange] that were started *)
  keyChangeNotifications : nat
}.

(** A callback registered with [onKeyStatusChange].  It is called without
    arguments and returns or throws; which of the two may depend on the
    service it finds, the number of the round included.  A callback is taken
    not to call back into the key manager. *)
Definition KeyChangeObserver : Type := ServiceState -> result unit.

Definition getLatestVersion : string := "004".

Definition LAST_NONROOT_ITEMS_KEY_VERSION : string := "003".

Definition createOperatorForVersion (v : string) : result string :=
  if String.eqb v "001" then Ok "001"
  else if String.eqb v "002" then Ok "002"
  else if String.eqb v "003" then Ok "003"
  else if String.eqb v "004" then Ok "004"
  else if String.eqb v "000" then Ok getLatestVersion
  else Throw "Unable to find operator for version".

(** [operatorForVersion] memoizes [createOperatorForVersion]; a payload
    without string content has an undefined version. *)
Definition operatorForVersion (v : option string) : result string :=
  match v with
  | Some v => createOperatorForVersion v
  | None => Throw "Unable to find operator for version"
  end.

Definition payloadContentFormatForIntent (intent : EncryptionIntent.t)
    (key : option Key) : result PayloadFormat.t :=
  match key with
  | None =>
      match intent with
      | EncryptionIntent.LocalStorageDecrypted
      | EncryptionIntent.LocalStoragePreferEncrypted
      | EncryptionIntent.FileDecrypted
      | EncryptionIntent.FilePreferEncrypted =>
          Ok PayloadFormat.DecryptedBareObject
      | EncryptionIntent.SyncDecrypted =>
          Ok PayloadFormat.DecryptedBase64String
      | _ =>
          Throw "Unhandled decrypted case in protocolService.payloadContentFormatForIntent."
      end
  | Some _ =>
      match intent with
      | EncryptionIntent.Sync
      | EncryptionIntent.FileEncrypted
      | EncryptionIntent.FilePreferEncrypted
      | EncryptionIntent.LocalStorageEncrypted
      | EncryptionIntent.LocalStoragePreferEncrypted =>
          Ok PayloadFormat.EncryptedString
      | _ =>
          Throw "Unhandled encrypted case in protocolService.payloadContentFormatForIntent."
      end
  end.

Definition contentTypeUsesRootKeyEncryption (contentType : option JsValue)
  : bool :=
  isContentType contentType ContentType.ItemsKey
  || isContentType contentType ContentType.EncryptedStorage.

Definition getRootKey (svc : ServiceState) : option Key :=
  RootKeyOf <$> rootKey svc.

Definition allItemsKeys (svc : ServiceState) : list SNItemsKey :=
  itemsKeys svc.

Definition itemsKeyForPayload (svc : ServiceState) (payload : PurePayload)
  : option SNItemsKey :=
  find (fun key =>
          match raw payload PayloadField.ItemsKeyId with
          | Some (JStr id) => String.eqb (ik_uuid key) id
          | _ => false
          end)
       (allItemsKeys svc).

Definition getDefaultItemsKey (svc : ServiceState) : option SNItemsKey :=
  match allItemsKeys svc with
  | [k] => Some k
  | ks => find isDefault ks
  end.

Definition defaultItemsKeyForItemVersion (svc : ServiceState)
    (v : option string) : option SNItemsKey :=
  find (fun key =>
          match v with
          | Some v => String.eqb (ik_version key) v
          | None => false
          end)
       (allItemsKeys svc).

Definition keyToUseForEncryptionOfPayload (svc : ServiceState)
    (payload : PurePayload) (intent : option EncryptionIntent.t)
  : result (option Key) :=
  match intent with
  | None =>
      Throw "Intent must be supplied when looking up key for encryption of item."
  | Some intent =>
      if contentTypeUsesRootKeyEncryption (raw payload PayloadField.ContentType)
      then
        match getRootKey svc with
        | None =>
            if intentRequiresEncryption intent
            then Throw "Root key encryption is required but no root key is available."
            else Ok None
        | Some rootKey => Ok (Some rootKey)
        end
      else Ok (ItemsKeyOf <$> getDefaultItemsKey svc)
  end.

Definition keyToUseForDecryptionOfPayload (svc : ServiceState)
    (payload : PurePayload) : result (option Key) :=
  if contentTypeUsesRootKeyEncryption (raw payload PayloadField.ContentType)
  then Ok (getRootKey svc)
  else if truthy (raw payload PayloadField.ItemsKeyId)
  then Ok (ItemsKeyOf <$> itemsKeyForPayload svc payload)
  else
    let payloadVersion := version payload in
    if decide (payloadVersion = Some getLatestVersion)
    then Throw "No associated key found for item encrypted with latest protocol version."
    else Ok (ItemsKeyOf <$> defaultItemsKeyForItemVersion svc payloadVersion).

Section Operators.
(** The cryptography of the versioned operators is supplied by the
    environment: [encryptString] and [decryptString] are the operators'
    overrides of [generateEncryptedParameters] and
    [generateDecryptedParameters] for ciphertext, indexed by operator
    version; either may throw, and encryption may produce nothing. *)
Variable encryptString :
  string -> PurePayload -> option Key -> result (option PurePayload).
Variable decryptString :
  string -> PurePayload -> option Key -> result PurePayload.
(** [base64Encode(JSON.stringify(content))] and its inverse, which yields
    nothing when decoding or parsing throws. *)
Variable jsonBase64 : JsValue -> string.
Variable base64Json : string -> option JsValue.

Definition contentOnly (c : option JsValue) : RawPayload :=
  match c with
  | Some c => setField PayloadField.Content c emptyObject
  | None => emptyObject
  end.

(** [SNProtocolOperator.generateEncryptedParameters] *)
Definition generateEncryptedParameters (operator : string)
    (payload : PurePayload) (fmt : PayloadFormat.t) (key : option Key)
  : result (option PurePayload) :=
  match fmt with
  | PayloadFormat.DecryptedBareObject =>
      Ok (Some (Generator.CreateEncryptionParameters
                  (contentOnly (content payload))))
  | PayloadFormat.DecryptedBase64String =>
      let base64String :=
        match content payload with
        | Some c => jsonBase64 c
        | None => EmptyString
        end in
      Ok (Some (Generator.CreateEncryptionParameters
                  (contentOnly (Some (JStr ("000" ++ base64String))))))
  | PayloadFormat.EncryptedString => encryptString operator payload key
  end.

(** [SNProtocolOperator.generateDecryptedParameters] *)
Definition generateDecryptedParameters (operator : string)
    (encryptedParameters : PurePayload) (key : option Key)
  : result PurePayload :=
  match format encryptedParameters with
  | Some PayloadFormat.DecryptedBareObject => Ok encryptedParameters
  | Some PayloadFormat.DecryptedBase64String =>
      let decodedContent :=
        match content encryptedParameters with
        | Some (JStr s) =>
            match base64Json
                    (String.substring VersionLength
                       (String.length s - VersionLength) s) with
            | Some v => Some v
            | None => content encryptedParameters
            end
        | other => other
        end in
      Ok (Generator.CopyEncryptionParameters (raw encryptedParameters)
            (Some (contentOnly decodedContent)))
  | _ => decryptString operator encryptedParameters key
  end.

Definition payloadByEncryptingPayload (svc : ServiceState)
    (payload : PurePayload) (intent : option EncryptionIntent.t)
    (key : option Key) : result PurePayload :=
  if errorDecrypting payload then Ok payload
  else
    match intent with
    | None => Throw "Attempting to encrypt payload with null intent"
    | Some intent =>
        key ← (match key with
               | None =>
                   if isDecryptedIntent intent then Ok key
                   else keyToUseForEncryptionOfPayload svc payload (Some intent)
               | Some _ => Ok key
               end);
        if bool_decide (key = None) && intentRequiresEncryption intent
        then Throw "Attempting to generate encrypted payload with no key."
        else if negb (bool_decide
                        (format payload = Some PayloadFormat.DecryptedBareObject))
        then Throw "Attempting to encrypt already encrypted payload."
        else if negb (truthy (content payload))
        then Throw "Attempting to encrypt payload with no content."
        else if negb (truthy (raw payload PayloadField.Uuid))
        then Throw "Attempting to encrypt payload with no uuid."
        else
          let version :=
            match key with
            | Some k => keyVersion k
            | None => getLatestVersion
            end in
          fmt ← payloadContentFormatForIntent intent key;
          operator ← operatorForVersion (Some version);
          encryptionParameters ←
            generateEncryptedParameters operator payload fmt key;
          match encryptionParameters with
          | None => Throw "Unable to generate encryption parameters"
          | Some encryptionParameters =>
              Generator.CreateIntentPayloadFromObject (raw payload) intent
                (Some (raw encryptionParameters))
          end
    end.

Definition waitingOverride : RawPayload :=
  setField PayloadField.WaitingForKey (JBool true)
    (setField PayloadField.ErrorDecrypting (JBool true) emptyObject).

Definition payloadByDecryptingPayload (svc : ServiceState)
    (payload : PurePayload) (key : option Key) : result PurePayload :=
  if negb (truthy (content payload))
  then Throw "Attempting to decrypt payload that has no content."
  else
    let fmt := format payload in
    if bool_decide (fmt = Some PayloadFormat.DecryptedBareObject)
    then Ok payload
    else
      let decryptWith (key : option Key) : result PurePayload :=
        operator ← operatorForVersion (version payload);
        let encryptionParameters :=
          Generator.CreateEncryptionParameters (raw payload) in
        decryptedParameters ←
          generateDecryptedParameters operator encryptionParameters key;
        Generator.CreateMaxPayloadFromAnyObject (raw payload) None None
          (Some (raw decryptedParameters)) in
      if bool_decide (key = None)
         && bool_decide (fmt = Some PayloadFormat.EncryptedString)
      then
        key ← keyToUseForDecryptionOfPayload svc payload;
        match key with
        | None =>
            Generator.CreateMaxPayloadFromAnyObject (raw payload) None None
              (Some waitingOverride)
        | Some _ => decryptWith key
        end
      else decryptWith key.

Definition errorOverride (encryptedPayload : PurePayload) : RawPayload :=
  setField PayloadField.ErrorDecryptingChanged
    (JBool (negb (errorDecrypting encryptedPayload)))
    (setField PayloadField.ErrorDecrypting (JBool true) emptyObject).

(** One iteration of the loop of [payloadsByDecryptingPayloads]; the
    entries of the input array may be null. *)
Definition decryptEntry (svc : ServiceState) (key : option Key)
    (entry : option PurePayload) : result (option PurePayload) :=
  match entry with
  | None => Ok None
  | Some encryptedPayload =>
      if isTrue (raw encryptedPayload PayloadField.Deleted)
         && isNullOrUndefined (content encryptedPayload)
      then Ok (Some encryptedPayload)
      else if negb (isString (content encryptedPayload))
      then Ok (Some encryptedPayload)
      else
        match payloadByDecryptingPayload svc encryptedPayload key with
        | Ok decryptedPayload => Ok (Some decryptedPayload)
        | Throw _ =>
            flagged ←
              Generator.CreateMaxPayloadFromAnyObject (raw encryptedPayload)
                None None (Some (errorOverride encryptedPayload));
            Ok (Some flagged)
        end
  end.

Fixpoint payloadsByDecryptingPayloads (svc : ServiceState)
    (payloads : list (option PurePayload)) (key : option Key)
  : result (list (option PurePayload)) :=
  match payloads with
  | [] => Ok []
  | encryptedPayload :: rest =>
      decrypted ← decryptEntry svc key encryptedPayload;
      decryptedPayloads ← payloadsByDecryptingPayloads svc rest key;
      Ok (decrypted :: decryptedPayloads)
  end.

(** *** Key manager: state-passing code that may throw midway *)

Definition M (A : Type) : Type := ServiceState -> result A * ServiceState.

#[global] Instance M_ret : MRet M := fun _ a svc => (Ok a, svc).
#[global] Instance M_bind : MBind M :=
  fun _ _ f m svc =>
    match m svc with
    | (Ok a, svc') => f a svc'
    | (Throw e, svc') => (Throw e, svc')
    end.

Definition throw {A} (e : string) : M A := fun svc => (Throw e, svc).
Definition get : M ServiceState := fun svc => (Ok svc, svc).
Definition modify (f : ServiceState -> ServiceState) : M unit :=
  fun svc => (Ok tt, f svc).
Definition lift {A} (r : result A) : M A := fun svc => (r, svc).

Definition setKeyMode (m : KeyMode.t) (svc : ServiceState) : ServiceState :=
  mkService m (rootKey svc) (storage svc) (keychain svc) (itemsKeys svc)
    (keyChangeNotifications svc).

Definition setRootKey (k : option SNRootKey) (svc : ServiceState)
  : ServiceState :=
  mkService (keyMode svc) k (storage svc) (keychain svc) (itemsKeys svc)
    (keyChangeNotifications svc).

Definition setStorage (s : gmap StorageKey.t StorageValue)
    (svc : ServiceState) : ServiceState :=
  mkService (keyMode svc) (rootKey svc) s (keychain svc) (itemsKeys svc)
    (keyChangeNotifications svc).

Definition setKeychain (k : option SNRootKey) (svc : ServiceState)
  : ServiceState :=
  mkService (keyMode svc) (rootKey svc) (storage svc) k (itemsKeys svc)
    (keyChangeNotifications svc).

Definition setItemsKeys (ks : list SNItemsKey) (svc : ServiceState)
  : ServiceState :=
  mkService (keyMode svc) (rootKey svc) (storage svc) (keychain svc) ks
    (keyChangeNotifications svc).

(** [storageService.setValue(key, value, StorageValueModes.Nonwrapped)] *)
Definition storageSetValue (k : StorageKey.t) (v : StorageValue) : M unit :=
  modify (fun svc => setStorage (<[k := v]> (storage svc)) svc).

Definition countNotification (svc : ServiceState) : ServiceState :=
  mkService (keyMode svc) (rootKey svc) (storage svc) (keychain svc)
    (itemsKeys svc) (S (keyChangeNotifications svc)).

(** [for (const observer of observers) { await observer(); }]: the first
    callback that throws ends the loop, and the call throws with it. *)
Fixpoint awaitObservers (observers : list KeyChangeObserver)
    (svc : ServiceState) : result unit :=
  match observers with
  | [] => Ok tt
  | observer :: rest =>
      match observer svc with
      | Ok _ => awaitObservers rest svc
      | Throw e => Throw e
      end
  end.

(** [this.keyObservers]; the calls modelled here register and remove no
    callback. *)
Variable keyObservers : list KeyChangeObserver.

Definition notifyObserversOfKeyChange : M unit :=
  fun svc =>
    let notified := countNotification svc in
    (awaitObservers keyObservers notified, notified).

Definition markDirty (k : SNItemsKey) : SNItemsKey :=
  mkItemsKey (ik_uuid k) (ik_version k) (itemsKey k)
    (ik_dataAuthenticationKey k) (isDefault k) (ik_updated_at k)
    (ik_deleted k) true.

Definition markDeleted (k : SNItemsKey) : SNItemsKey :=
  mkItemsKey (ik_uuid k) (ik_version k) (itemsKey k)
    (ik_dataAuthenticationKey k) (isDefault k) (ik_updated_at k) true true.

Definition listed (uuid : string) (ks : list SNItemsKey) : bool :=
  existsb (fun k => String.eqb (ik_uuid k) uuid) ks.

(** Modelled from the spec: [modelManager.setItemsDirty] (the model manager
    is not part of the sources).  Every change goes through a mutator that
    produces a payload with dirty = true for the item's uuid. *)
Definition setItemsDirty (items : list SNItemsKey) : M unit :=
  modify (fun svc =>
            setItemsKeys
              (map (fun k => if listed (ik_uuid k) items then markDirty k
                             else k)
                 (itemsKeys svc)) svc).

(** Modelled from the spec: [modelManager.setItemsToBeDeleted]; the item is
    marked deleted and dirty and stays in the collection until the deletion
    has been synced. *)
Definition setItemsToBeDeleted (items : list SNItemsKey) : M unit :=
  modify (fun svc =>
            setItemsKeys
              (map (fun k => if listed (ik_uuid k) items then markDeleted k
                             else k)
                 (itemsKeys svc)) svc).

(** Modelled from the spec: [getPersistableValue] of the root key, the
    version-stamped key material. *)
Definition getPersistableValue (k : SNRootKey) : JsValue :=
  JObj ([ ("version", JStr (rk_version k));
          ("masterKey", JStr (masterKey k)) ]
        ++ match dataAuthenticationKey k with
           | Some d => [ ("dataAuthenticationKey", JStr d) ]
           | None => []
           end).

(** The payload fields that the root key object exposes. *)
Definition rootKeyObject (k : SNRootKey) : RawPayload :=
  let o := setField PayloadField.ContentType
             (JStr (contentTypeString ContentType.RootKey)) emptyObject in
  match rk_uuid k with
  | Some u => setField PayloadField.Uuid (JStr u) o
  | None => o
  end.

Definition saveRootKeyToKeychain : M unit :=
  svc ← get;
  match rootKey svc with
  | None => throw "Attempting to non-existent root key to the keychain."
  | Some k =>
      if negb (bool_decide (keyMode svc = KeyMode.RootKeyOnly))
      then throw "Should not be persisting wrapped key to keychain."
      else modify (setKeychain (Some k))
  end.

Definition wrapAndPersistRootKey (wrappingKey : SNRootKey) : M unit :=
  svc ← get;
  match rootKey svc with
  | None => throw "TypeError: this.rootKey is undefined"
  | Some k =>
      payload ← lift (Generator.CreateMaxPayloadFromAnyObject
                        (rootKeyObject k) None None
                        (Some (contentOnly (Some (getPersistableValue k)))));
      wrappedKey ← lift (payloadByEncryptingPayload svc payload
                           (Some EncryptionIntent.LocalStorageEncrypted)
                           (Some (RootKeyOf wrappingKey)));
      storageSetValue StorageKey.WrappedRootKey (StoredPayload wrappedKey)
  end.

Definition reencryptItemsKeys : M unit :=
  svc ← get;
  let keys := allItemsKeys svc in
  if (0 <? length keys)%nat then setItemsDirty keys else mret tt.

(** [this.rootKey === key] *)
Definition sameRootKey (current : option SNRootKey) (key : SNRootKey)
  : bool :=
  match current with
  | Some k => (rk_ref k =? rk_ref key)%nat
  | None => false
  end.

Definition setNewRootKey (key : SNRootKey)
    (keyParams : option SNRootKeyParams) (wrappingKey : option SNRootKey)
  : M unit :=
  match keyParams with
  | None => throw "keyParams must be supplied if setting root key."
  | Some keyParams =>
      svc ← get;
      if sameRootKey (rootKey svc) key
      then throw "Attempting to set root key as same current value."
      else
        match keyMode svc with
        | KeyMode.WrapperOnly => modify (setKeyMode KeyMode.RootKeyPlusWrapper)
        | KeyMode.RootKeyNone => modify (setKeyMode KeyMode.RootKeyOnly)
        | KeyMode.RootKeyOnly | KeyMode.RootKeyPlusWrapper => mret tt
        end;;
        modify (setRootKey (Some key));;
        storageSetValue StorageKey.RootKeyParams (PortableKeyParams keyParams);;
        svc ← get;
        match keyMode svc with
        | KeyMode.RootKeyOnly => saveRootKeyToKeychain
        | KeyMode.RootKeyPlusWrapper =>
            match wrappingKey with
            | None => throw "wrappingKey must be supplied"
            | Some wrappingKey => wrapAndPersistRootKey wrappingKey
            end
        | _ => mret tt
        end;;
        notifyObserversOfKeyChange;;
        reencryptItemsKeys
  end.

(** *** Items-key manager *)

(** [compareVersions] of [@Protocol/versions], the uuid generator and the
    random key material of [createItemsKey] come from the environment. *)
Variable compareVersions : string -> string -> Z.
Variable generateUuid : ServiceState -> string.
Variable generateNewItemsKeyContent : string -> string * option string.

Definition upsertItemsKey (k : SNItemsKey) (ks : list SNItemsKey)
  : list SNItemsKey :=
  if listed (ik_uuid k) ks
  then map (fun k' => if String.eqb (ik_uuid k') (ik_uuid k) then k else k') ks
  else ks ++ [k].

Definition clearDefault (k : SNItemsKey) : SNItemsKey :=
  mkItemsKey (ik_uuid k) (ik_version k) (itemsKey k)
    (ik_dataAuthenticationKey k) false (ik_updated_at k) (ik_deleted k) true.

Definition createNewDefaultItemsKey : M unit :=
  svc ← get;
  let operatorVersion :=
    match rootKey svc with
    | Some rootKey => rk_version rootKey
    | None => getLatestVersion
    end in
  created ←
    (if (compareVersions operatorVersion LAST_NONROOT_ITEMS_KEY_VERSION <=? 0)%Z
     then
       match rootKey svc with
       | Some rootKey =>
           mret (mkItemsKey (generateUuid svc) operatorVersion
                   (masterKey rootKey) (dataAuthenticationKey rootKey)
                   true None false true)
       | None => throw "TypeError: rootKey is undefined"
       end
     else
       operator ← lift (operatorForVersion (Some operatorVersion));
       let '(key, authenticationKey) := generateNewItemsKeyContent operator in
       mret (mkItemsKey (generateUuid svc) operator key authenticationKey
               true None false true));
  match getDefaultItemsKey svc with
  | Some currentDefault =>
      modify (fun svc =>
                setItemsKeys
                  (map (fun k =>
                          if String.eqb (ik_uuid k) (ik_uuid currentDefault)
                          then clearDefault k else k)
                     (itemsKeys svc)) svc)
  | None => mret tt
  end;;
  modify (fun svc => setItemsKeys (upsertItemsKey created (itemsKeys svc)) svc).

Definition handleDownloadFirstSyncCompletion : M unit :=
  svc ← get;
  let allKeys := allItemsKeys svc in
  let neverSyncedKeys := filter (fun key => neverSynced key = true) allKeys in
  let defaultSyncedKey :=
    find (fun key => negb (neverSynced key) && isDefault key) allKeys in
  match defaultSyncedKey with
  | Some _ => setItemsToBeDeleted neverSyncedKeys
  | None =>
      match rootKey svc with
      | Some rootKey =>
          let toDelete :=
            filter (fun itemsKey => ik_version itemsKey ≠ rk_version rootKey)
              neverSyncedKeys in
          (if (0 <? length toDelete)%nat
           then setItemsToBeDeleted toDelete else mret tt);;
          if (length allKeys =? 0)%nat
          then createNewDefaultItemsKey else mret tt
      | None => mret tt
      end
  end.
End Operators.

(** Runs the monadic plumbing of the key manager in a goal. *)
Ltac run_monad :=
  cbv [mbind M_bind mret M_ret get modify throw lift storageSetValue
       saveRootKeyToKeychain notifyObserversOfKeyChange countNotification
       wrapAndPersistRootKey];
  simpl.

(** ** Item manager *)

Module ItemManager.

Record ContentReference := mkReference {
  ref_uuid : string;
  ref_content_type : ContentType.t
}.

(** The view of a payload that the item manager reads: [CreateItemFromPayload]
    projects a payload to its item, with the reference list of its content. *)
Record SNItem := mkItem {
  uuid : string;
  content_type : ContentType.t;
  references : list ContentReference;
  deleted : bool;
  dirty : bool;
  dummy : bool;
  errorDecrypting : bool
}.

Inductive ObservationType := Inserted | Changed.

(** [contentType: ContentType | ContentType[]] *)
Inductive ObserverFilter :=
| One (c : ContentType.t)
| Many (cs : list ContentType.t).

Record Notification := mkNotification {
  n_items : list SNItem;
  n_source : option PayloadSource.t;
  n_sourceKey : option string;
  n_type : ObservationType
}.

Record Observer := mkObserver {
  contentType : ObserverFilter;
  callback : Notification -> result unit
}.

Record State := mkState {
  collection : list SNItem;
  referenceMap : gmap string (list string);
  inverseReferenceMap : gmap string (list string);
  observers : list Observer
}.

Definition initialState : State := mkState [] ∅ ∅ [].

(** The two indices are plain objects, created by [{}], and the finite maps
    of [State] hold their own properties.  For a key that names a property
    of [Object.prototype], [index[key]] on an object without an own property
    of that name is the inherited member, not undefined, and an assignment to
    [__proto__] creates no own property: the index code is read for uuids
    outside this list. *)
Definition objectPrototypeProperties : list string :=
  [ "constructor"; "__proto__"; "hasOwnProperty"; "isPrototypeOf";
    "propertyIsEnumerable"; "toLocaleString"; "toString"; "valueOf";
    "__defineGetter__"; "__defineSetter__"; "__lookupGetter__";
    "__lookupSetter__" ].

Definition ordinaryUuid (uuid : string) : Prop :=
  uuid ∉ objectPrototypeProperties.

Definition addObserver (contentType : ObserverFilter)
    (callback : Notification -> result unit) (st : State) : State :=
  mkState (collection st) (referenceMap st) (inverseReferenceMap st)
    (observers st ++ [mkObserver contentType callback]).

(** [a === b] where [b] is a content type string: two strings are equal
    when they are the same string, and an array is never equal to a
    string. *)
Definition strictEquals (a : ObserverFilter) (b : ContentType.t) : bool :=
  match a with
  | One c => bool_decide (c = b)
  | Many _ => false
  end.

Definition isRelevant (observer : Observer) (item : SNItem) : bool :=
  strictEquals (contentType observer) ContentType.Any
  || strictEquals (contentType observer) (content_type item).

(** Returns the calls made to the observers' callbacks, in order, and how
    the loop ended: a callback that throws ends it. *)
Fixpoint notifyObservers (observers : list Observer) (items : list SNItem)
    (type : ObservationType) (source : option PayloadSource.t)
    (sourceKey : option string)
  : list (Observer * Notification) * result unit :=
  match observers with
  | [] => ([], Ok tt)
  | observer :: rest =>
      let relevantItems := List.filter (isRelevant observer) items in
      let call := mkNotification relevantItems source sourceKey type in
      match callback observer call with
      | Ok _ =>
          let '(calls, outcome) :=
            notifyObservers rest items type source sourceKey in
          ((observer, call) :: calls, outcome)
      | Throw e => ([(observer, call)], Throw e)
      end
  end.

Definition getDirtyItems (st : State) : list SNItem :=
  List.filter
    (fun item =>
       dirty item && negb (dummy item)
       && (negb (errorDecrypting item) || deleted item))
    (collection st).

Section ReferenceIndex.
(** [removeFromArray] of [@Lib/utils] is not part of the sources; the
    index code is modelled over any implementation of it. *)
Variable removeFromArray : list string -> string -> list string.

Definition establishReferenceIndex (item : SNItem) (st : State) : State :=
  fold_left
    (fun st reference =>
       let direct :=
         <[uuid item := map ref_uuid (references item)]> (referenceMap st) in
       let index : list string :=
         default [] (inverseReferenceMap st !! ref_uuid reference) in
       mkState (collection st) direct
         (<[ref_uuid reference := (index ++ [uuid item])%list]>
            (inverseReferenceMap st))
         (observers st))
    (references item) st.

Definition removeFromIndex (index : gmap string (list string))
    (key value : string) : gmap string (list string) :=
  match index !! key with
  | Some array => <[key := removeFromArray array value]> index
  | None => index
  end.

Definition deestablishReferenceIndexForDeletedItem (uuid : string)
    (st : State) : State :=
  let directReferences := default [] (referenceMap st !! uuid) in
  let inverse1 :=
    fold_left (fun inverse directReference =>
                 removeFromIndex inverse directReference uuid)
      directReferences (inverseReferenceMap st) in
  let direct1 := delete uuid (referenceMap st) in
  let inverseReferences := default [] (inverse1 !! uuid) in
  let direct2 :=
    fold_left (fun direct inverseReference =>
                 removeFromIndex direct inverseReference uuid)
      inverseReferences direct1 in
  mkState (collection st) direct2 (delete uuid inverse1) (observers st).

(** Modelled from the spec: [MutableCollection.set], an ordered set of
    current items keyed by uuid (the collection is not part of the
    sources). *)
Definition collectionSet (item : SNItem) (items : list SNItem)
  : list SNItem :=
  if existsb (fun i => String.eqb (uuid i) (uuid item)) items
  then map (fun i => if String.eqb (uuid i) (uuid item) then item else i)
         items
  else items ++ [item].

Definition indexItems (items : list SNItem) (st : State) : State :=
  fold_left
    (fun st item =>
       if deleted item
       then deestablishReferenceIndexForDeletedItem (uuid item) st
       else establishReferenceIndex item st)
    items st.

Definition setPayloads (items : list SNItem) (type : ObservationType)
    (source : option PayloadSource.t) (sourceKey : option string)
    (st : State)
  : list (Observer * Notification) * result (list SNItem) * State :=
  let st1 := indexItems items st in
  let st2 :=
    mkState (fold_left (fun c item => collectionSet item c) items
               (collection st1))
      (referenceMap st1) (inverseReferenceMap st1) (observers st1) in
  match notifyObservers (observers st2) items type source sourceKey with
  | (calls, Ok _) => (calls, Ok items, st2)
  | (calls, Throw e) => (calls, Throw e, st2)
  end.

(** Modelled from the spec: a payload is discardable when it is deleted
    and not dirty. *)
Definition discardable (item : SNItem) : bool :=
  deleted item && negb (dirty item).

Definition onPayloadChange (items : list SNItem)
    (source : option PayloadSource.t) (sourceKey : option string)
    (st : State) : State :=
  match setPayloads items Changed source sourceKey st with
  | (_, Ok items, st') =>
      mkState
        (List.filter
           (fun i => negb (existsb
                             (fun d => discardable d
                                       && String.eqb (uuid d) (uuid i))
                             items))
           (collection st'))
        (referenceMap st') (inverseReferenceMap st') (observers st')
  | (_, Throw _, st') => st'
  end.

Definition onPayloadInsertion (items : list SNItem)
    (source : option PayloadSource.t) (sourceKey : option string)
    (st : State) : State :=
  let '(_, _, st') := setPayloads items Inserted source sourceKey st in
  st'.

(** A batch of payloads emitted by the payload manager. *)
Inductive Emission :=
| Insertion (items : list SNItem)
| Change (items : list SNItem).

Definition process (st : State) (e : Emission) : State :=
  match e with
  | Insertion items => onPayloadInsertion items None None st
  | Change items => onPayloadChange items None None st
  end.

Definition processAll (es : list Emission) : State :=
  fold_left process es initialState.
End ReferenceIndex.

(** *** What the specification says about the item manager *)

(** The items an observer is handed for a batch: nothing for an array filter,
    everything for [Any], the items of its type otherwise. *)
Definition delivered (filter : ObserverFilter) (items : list SNItem)
  : list SNItem :=
  match filter with
  | Many _ => []
  | One c =>
      if decide (c = ContentType.Any) then items
      else List.filter (fun item => bool_decide (content_type item = c)) items
  end.

Definition forwardEntry (st : State) (a : string) : list string :=
  default [] (referenceMap st !! a).

Definition inverseEntry (st : State) (b : string) : list string :=
  default [] (inverseReferenceMap st !! b).

(** The two indices mirror each other without duplicates, a live item's
    forward entry is its current reference list, and a deleted item's uuid
    occurs in neither index. *)
Definition indicesConsistent (st : State) : Prop :=
  (∀ a b, b ∈ forwardEntry st a ↔ a ∈ inverseEntry st b)
  ∧ (∀ a, NoDup (forwardEntry st a) ∧ NoDup (inverseEntry st a))
  ∧ (∀ item, item ∈ collection st → deleted item = false →
       forwardEntry st (uuid item) = map ref_uuid (references item))
  ∧ (∀ item x, item ∈ collection st → deleted item = true →
       ¬ (uuid item ∈ forwardEntry st x) ∧ ¬ (uuid item ∈ inverseEntry st x)).

End ItemManager.

(** ** Protocol operator 001 *)

Module Operator001.

(** An [ArrayBuffer]; a call that yields null or undefined is [None].  An
    [ArrayBuffer] object is truthy whatever its length. *)
Definition Buffer := option (list Z).

Section Crypto.
(** The result type of the AES primitive is left open. *)
Context {Output : Type}.
Variable hexStringToArrayBuffer : string -> Buffer.
Variable aes256CbcDecrypt : string -> Buffer -> Buffer -> Output.
Variable aes256CbcEncrypt : string -> Buffer -> Buffer -> Output.

(** [iv || ""] *)
Definition orEmpty (iv : option string) : string :=
  match iv with
  | Some s => s
  | None => EmptyString
  end.

(** [new ArrayBuffer(16)] *)
Definition zeroBuffer16 : Buffer := Some (repeat 0%Z 16).

(** [ivData] is declared [const]: the assignment in the branch taken when
    it is falsy raises a [TypeError] instead of rebinding it. *)
Definition decryptText (contentCiphertext encryptionKey : string)
    (iv : option string) : result Output :=
  let keyData := hexStringToArrayBuffer encryptionKey in
  let ivData := hexStringToArrayBuffer (orEmpty iv) in
  match ivData with
  | None => Throw "TypeError: Assignment to constant variable."
  | Some _ => Ok (aes256CbcDecrypt contentCiphertext keyData ivData)
  end.

Definition encryptText (text rawKey : string) (iv : option string)
  : result Output :=
  let keyData := hexStringToArrayBuffer rawKey in
  let ivData := hexStringToArrayBuffer (orEmpty iv) in
  match ivData with
  | None => Throw "TypeError: Assignment to constant variable."
  | Some _ => Ok (aes256CbcEncrypt text keyData ivData)
  end.
End Crypto.

End Operator001.

(** ** Statements of the specification, and concrete inputs *)

(** The client-only fields that a server-format payload must not carry. *)
Definition clientOnlyFields : list PayloadField.t :=
  [ PayloadField.Dirty; PayloadField.DirtiedDate; PayloadField.LastSyncBegan;
    PayloadField.LastSyncEnd; PayloadField.WaitingForKey;
    PayloadField.ErrorDecrypting; PayloadField.ErrorDecryptingChanged;
    PayloadField.Dummy ].

(** The fields that survive a projection to server format. *)
Definition serverFields : list PayloadField.t :=
  [ PayloadField.Uuid; PayloadField.ContentType; PayloadField.ItemsKeyId;
    PayloadField.EncItemKey; PayloadField.Content; PayloadField.CreatedAt;
    PayloadField.UpdatedAt; PayloadField.Deleted;
    PayloadField.Legacy003AuthHash ].

Definition serverIntent (intent : EncryptionIntent.t) : bool :=
  match intent with
  | EncryptionIntent.Sync | EncryptionIntent.SyncDecrypted => true
  | _ => false
  end.

Definition serverSource (source : PayloadSource.t) : bool :=
  match source with
  | PayloadSource.RemoteRetrieved
  | PayloadSource.ConflictData
  | PayloadSource.ConflictUuid => true
  | _ => false
  end.

Definition serverFormat (override : option RawPayload) (p : PurePayload)
  : Prop :=
  fields p = Generator.ServerPayloadFields
  ∧ (∀ f, f ∈ fields p ↔ f ∈ serverFields)
  ∧ (∀ f, f ∈ clientOnlyFields → f ∉ fields p)
  ∧ (override = None → ∀ f, f ∉ serverFields → raw p f = None).

Module Examples.

(** A decrypted note carrying every client-side flag. *)
Definition noteObject : RawPayload :=
  setField PayloadField.Uuid (JStr "note-1")
    (setField PayloadField.ContentType (JStr "Note")
       (setField PayloadField.Content
          (JObj [("title", JStr "T"); ("references", JArr [])])
          (setField PayloadField.Dirty (JBool true)
             (setField PayloadField.Dummy (JBool true)
                (setField PayloadField.WaitingForKey (JBool true)
                   emptyObject))))).

Definition notePayload : PurePayload :=
  Generator.CreatePayload noteObject Generator.MaxPayloadFields None.

(** A note as it is retrieved, without client-side flags. *)
Definition retrievedObject : RawPayload :=
  setField PayloadField.Uuid (JStr "note-1")
    (setField PayloadField.ContentType (JStr "Note") emptyObject).

(** The same note after a failed decryption. *)
Definition erroredPayload : PurePayload :=
  Generator.CreatePayload noteObject Generator.MaxPayloadFields
    (Some (setField PayloadField.ErrorDecrypting (JBool true) emptyObject)).

(** A version 004 ciphertext without [items_key_id]. *)
Definition latestCiphertext : PurePayload :=
  Generator.CreatePayload
    (setField PayloadField.Content (JStr "004:nonce:ciphertext:aad")
       retrievedObject)
    Generator.MaxPayloadFields None.

(** A version 003 ciphertext without [items_key_id]. *)
Definition legacyCiphertext : PurePayload :=
  Generator.CreatePayload
    (setField PayloadField.Content (JStr "003:hash:uuid:iv:ciphertext")
       retrievedObject)
    Generator.MaxPayloadFields None.

(** An encrypted payload whose content is the empty string. *)
Definition emptyCiphertext : PurePayload :=
  Generator.CreatePayload
    (setField PayloadField.Content (JStr EmptyString) retrievedObject)
    Generator.MaxPayloadFields None.

(** A tombstone: deleted, no content. *)
Definition tombstone : PurePayload :=
  Generator.CreatePayload
    (setField PayloadField.Uuid (JStr "note-2")
       (setField PayloadField.Deleted (JBool true) emptyObject))
    Generator.MaxPayloadFields None.

(** Operators whose cryptography always succeeds, resp. always fails. *)
Definition encryptStub (operator : string) (p : PurePayload)
    (k : option Key) : result (option PurePayload) :=
  Ok (Some (Generator.CreateEncryptionParameters
              (setField PayloadField.Content
                 (JStr (operator ++ ":ciphertext")) emptyObject))).

Definition decryptFails (operator : string) (p : PurePayload)
    (k : option Key) : result PurePayload :=
  Throw "Unable to decrypt".

Definition jsonBase64Stub (v : JsValue) : string := "e30=".
Definition base64JsonStub (s : string) : option JsValue := None.

Definition accountKey : SNRootKey :=
  mkRootKey 1 (Some "root-key-1") "004" "master-key-1" None.

Definition passcodeKey : SNRootKey :=
  mkRootKey 2 (Some "root-key-2") "004" "master-key-2" None.

Definition accountParams : SNRootKeyParams :=
  mkKeyParams "a@b.c" "004" "salt".

Definition localKey : SNItemsKey :=
  mkItemsKey "items-key-1" "003" "k1" (Some "ak1") true None false false.

Definition staleKey : SNItemsKey :=
  mkItemsKey "items-key-2" "004" "k2" None false None false false.

Definition syncedKey : SNItemsKey :=
  mkItemsKey "items-key-3" "004" "k3" None true (Some 1588000000000%Z) false
    false.

(** No account and no passcode. *)
Definition emptyService : ServiceState :=
  mkService KeyMode.RootKeyNone None ∅ None [] 0.

(** A passcode but no account: the wrapping key is the root key. *)
Definition passcodeOnlyService : ServiceState :=
  mkService KeyMode.WrapperOnly (Some passcodeKey) ∅ None [localKey] 0.

(** An account without passcode holding two never-synced items keys. *)
Definition accountService : ServiceState :=
  mkService KeyMode.RootKeyOnly (Some accountKey) ∅ (Some accountKey)
    [localKey; staleKey] 0.

(** A key observer that returns, and one that throws. *)
Definition quietKeyObserver : KeyChangeObserver := fun _ => Ok tt.

Definition failingKeyObserver : KeyChangeObserver :=
  fun _ => Throw "key observer failed".

(** A version 003 ciphertext that names an items key the service does not
    hold. *)
Definition orphanCiphertext : PurePayload :=
  Generator.CreatePayload
    (setField PayloadField.ItemsKeyId (JStr "items-key-9")
       (setField PayloadField.Content (JStr "003:hash:uuid:iv:ciphertext")
          retrievedObject))
    Generator.MaxPayloadFields None.

Definition compareVersionsStub (a b : string) : Z :=
  match String.compare a b with Lt => (-1)%Z | Eq => 0%Z | Gt => 1%Z end.
Definition generateUuidStub (svc : ServiceState) : string := "fresh-uuid".
Definition newItemsKeyStub (operator : string) : string * option string :=
  ("random-key", None).

End Examples.

Module ItemExamples.
Import ItemManager.

Definition note (refs : list ContentReference) : SNItem :=
  mkItem "note" ContentType.Note refs false false false false.

Definition tag (refs : list ContentReference) : SNItem :=
  mkItem "tag" ContentType.Tag refs false false false false.

Definition toNote : ContentReference := mkReference "note" ContentType.Note.
Definition toOther : ContentReference := mkReference "other" ContentType.Note.

Definition corrupt : SNItem :=
  mkItem "corrupt" ContentType.Note [] false true false true.

Definition corruptDeleted : SNItem :=
  mkItem "gone" ContentType.Note [] true true false true.

Definition edited : SNItem :=
  mkItem "edited" ContentType.Tag [] false true false false.

Definition quiet (n : Notification) : result unit := Ok tt.

Definition arrayObserver : Observer :=
  mkObserver (Many [ContentType.Note; ContentType.Tag]) quiet.

Definition noteObserver : Observer := mkObserver (One ContentType.Note) quiet.

Definition anyObserver : Observer := mkObserver (One ContentType.Any) quiet.

(** First occurrence removed, for running the index code. *)
Fixpoint removeFirst (array : list string) (value : string) : list string :=
  match array with
  | [] => []
  | x :: rest =>
      if String.eqb x value then rest else x :: removeFirst rest value
  end.
(** A collection holding a corrupt item, a corrupt deletion and an edit. *)
Definition dirtyState : State :=
  mkState [corrupt; corruptDeleted; edited] ∅ ∅ [].

Definition allObservers : list Observer :=
  [arrayObserver; noteObserver; anyObserver].

(** A tag referencing a note is saved twice, loses its reference, or has it
    replaced. *)
Definition savedTwice : list Emission :=
  [ Insertion [tag [toNote]]; Change [tag [toNote]] ].

Definition referenceDropped : list Emission :=
  [ Insertion [tag [toNote]]; Change [tag []] ].

Definition referenceReplaced : list Emission :=
  [ Insertion [tag [toNote]]; Change [tag [toOther]] ].
End ItemExamples.

Module CryptoExamples.
Import Operator001.

(** A crypto adapter that yields nothing for the empty hex string, and one
    that yields an empty buffer. *)
Definition nullHex (s : string) : Buffer :=
  if String.eqb s EmptyString then None else Some [0%Z; 255%Z].

Definition emptyHex (s : string) : Buffer :=
  if String.eqb s EmptyString then Some [] else Some [0%Z; 255%Z].

(** An AES stand-in that reports the IV it was called with. *)
Definition reportIv (text : string) (key iv : Buffer) : Buffer := iv.
End CryptoExamples.

(** ** What the specification says about the protocol service *)

Definition usesRootKey (p : PurePayload) : bool :=
  contentTypeUsesRootKeyEncryption (raw p PayloadField.ContentType).

(** No decryption key can be located for the payload: no root key for the
    root-key content types; otherwise, for a payload that names an
    [items_key_id], no items key with that uuid, and for a payload that names
    none, no items key of the payload's version. *)
Definition noKeyLocated (svc : ServiceState) (p : PurePayload) : Prop :=
  if usesRootKey p then rootKey svc = None
  else if truthy (raw p PayloadField.ItemsKeyId)
  then itemsKeyForPayload svc p = None
  else defaultItemsKeyForItemVersion svc (version p) = None.

Definition waitsForKey (p : PurePayload) (out : result PurePayload) : Prop :=
  ∃ q, out = Ok q
       ∧ waitingForKey q = true
       ∧ errorDecrypting q = true
       ∧ content q = content p.

(** A payload of the latest protocol version that names no items key and is
    not encrypted with the root key. *)
Definition latestWithoutItemsKeyId (p : PurePayload) : bool :=
  negb (usesRootKey p)
  && negb (truthy (raw p PayloadField.ItemsKeyId))
  && bool_decide (version p = Some getLatestVersion).

(** The specification's sentence on a missing key, for every encrypted
    payload. *)
Definition missingKeyAlwaysWaits : Prop :=
  ∀ decryptString base64Json svc p,
    format p = Some PayloadFormat.EncryptedString →
    noKeyLocated svc p →
    waitsForKey p
      (payloadByDecryptingPayload decryptString base64Json svc p None).

Definition nextKeyMode (m : KeyMode.t) : KeyMode.t :=
  match m with
  | KeyMode.RootKeyNone => KeyMode.RootKeyOnly
  | KeyMode.WrapperOnly => KeyMode.RootKeyPlusWrapper
  | m => m
  end.

Definition hasWrapper (m : KeyMode.t) : bool :=
  match m with
  | KeyMode.WrapperOnly | KeyMode.RootKeyPlusWrapper => true
  | _ => false
  end.

(** A default items key that has been synced exists. *)
Definition hasSyncedDefault (ks : list SNItemsKey) : bool :=
  existsb (fun key => negb (neverSynced key) && isDefault key) ks.

(** The keys of [svc] that are still live in [svc'], and the keys of [svc']
    that [svc] did not have. *)
Definition remainingKeys (svc svc' : ServiceState) : list SNItemsKey :=
  List.filter
    (fun k => negb (ik_deleted k) && listed (ik_uuid k) (itemsKeys svc))
    (itemsKeys svc').

Definition createdKeys (svc svc' : ServiceState) : list SNItemsKey :=
  List.filter (fun k => negb (listed (ik_uuid k) (itemsKeys svc)))
    (itemsKeys svc').

(** The reconciliation after a download-first sync as the specification
    words it. *)
Definition reconciledAsSpecified (svc svc' : ServiceState) : Prop :=
  let ks := itemsKeys svc in
  (hasSyncedDefault ks = true →
   ∀ k, k ∈ ks → neverSynced k = true → markDeleted k ∈ itemsKeys svc')
  ∧ (hasSyncedDefault ks = false →
     (∀ rk k, rootKey svc = Some rk → k ∈ ks → neverSynced k = true →
        if decide (ik_version k = rk_version rk)
        then k ∈ itemsKeys svc'
        else markDeleted k ∈ itemsKeys svc')
     ∧ (remainingKeys svc svc' = [] →
        ∃ k, k ∈ createdKeys svc svc' ∧ isDefault k = true)).

Definition deleteWhere (P : SNItemsKey -> bool) (svc : ServiceState)
  : ServiceState :=
  setItemsKeys (map (fun k => if P k then markDeleted k else k) (itemsKeys svc))
    svc.

Definition supportedVersion (v : string) : bool :=
  bool_decide (v ∈ ["001"; "002"; "003"; "004"]).

Section Statements.
Variable encryptString :
  string -> PurePayload -> option Key -> result (option PurePayload).
Variable decryptString :
  string -> PurePayload -> option Key -> result PurePayload.
Variable jsonBase64 : JsValue -> string.
Variable base64Json : string -> option JsValue.
Variable keyObservers : list KeyChangeObserver.

(** What the batch puts out for one input entry. *)
Definition entryOutcome (svc : ServiceState) (key : option Key)
    (input output : option PurePayload) : Prop :=
  match input with
  | None => output = None
  | Some p =>
      (isTrue (raw p PayloadField.Deleted) = true →
       isNullOrUndefined (content p) = true → output = Some p)
      ∧ (isString (content p) = false → output = Some p)
      ∧ (isString (content p) = true →
         ∀ d, payloadByDecryptingPayload decryptString base64Json svc p key
              = Ok d → output = Some d)
      ∧ (isString (content p) = true →
         ∀ e, payloadByDecryptingPayload decryptString base64Json svc p key
              = Throw e →
         ∃ q, output = Some q
              ∧ raw q PayloadField.ErrorDecrypting = Some (JBool true)
              ∧ content q = content p
              ∧ raw q PayloadField.ErrorDecryptingChanged
                = Some (JBool (negb (errorDecrypting p))))
  end.

(** The root key wrapped with the wrapping key, when wrapping succeeds. *)
Definition wrappedRootKey (svc : ServiceState) (key wrappingKey : SNRootKey)
  : result PurePayload :=
  payload ← Generator.CreateMaxPayloadFromAnyObject (rootKeyObject key)
              None None (Some (contentOnly (Some (getPersistableValue key))));
  payloadByEncryptingPayload encryptString jsonBase64 svc payload
    (Some EncryptionIntent.LocalStorageEncrypted)
    (Some (RootKeyOf wrappingKey)).

(** The last two steps of [setNewRootKey]: the key observers are awaited on
    the service as it is before any items key is touched, and the outcome of
    the call is theirs; every items key is marked dirty when they all return,
    and none when one of them throws. *)
Definition reencryptedAfterObservers (svc : ServiceState)
    (out : result unit * ServiceState) : Prop :=
  out.1 = awaitObservers keyObservers (setItemsKeys (itemsKeys svc) out.2)
  ∧ itemsKeys out.2
    = match out.1 with
      | Ok _ => map markDirty (itemsKeys svc)
      | Throw _ => itemsKeys svc
      end.

(** The effects of [setNewRootKey] that the specification lists. *)
Definition newRootKeyInstalled (svc : ServiceState) (key : SNRootKey)
    (keyParams : SNRootKeyParams) (wrappingKey : option SNRootKey)
    (out : result unit * ServiceState) : Prop :=
  let svc' := out.2 in
  keyMode svc' = nextKeyMode (keyMode svc)
  ∧ rootKey svc' = Some key
  ∧ storage svc' !! StorageKey.RootKeyParams
    = Some (PortableKeyParams keyParams)
  ∧ if hasWrapper (nextKeyMode (keyMode svc))
    then
      match wrappingKey with
      | None =>
          out.1 = Throw "wrappingKey must be supplied"
          ∧ itemsKeys svc' = itemsKeys svc
      | Some w =>
          keychain svc' = keychain svc
          ∧ match wrappedRootKey svc key w with
            | Ok wrapped =>
                storage svc' !! StorageKey.WrappedRootKey
                = Some (StoredPayload wrapped)
                ∧ reencryptedAfterObservers svc out
            | Throw e => out.1 = Throw e ∧ itemsKeys svc' = itemsKeys svc
            end
      end
    else
      keychain svc' = Some key
      ∧ storage svc' !! StorageKey.WrappedRootKey
        = storage svc !! StorageKey.WrappedRootKey
      ∧ reencryptedAfterObservers svc out.
End Statements.

(** ** Further code of the payload generator and the protocol service *)

(** [CopyPayload] of the generator: the payload's own field list is kept, and
    the override is merged without the object check of [CreatePayload]. *)
Definition CopyPayload (payload : PurePayload) (override : option RawPayload)
  : PurePayload :=
  let rawPayload := pickByCopy (raw payload) (fields payload) in
  match override with
  | Some o => mkPayload (deepMerge rawPayload o) (fields payload)
  | None => mkPayload rawPayload (fields payload)
  end.

(** [object[k]] for an object held as its list of own properties. *)
Fixpoint getProp (k : string) (fs : list (string * JsValue))
  : option JsValue :=
  match fs with
  | [] => None
  | (k', v) :: rest => if String.eqb k k' then Some v else getProp k rest
  end.

(** The own properties of a value; a value that is not an object has none. *)
Definition properties (v : JsValue) : list (string * JsValue) :=
  match v with
  | JObj fs => fs
  | _ => []
  end.

(** [typeof v === 'object'] for a non-null, non-array value. *)
Definition isPlainObject (v : JsValue) : bool :=
  match v with
  | JObj _ => true
  | _ => false
  end.

(** The three intents that write to local storage. *)
Definition storageIntent (intent : EncryptionIntent.t) : bool :=
  match intent with
  | EncryptionIntent.LocalStorageEncrypted
  | EncryptionIntent.LocalStorageDecrypted
  | EncryptionIntent.LocalStoragePreferEncrypted => true
  | _ => false
  end.

(** The [intent] argument of [payloadsByEncryptingPayloads]: an intent, or a
    function of the payload of the current iteration. *)
Inductive IntentArgument :=
| ConstantIntent (intent : option EncryptionIntent.t)
| IntentFunction (f : PurePayload -> option EncryptionIntent.t).

Definition useIntent (intent : IntentArgument) (payload : PurePayload)
  : option EncryptionIntent.t :=
  match intent with
  | ConstantIntent i => i
  | IntentFunction f => f payload
  end.

(** [BackupFile]: the key params under either of their two names, and the
    raw items. *)
Record BackupFile := mkBackupFile {
  bf_keyParams : option SNRootKeyParams;
  bf_auth_params : option SNRootKeyParams;
  bf_items : list RawPayload
}.

Section Batches.
Variable encryptString :
  string -> PurePayload -> option Key -> result (option PurePayload).
Variable decryptString :
  string -> PurePayload -> option Key -> result PurePayload.
Variable jsonBase64 : JsValue -> string.
Variable base64Json : string -> option JsValue.
(** [operator.computeRootKey(password, keyParams)], the key derivation of
    the operator of the given version. *)
Variable operatorComputeRootKey :
  string -> option string -> SNRootKeyParams -> result SNRootKey.

Fixpoint payloadsByEncryptingPayloads (svc : ServiceState)
    (payloads : list PurePayload) (intent : IntentArgument)
  : result (list PurePayload) :=
  match payloads with
  | [] => Ok []
  | payload :: rest =>
      encryptedPayload ←
        payloadByEncryptingPayload encryptString jsonBase64 svc payload
          (useIntent intent payload) None;
      results ← payloadsByEncryptingPayloads svc rest intent;
      Ok (encryptedPayload :: results)
  end.

Definition computeRootKey (password : option string)
    (keyParams : SNRootKeyParams) : result SNRootKey :=
  operator ← operatorForVersion (Some (kp_version keyParams));
  operatorComputeRootKey operator password keyParams.

(** [data.keyParams || data.auth_params] *)
Definition backupKeyParams (data : BackupFile) : option SNRootKeyParams :=
  match bf_keyParams data with
  | Some p => Some p
  | None => bf_auth_params data
  end.

Fixpoint sourcedPayloads (rawItems : list RawPayload)
  : result (list PurePayload) :=
  match rawItems with
  | [] => Ok []
  | rawItem :: rest =>
      payload ← Generator.CreateSourcedPayloadFromObject rawItem
                  PayloadSource.FileImport None;
      payloads ← sourcedPayloads rest;
      Ok (payload :: payloads)
  end.

Definition payloadsByDecryptingBackupFile (svc : ServiceState)
    (data : BackupFile) (password : option string)
  : result (list (option PurePayload)) :=
  let keyParams := backupKeyParams data in
  encryptedPayloads ← sourcedPayloads (bf_items data);
  match keyParams with
  | Some keyParams =>
      key ← computeRootKey password keyParams;
      payloadsByDecryptingPayloads decryptString base64Json svc
        (map Some encryptedPayloads) (Some (RootKeyOf key))
  | None => Ok (map Some encryptedPayloads)
  end.
End Batches.

(** The two loops of lodash's merge over the own properties of the source:
    [mergeProperty] assigns one source property to the destination object,
    [mergeProperties] all of them in order. *)
Fixpoint mergeProperty (k : string) (v : JsValue)
    (acc : list (string * JsValue)) : list (string * JsValue) :=
  match acc with
  | [] => [(k, v)]
  | (k', d) :: acc' =>
      if String.eqb k k' then (k', mergeValue d v) :: acc'
      else (k', d) :: mergeProperty k v acc'
  end.

Fixpoint mergeProperties (fs acc : list (string * JsValue))
  : list (string * JsValue) :=
  match fs with
  | [] => acc
  | (k, v) :: rest => mergeProperties rest (mergeProperty k v acc)
  end.

(** ** Key manager: passcode wrapper, unlocking, sign-out and start-up *)

(** [createKeyParams]: raw key params without a version are of version
    002. *)
Definition createKeyParams (keyParams : SNRootKeyParams) : SNRootKeyParams :=
  if String.eqb (kp_version keyParams) EmptyString
  then mkKeyParams (kp_identifier keyParams) "002" (kp_salt keyParams)
  else keyParams.

(** A stored value read as raw key params, resp. as a raw payload: a
    property that the stored object does not have is undefined. *)
Definition rawKeyParams (v : StorageValue) : SNRootKeyParams :=
  match v with
  | PortableKeyParams p => p
  | StoredPayload _ => mkKeyParams EmptyString EmptyString EmptyString
  end.

Definition storedObject (v : option StorageValue) : RawPayload :=
  match v with
  | Some (StoredPayload p) => raw p
  | _ => emptyObject
  end.

Definition getRootKeyWrapperKeyParams (svc : ServiceState)
  : option SNRootKeyParams :=
  match storage svc !! StorageKey.RootKeyWrapperKeyParams with
  | Some rawParams => Some (createKeyParams (rawKeyParams rawParams))
  | None => None
  end.

Definition getWrappedRootKey (svc : ServiceState) : option StorageValue :=
  storage svc !! StorageKey.WrappedRootKey.

Definition getAccountKeyParams (svc : ServiceState)
  : option SNRootKeyParams :=
  match storage svc !! StorageKey.RootKeyParams with
  | Some rawParams => Some (createKeyParams (rawKeyParams rawParams))
  | None => None
  end.

Definition hasRootKeyWrapper (svc : ServiceState) : bool :=
  match getRootKeyWrapperKeyParams svc with
  | Some _ => true
  | None => false
  end.

Definition hasPasscode (svc : ServiceState) : bool :=
  bool_decide (keyMode svc = KeyMode.WrapperOnly)
  || bool_decide (keyMode svc = KeyMode.RootKeyPlusWrapper).

(** [storageService.removeValue(key, StorageValueModes.Nonwrapped)] *)
Definition storageRemoveValue (k : StorageKey.t) : M unit :=
  modify (fun svc => setStorage (delete k (storage svc)) svc).

Section KeyManager.
Variable encryptString :
  string -> PurePayload -> option Key -> result (option PurePayload).
Variable decryptString :
  string -> PurePayload -> option Key -> result PurePayload.
Variable jsonBase64 : JsValue -> string.
Variable base64Json : string -> option JsValue.
(** [SNRootKey.Create(content, uuid)] builds a new key object; the root key
    class is not part of the sources. *)
Variable rootKeyCreate : option JsValue -> option JsValue -> SNRootKey.
(** [storageService.canDecryptWithKey] *)
Variable canDecryptWithKey : SNRootKey -> result bool.
(** [this.keyObservers] *)
Variable keyObservers : list KeyChangeObserver.

Definition getRootKeyFromKeychain (svc : ServiceState) : option SNRootKey :=
  match keychain svc with
  | None => None
  | Some rawKey => Some (rootKeyCreate (Some (getPersistableValue rawKey)) None)
  end.

Definition initialize : M unit :=
  svc ← get;
  let wrappedRootKey := getWrappedRootKey svc in
  let accountKeyParams := getAccountKeyParams svc in
  let hasWrapper := hasRootKeyWrapper svc in
  let hasRootKey :=
    bool_decide (is_Some wrappedRootKey)
    || bool_decide (is_Some accountKeyParams) in
  (if hasWrapper && hasRootKey
   then modify (setKeyMode KeyMode.RootKeyPlusWrapper)
   else if hasWrapper && negb hasRootKey
   then modify (setKeyMode KeyMode.WrapperOnly)
   else if negb hasWrapper && hasRootKey
   then modify (setKeyMode KeyMode.RootKeyOnly)
   else if negb hasWrapper && negb hasRootKey
   then modify (setKeyMode KeyMode.RootKeyNone)
   else throw "Invalid key mode condition");;
  svc ← get;
  if bool_decide (keyMode svc = KeyMode.RootKeyOnly)
  then
    modify (setRootKey (getRootKeyFromKeychain svc));;
    notifyObserversOfKeyChange keyObservers
  else mret tt.

(** The wrapped root key read back from storage and decrypted with the
    wrapping key.  With nothing stored there is no content to decrypt, and
    the call throws. *)
Definition decryptWrappedRootKey (svc : ServiceState)
    (wrappingKey : SNRootKey) : result PurePayload :=
  payload ← Generator.CreateMaxPayloadFromAnyObject
              (storedObject (getWrappedRootKey svc)) None None None;
  payloadByDecryptingPayload decryptString base64Json svc payload
    (Some (RootKeyOf wrappingKey)).

Definition validateWrappingKey (svc : ServiceState) (wrappingKey : SNRootKey)
  : result bool :=
  match keyMode svc with
  | KeyMode.WrapperOnly => canDecryptWithKey wrappingKey
  | KeyMode.RootKeyOnly | KeyMode.RootKeyPlusWrapper =>
      decrypted ← decryptWrappedRootKey svc wrappingKey;
      Ok (negb (errorDecrypting decrypted))
  | KeyMode.RootKeyNone => Throw "Unhandled case in validateWrappingKey"
  end.

Definition unwrapRootKey (wrappingKey : SNRootKey) : M unit :=
  svc ← get;
  if bool_decide (keyMode svc = KeyMode.WrapperOnly)
  then modify (setRootKey (Some wrappingKey))
  else if negb (bool_decide (keyMode svc = KeyMode.RootKeyPlusWrapper))
  then throw "Invalid key mode condition for unwrapping."
  else
    decrypted ← lift (decryptWrappedRootKey svc wrappingKey);
    if errorDecrypting decrypted
    then throw "Unable to decrypt root key with provided wrapping key."
    else
      modify (setRootKey
                (Some (rootKeyCreate (content decrypted)
                         (raw decrypted PayloadField.Uuid))));;
      notifyObserversOfKeyChange keyObservers.

Definition setNewRootKeyWrapper (wrappingKey : SNRootKey)
    (keyParams : SNRootKeyParams) : M unit :=
  svc ← get;
  match keyMode svc with
  | KeyMode.RootKeyNone => modify (setKeyMode KeyMode.WrapperOnly)
  | KeyMode.RootKeyOnly => modify (setKeyMode KeyMode.RootKeyPlusWrapper)
  | _ => throw "Attempting to set wrapper on already wrapped key."
  end;;
  modify (setKeychain None);;
  svc ← get;
  if bool_decide (keyMode svc = KeyMode.WrapperOnly)
     || bool_decide (keyMode svc = KeyMode.RootKeyPlusWrapper)
  then
    (if bool_decide (keyMode svc = KeyMode.WrapperOnly)
     then modify (setRootKey (Some wrappingKey));; reencryptItemsKeys
     else wrapAndPersistRootKey encryptString jsonBase64 wrappingKey);;
    storageSetValue StorageKey.RootKeyWrapperKeyParams
      (PortableKeyParams keyParams);;
    notifyObserversOfKeyChange keyObservers
  else throw "Invalid keyMode on setNewRootKeyWrapper".

Definition removeRootKeyWrapper : M unit :=
  svc ← get;
  if negb (bool_decide (keyMode svc = KeyMode.WrapperOnly))
     && negb (bool_decide (keyMode svc = KeyMode.RootKeyPlusWrapper))
  then throw "Attempting to remove root key wrapper on unwrapped key."
  else
    (if bool_decide (keyMode svc = KeyMode.WrapperOnly)
     then modify (setKeyMode KeyMode.RootKeyNone);; modify (setRootKey None)
     else if bool_decide (keyMode svc = KeyMode.RootKeyPlusWrapper)
     then modify (setKeyMode KeyMode.RootKeyOnly)
     else mret tt);;
    storageRemoveValue StorageKey.WrappedRootKey;;
    storageRemoveValue StorageKey.RootKeyWrapperKeyParams;;
    svc ← get;
    (if bool_decide (keyMode svc = KeyMode.RootKeyOnly)
     then saveRootKeyToKeychain else mret tt);;
    notifyObserversOfKeyChange keyObservers.

Definition clearLocalKeyState : M unit :=
  modify (setKeychain None);;
  storageRemoveValue StorageKey.WrappedRootKey;;
  storageRemoveValue StorageKey.RootKeyWrapperKeyParams;;
  storageRemoveValue StorageKey.RootKeyParams;;
  modify (setKeyMode KeyMode.RootKeyNone);;
  modify (setRootKey None);;
  notifyObserversOfKeyChange keyObservers.

(** The calls through which the application changes the key state. *)
Inductive KeyOperation :=
| Initialize
| SetNewRootKey (key : SNRootKey) (keyParams : option SNRootKeyParams)
    (wrappingKey : option SNRootKey)
| SetNewRootKeyWrapper (wrappingKey : SNRootKey) (keyParams : SNRootKeyParams)
| RemoveRootKeyWrapper
| UnwrapRootKey (wrappingKey : SNRootKey)
| ClearLocalKeyState.

Definition perform (operation : KeyOperation) : M unit :=
  match operation with
  | Initialize => initialize
  | SetNewRootKey key keyParams wrappingKey =>
      setNewRootKey encryptString jsonBase64 keyObservers key keyParams
        wrappingKey
  | SetNewRootKeyWrapper wrappingKey keyParams =>
      setNewRootKeyWrapper wrappingKey keyParams
  | RemoveRootKeyWrapper => removeRootKeyWrapper
  | UnwrapRootKey wrappingKey => unwrapRootKey wrappingKey
  | ClearLocalKeyState => clearLocalKeyState
  end.
End KeyManager.

(** [key] has a value in the nonwrapped storage domain. *)
Definition isStored (key : StorageKey.t) (svc : ServiceState) : bool :=
  match storage svc !! key with
  | Some _ => true
  | None => false
  end.

(** What is persisted agrees with the key mode held in memory: wrapper key
    params exactly in the two passcode modes, account key params exactly in
    the two account modes, a wrapped root key exactly with account and
    passcode. *)
Definition keyStateConsistent (svc : ServiceState) : Prop :=
  isStored StorageKey.RootKeyWrapperKeyParams svc = hasPasscode svc
  ∧ isStored StorageKey.RootKeyParams svc
    = (bool_decide (keyMode svc = KeyMode.RootKeyOnly)
       || bool_decide (keyMode svc = KeyMode.RootKeyPlusWrapper))
  ∧ isStored StorageKey.WrappedRootKey svc
    = bool_decide (keyMode svc = KeyMode.RootKeyPlusWrapper).

Section FullSync.
Variable compareVersions : string -> string -> Z.
Variable generateUuid : ServiceState -> string.
Variable generateNewItemsKeyContent : string -> string * option string.

(** The result tells whether [repersistAllItems] was called: that call
    saves every item through the storage service and leaves the key state
    as it is. *)
Definition handleFullSyncCompletion : M bool :=
  svc ← get;
  match getDefaultItemsKey svc with
  | Some _ => mret false
  | None =>
      createNewDefaultItemsKey compareVersions generateUuid
        generateNewItemsKeyContent;;
      svc ← get;
      if bool_decide (keyMode svc = KeyMode.WrapperOnly)
      then mret true
      else mret false
  end.
End FullSync.

(** The items keys flagged as default. *)
Definition defaultItemsKeys (svc : ServiceState) : list SNItemsKey :=
  List.filter isDefault (itemsKeys svc).

(** ** Item manager: queries *)

Module ItemQueries.
Import ItemManager.

(** Modelled from the spec: [MutableCollection.all(contentType)], the items
    of the collection that have the content type, in collection order. *)
Definition all (contentType : ContentType.t) (st : State) : list SNItem :=
  List.filter (fun item => bool_decide (content_type item = contentType))
    (collection st).

Definition items (st : State) : list SNItem := collection st.

Definition notes (st : State) : list SNItem := all ContentType.Note st.
Definition tags (st : State) : list SNItem := all ContentType.Tag st.
Definition components (st : State) : list SNItem :=
  all ContentType.Component st.

(** [contentType === ContentType.Note] and the like: an array is never
    equal to a string. *)
Definition managedItemsForContentType (contentType : ObserverFilter)
    (st : State) : option (list SNItem) :=
  if strictEquals contentType ContentType.Note then Some (notes st)
  else if strictEquals contentType ContentType.Component
  then Some (components st)
  else if strictEquals contentType ContentType.Tag then Some (tags st)
  else None.

Definition getItemsOfTypes (contentTypes : list ContentType.t) (st : State)
  : list SNItem :=
  List.filter
    (fun item =>
       negb (dummy item) && bool_decide (content_type item ∈ contentTypes))
    (items st).

Definition getItems (contentType : ObserverFilter) (st : State)
  : list SNItem :=
  match contentType with
  | Many contentTypes => getItemsOfTypes contentTypes st
  | One c =>
      match managedItemsForContentType contentType st with
      | Some managed => managed
      | None => getItemsOfTypes [c] st
      end
  end.

Definition invalidItems (st : State) : list SNItem :=
  List.filter errorDecrypting (items st).

Definition validItemsForContentType (contentType : ObserverFilter)
    (st : State) : list SNItem :=
  let items :=
    match managedItemsForContentType contentType st with
    | Some managed => managed
    | None => items st
    end in
  List.filter
    (fun item =>
       negb (errorDecrypting item)
       && match contentType with
          | Many contentTypes =>
              bool_decide (content_type item ∈ contentTypes)
          | One c => bool_decide (content_type item = c)
          end)
    items.

Definition noteCount (st : State) : nat :=
  length (List.filter (fun n => negb (dummy n)) (notes st)).

(** [index[key] || []] *)
Definition indexEntry (index : gmap string (list string)) (key : string)
  : list string :=
  default [] (index !! key).

(** The two indices are mirror images of each other and hold no uuid
    twice. *)
Definition indicesMirrored (st : State) : Prop :=
  (∀ a b, b ∈ forwardEntry st a ↔ a ∈ inverseEntry st b)
  ∧ (∀ a, NoDup (forwardEntry st a) ∧ NoDup (inverseEntry st a)).

(** What the index code needs of [removeFromArray]: from an array without
    duplicates it removes the value and nothing else. *)
Definition removesValue
    (removeFromArray : list string -> string -> list string) : Prop :=
  ∀ array value,
    NoDup array →
    NoDup (removeFromArray array value)
    ∧ ∀ x, x ∈ removeFromArray array value ↔ x ∈ array ∧ x ≠ value.

(** Neither a key of the index nor a uuid listed in one of its arrays names
    a property of [Object.prototype]. *)
Definition ordinaryIndex (index : gmap string (list string)) : Prop :=
  map_Forall (fun key array => ordinaryUuid key ∧ Forall ordinaryUuid array)
    index.

Definition ordinaryIndices (st : State) : Prop :=
  ordinaryIndex (referenceMap st) ∧ ordinaryIndex (inverseReferenceMap st).

Definition ordinaryItem (item : SNItem) : Prop :=
  ordinaryUuid (uuid item)
  ∧ Forall (fun reference => ordinaryUuid (ref_uuid reference))
      (references item).
End ItemQueries.

(** ** The operator base class and the string framing of version 001 *)

Module ProtocolOperator.

(** [key.substring(0, key.length / 2)]: a fractional index is truncated. *)
Definition firstHalfOfKey (key : string) : string :=
  String.substring 0 (String.length key / 2) key.

(** [key.substring(key.length / 2, key.length)] *)
Definition secondHalfOfKey (key : string) : string :=
  String.substring (String.length key / 2)
    (String.length key - String.length key / 2) key.

(** [s.slice(from, to)] for indices within the string. *)
Definition slice (s : string) (from to : nat) : string :=
  String.substring from (to - from) s.

(** The bounds [partLength * i] are taken as exact quotients, rounded down
    by [slice].  The code computes them with doubles: the two agree where
    [length / parts] is exact in binary, as for the two parts that the
    operators ask for, and may differ by one elsewhere. *)
Definition splitKey (key : string) (parts : nat) : list string :=
  let outputLength := String.length key in
  map (fun i =>
         slice key (outputLength * i / parts) (outputLength * (i + 1) / parts))
    (seq 0 parts).
End ProtocolOperator.

Module Operator001Items.
Import Operator001.

Record EncryptionComponents := mkComponents {
  contentCiphertext : string;
  encryptionVersion : string;
  encryptionKey : string;
  iv : option string
}.

Definition encryptionComponentsFromString (s encryptionKey : string)
  : EncryptionComponents :=
  let encryptionVersion := String.substring 0 3 s in
  mkComponents (String.substring 3 (String.length s - 3) s) encryptionVersion
    encryptionKey None.

(** The fields of an item that [decryptItem] reads and writes. *)
Record Item := mkItem {
  content : option JsValue;
  enc_item_key : option string;
  errorDecrypting : bool;
  errorDecryptingValueChanged : bool
}.

Section Crypto.
Variable hexStringToArrayBuffer : string -> Buffer.
(** AES yields the plaintext, or nothing when decryption fails. *)
Variable aes256CbcDecrypt : string -> Buffer -> Buffer -> option string.
Variable aes256CbcEncrypt : string -> Buffer -> Buffer -> string.
(** [JSON.parse(base64Decode(s))], nothing when either throws. *)
Variable base64Json : string -> option JsValue.

Definition _private_encryptString (s encryptionKey authKey uuid version : string)
  : result string :=
  contentCiphertext ←
    encryptText hexStringToArrayBuffer aes256CbcEncrypt s encryptionKey None;
  Ok (version ++ contentCiphertext).

(** [!value] for a string that may be null. *)
Definition absent (value : option string) : bool :=
  match value with
  | Some s => String.eqb s EmptyString
  | None => true
  end.

Definition flagError (item : Item) : Item :=
  mkItem (content item) (enc_item_key item) true
    (if negb (errorDecrypting item) then true
     else errorDecryptingValueChanged item).

(** The components built by [encryptionComponentsFromString] carry no uuid,
    so neither of the two uuid comparisons of [decryptItem] can fire. *)
Definition decryptItem (item : Item) (itemsKey : string) : result Item :=
  match content item with
  | Some (JStr s) =>
      if startsWith s "000"
      then
        match base64Json (String.substring 3 (String.length s - 3) s) with
        | Some parsed =>
            Ok (mkItem (Some parsed) (enc_item_key item)
                  (errorDecrypting item) (errorDecryptingValueChanged item))
        | None => Ok item
        end
      else if absent (enc_item_key item) then Ok item
      else
        let encryptedItemKey := "001" ++ default EmptyString (enc_item_key item) in
        let itemKeyComponents :=
          encryptionComponentsFromString encryptedItemKey itemsKey in
        item_key ←
          decryptText hexStringToArrayBuffer aes256CbcDecrypt
            (contentCiphertext itemKeyComponents)
            (encryptionKey itemKeyComponents) (iv itemKeyComponents);
        if absent item_key then Ok (flagError item)
        else
          let itemParams :=
            encryptionComponentsFromString s (default EmptyString item_key) in
          decrypted ←
            decryptText hexStringToArrayBuffer aes256CbcDecrypt
              (contentCiphertext itemParams) (encryptionKey itemParams)
              (iv itemParams);
          if absent decrypted then Ok (flagError item)
          else
            Ok (mkItem (JStr <$> decrypted) (enc_item_key item) false
                  (if errorDecrypting item then true
                   else errorDecryptingValueChanged item))
  | _ => Ok item
  end.
End Crypto.
End Operator001Items.

(** ** Privileges service *)

Module Privileges.

(** The two members of [PrivilegeCredentials] that the service handles. *)
Inductive PrivilegeCredential := AccountPassword | LocalPasscode.

Record AuthenticationResult := mkAuthentication {
  success : bool;
  successfulCredentials : list PrivilegeCredential;
  failedCredentials : list PrivilegeCredential
}.

Section Service.
Context {ProtectedAction : Type}.
(** [privileges.getCredentialsForAction], [sessionManager.online] and the
    validations of the protocol service belong to other services. *)
Variable getCredentialsForAction : ProtectedAction -> list PrivilegeCredential.
Variable online : bool.
Variable hasRootKeyWrapper : bool.
Variable validateAccountPassword : option string -> result bool.
Variable validatePasscode : option string -> result bool.

Definition netCredentialsForAction (action : ProtectedAction)
  : list PrivilegeCredential :=
  List.filter
    (fun credential =>
       match credential with
       | AccountPassword => online
       | LocalPasscode => hasRootKeyWrapper
       end)
    (getCredentialsForAction action).

Definition actionHasPrivilegesConfigured (action : ProtectedAction) : bool :=
  (0 <? length (netCredentialsForAction action))%nat.

Definition verifyAuthenticationParameters (credential : PrivilegeCredential)
    (value : option string) : result bool :=
  match credential with
  | AccountPassword => validateAccountPassword value
  | LocalPasscode => validatePasscode value
  end.

(** The loop of [authenticateAction] over the required credentials. *)
Fixpoint verifyCredentials (required : list PrivilegeCredential)
    (credentialAuthMapping : PrivilegeCredential -> option string)
    (successful failed : list PrivilegeCredential)
  : result (list PrivilegeCredential * list PrivilegeCredential) :=
  match required with
  | [] => Ok (successful, failed)
  | credential :: rest =>
      match verifyAuthenticationParameters credential
              (credentialAuthMapping credential) with
      | Ok true =>
          verifyCredentials rest credentialAuthMapping
            (successful ++ [credential]) failed
      | Ok false =>
          verifyCredentials rest credentialAuthMapping successful
            (failed ++ [credential])
      | Throw e => Throw e
      end
  end.

Definition authenticateAction (action : ProtectedAction)
    (credentialAuthMapping : PrivilegeCredential -> option string)
  : result AuthenticationResult :=
  let requiredCredentials := netCredentialsForAction action in
  match verifyCredentials requiredCredentials credentialAuthMapping [] [] with
  | Ok checked =>
      let successful := checked.1 in
      let failed := checked.2 in
      Ok (mkAuthentication (length failed =? 0)%nat successful failed)
  | Throw e => Throw e
  end.
End Service.
End Privileges.

(** The credential passes its validation. *)
Definition passes (verify : option string -> result bool)
    (value : option string) : bool :=
  match verify value with
  | Ok true => true
  | _ => false
  end.

(** ** Further concrete inputs *)

Module MoreExamples.
Import ItemManager.

(** A retrieved note whose content is the empty object. *)
Definition blankNote : PurePayload :=
  Generator.CreatePayload
    (setField PayloadField.Content (JObj []) Examples.retrievedObject)
    Generator.MaxPayloadFields None.

(** The base64 of the JSON text of the empty object, and its decoding. *)
Definition encodeStub (v : JsValue) : string := "e30=".

Definition decodeStub (s : string) : option JsValue :=
  if String.eqb s "e30=" then Some (JObj []) else None.

(** A cipher that must not be called. *)
Definition noCipher (operator : string) (p : PurePayload) (k : option Key)
  : result (option PurePayload) :=
  Throw "cipher called".

Definition unwrappedKey : SNRootKey :=
  mkRootKey 3 None "004" "master-key-1" None.

Definition rootKeyCreateStub (content uuid : option JsValue) : SNRootKey :=
  unwrappedKey.

Definition passcodeParams : SNRootKeyParams :=
  mkKeyParams "passcode" "004" "salt-2".

(** An operator whose decryption returns the parameters it is given. *)
Definition decryptsAll (operator : string) (p : PurePayload)
    (k : option Key) : result PurePayload :=
  Ok p.

(** The service after registering an account, and after then setting a
    passcode. *)
Definition registeredService : ServiceState :=
  (setNewRootKey Examples.encryptStub Examples.jsonBase64Stub []
     Examples.accountKey (Some Examples.accountParams) None
     Examples.emptyService).2.

Definition lockedService : ServiceState :=
  (setNewRootKeyWrapper Examples.encryptStub Examples.jsonBase64Stub []
     Examples.passcodeKey passcodeParams registeredService).2.

(** A key observer that returns in the first two rounds and throws from the
    third round on. *)
Definition tiringKeyObserver : KeyChangeObserver :=
  fun svc =>
    if (keyChangeNotifications svc <? 3)%nat then Ok tt
    else Throw "key observer failed".

(** The service object of the next launch: nothing in memory, the storage
    and the keychain of the device as they were left. *)
Definition relaunched (svc : ServiceState) : ServiceState :=
  mkService KeyMode.RootKeyNone None (storage svc) (keychain svc) [] 0.

(** The note that [ItemExamples.tag] references is indexed. *)
Definition taggedState : State :=
  mkState [ItemExamples.tag [ItemExamples.toNote]; ItemExamples.note []]
    {["tag" := ["note"]]} {["note" := ["tag"]]} [].

Definition failing (n : Notification) : result unit :=
  Throw "observer failed".

Definition failingObserver : Observer :=
  mkObserver (One ContentType.Any) failing.

(** Version 001: a cipher with a fixed output, and one that cannot decrypt. *)
Definition fixedCiphertext (text : string) (key iv : Operator001.Buffer)
  : string :=
  "ciphertext".

Definition cannotDecrypt (text : string) (key iv : Operator001.Buffer)
  : option string :=
  None.

Definition lockedItem : Operator001Items.Item :=
  Operator001Items.mkItem (Some (JStr "001ciphertext")) (Some "enc-item-key")
    false false.

Definition flaggedItem : Operator001Items.Item :=
  Operator001Items.mkItem (Some (JStr "001ciphertext")) (Some "enc-item-key")
    true true.

(** Privileges: both credentials are required for every action, only the
    account password is right. *)
Definition bothCredentials (action : unit)
  : list Privileges.PrivilegeCredential :=
  [Privileges.AccountPassword; Privileges.LocalPasscode].

Definition rightPassword (value : option string) : result bool :=
  match value with
  | Some s => Ok (String.eqb s "password")
  | None => Ok false
  end.

Definition wrongPasscode (value : option string) : result bool := Ok false.

Definition typedPassword (credential : Privileges.PrivilegeCredential)
  : option string :=
  Some "password".
End MoreExamples.

(** Runs the monadic plumbing of the wrapper and sign-out code in a goal. *)
Ltac run_key_manager :=
  cbv [mbind M_bind mret M_ret get modify throw lift storageSetValue
       storageRemoveValue saveRootKeyToKeychain notifyObserversOfKeyChange
       countNotification wrapAndPersistRootKey];
  simpl.

(** Reduces lookups in the storage map after insertions and deletions. *)
Ltac simplify_storage :=
  repeat first
    [ rewrite lookup_insert_eq
    | rewrite lookup_delete_eq
    | rewrite lookup_insert_ne by done
    | rewrite lookup_delete_ne by done ].

(** * Properties *)

(** ** Payload projections *)

Lemma CreatePayload_fields object fs override :
  fields (Generator.CreatePayload object fs override) = fs.
Proof. by destruct override. Qed.

Lemma CreatePayload_raw_plain object fs f :
  f ∉ fs → raw (Generator.CreatePayload object fs None) f = None.
Proof. intros Hf. simpl. unfold pickByCopy. by case_decide. Qed.

Lemma serverFormat_CreatePayload object override :
  serverFormat override
    (Generator.CreatePayload object Generator.ServerPayloadFields override).
Proof.
  unfold serverFormat. rewrite CreatePayload_fields.
  split; [done |]. split; [done |]. split.
  - intros f Hf Hin. unfold clientOnlyFields, Generator.ServerPayloadFields in *.
    apply list_elem_of_In in Hf, Hin. simpl in Hf, Hin.
    intuition (subst; discriminate).
  - intros -> f Hf. by apply CreatePayload_raw_plain.
Qed.

(** C8: every payload projected to server format, by the intents Sync and
    SyncDecrypted or by the sources RemoteRetrieved, ConflictData and
    ConflictUuid, is produced with the field set uuid, content_type,
    items_key_id, enc_item_key, content, created_at, updated_at, deleted and
    the legacy auth hash; none of dirty, dirtied date, last sync began, last
    sync end, waiting for key, error decrypting, error decrypting changed or
    dummy is in it, and without an override no other property is copied. *)
Theorem server_payloads_omit_client_fields (object : RawPayload)
    (override : option RawPayload) :
  (∀ intent, serverIntent intent = true →
     ∃ p, Generator.CreateIntentPayloadFromObject object intent override = Ok p
          ∧ serverFormat override p)
  ∧ (∀ source, serverSource source = true →
       ∃ p, Generator.CreateSourcedPayloadFromObject object source override
            = Ok p
            ∧ serverFormat override p).
Proof.
  split.
  - intros intent Hi. destruct intent; try discriminate Hi;
      (eexists; split; [reflexivity | apply serverFormat_CreatePayload]).
  - intros source Hs. destruct source; try discriminate Hs;
      (eexists; split; [reflexivity | apply serverFormat_CreatePayload]).
Qed.

Lemma server_payloads_omit_client_fields_witness :
  ∃ p, Generator.CreateIntentPayloadFromObject Examples.noteObject
         EncryptionIntent.Sync None = Ok p
       ∧ serverFormat None p.
Proof.
  apply (proj1 (server_payloads_omit_client_fields Examples.noteObject None)
           EncryptionIntent.Sync).
  reflexivity.
Defined.

(** The note of the examples carries dirty, dummy and waiting-for-key flags;
    its server projection has none of them. *)
Example server_projection_of_flagged_note :
  ∃ p, Generator.CreateIntentPayloadFromObject Examples.noteObject
         EncryptionIntent.Sync None = Ok p
       ∧ raw p PayloadField.Dirty = None
       ∧ raw p PayloadField.Dummy = None
       ∧ raw p PayloadField.WaitingForKey = None
       ∧ raw p PayloadField.Uuid = Some (JStr "note-1").
Proof. eexists. repeat split; reflexivity. Qed.

(** The sources RemoteConflict and ImportConflict have no field set: no
    payload is produced for them. *)
Example other_conflict_sources_are_not_projected :
  Generator.CreateSourcedPayloadFromObject Examples.noteObject
    PayloadSource.RemoteConflict None
  = Throw "No payload fields found for source"
  ∧ Generator.CreateSourcedPayloadFromObject Examples.noteObject
      PayloadSource.ImportConflict None
    = Throw "No payload fields found for source".
Proof. split; reflexivity. Qed.

(** ** Encryption *)

Section EncryptionProperties.
Variable encryptString :
  string -> PurePayload -> option Key -> result (option PurePayload).
Variable jsonBase64 : JsValue -> string.

(** C2: a payload whose error-decrypting flag is set is returned by
    [payloadByEncryptingPayload] as it is, whatever the intent and the key. *)
Theorem errored_payload_is_not_reencrypted (svc : ServiceState)
    (payload : PurePayload) (intent : option EncryptionIntent.t)
    (key : option Key) :
  errorDecrypting payload = true →
  payloadByEncryptingPayload encryptString jsonBase64 svc payload intent key
  = Ok payload.
Proof.
  intros Herr. unfold payloadByEncryptingPayload. by rewrite Herr.
Qed.

Lemma payloadByEncryptingPayload_with_key svc svc' payload intent key :
  payloadByEncryptingPayload encryptString jsonBase64 svc payload intent
    (Some key)
  = payloadByEncryptingPayload encryptString jsonBase64 svc' payload intent
      (Some key).
Proof.
  unfold payloadByEncryptingPayload.
  destruct (errorDecrypting payload); [done |]. by destruct intent.
Qed.
End EncryptionProperties.

Lemma errored_payload_is_not_reencrypted_witness :
  errorDecrypting Examples.erroredPayload = true
  ∧ payloadByEncryptingPayload Examples.encryptStub Examples.jsonBase64Stub
      Examples.accountService Examples.erroredPayload
      (Some EncryptionIntent.Sync) None
    = Ok Examples.erroredPayload.
Proof.
  split; [reflexivity |].
  apply (errored_payload_is_not_reencrypted Examples.encryptStub
           Examples.jsonBase64Stub Examples.accountService
           Examples.erroredPayload (Some EncryptionIntent.Sync) None).
  reflexivity.
Defined.

(** Without the flag the same note is encrypted with the default items
    key. *)
Example unflagged_note_is_encrypted :
  ∃ p, payloadByEncryptingPayload Examples.encryptStub Examples.jsonBase64Stub
         Examples.accountService Examples.notePayload
         (Some EncryptionIntent.Sync) None = Ok p
       ∧ content p = Some (JStr "003:ciphertext").
Proof. eexists. split; reflexivity. Qed.

(** ** Decryption *)

Section DecryptionProperties.
Variable decryptString :
  string -> PurePayload -> option Key -> result PurePayload.
Variable base64Json : string -> option JsValue.

Lemma null_content_not_string (c : option JsValue) :
  isNullOrUndefined c = true → isString c = false.
Proof. by destruct c as [[] |]. Qed.

Lemma flagged_after_failure (p : PurePayload) :
  ∃ q, Generator.CreateMaxPayloadFromAnyObject (raw p) None None
         (Some (errorOverride p)) = Ok q
       ∧ raw q PayloadField.ErrorDecrypting = Some (JBool true)
       ∧ content q = content p
       ∧ raw q PayloadField.ErrorDecryptingChanged
         = Some (JBool (negb (errorDecrypting p))).
Proof.
  eexists. split; [reflexivity |].
  unfold content. simpl.
  unfold deepMerge, pickByCopy, errorOverride, setField. simpl.
  split; [| split].
  - by destruct (raw p PayloadField.ErrorDecrypting).
  - done.
  - by destruct (raw p PayloadField.ErrorDecryptingChanged).
Qed.

Lemma decryptEntry_outcome svc key input :
  ∃ output, decryptEntry decryptString base64Json svc key input = Ok output
            ∧ entryOutcome decryptString base64Json svc key input output.
Proof.
  destruct input as [p |]; [| by eexists].
  unfold decryptEntry.
  destruct (isTrue (raw p PayloadField.Deleted)
            && isNullOrUndefined (content p)) eqn:Hdel.
  - apply andb_prop in Hdel as [_ Hnull].
    apply null_content_not_string in Hnull.
    eexists. split; [done |]. simpl.
    split; [done |]. split; [done |]. split; intros ?; congruence.
  - assert (Hnot : isTrue (raw p PayloadField.Deleted) = true →
                   isNullOrUndefined (content p) = true → False).
    { intros H1 H2. rewrite H1, H2 in Hdel. discriminate. }
    destruct (isString (content p)) eqn:Hstr; cbn [negb].
    + destruct (payloadByDecryptingPayload _ _ svc p key) as [d | e] eqn:Hdec.
      * eexists. split; [done |]. cbn [entryOutcome]. rewrite Hstr.
        split; [intros; exfalso; auto |]. split; [done |].
        split; intros _ ? ?; congruence.
      * destruct (flagged_after_failure p) as (q & Hq & Hflags).
        exists (Some q). rewrite Hq. split; [done |].
        cbn [entryOutcome]. rewrite Hstr.
        split; [intros; exfalso; auto |]. split; [done |].
        split; [intros _ ? ?; congruence |]. intros _ ? _. by exists q.
    + eexists. split; [done |]. cbn [entryOutcome]. rewrite Hstr.
      split; [done |]. split; [done |]. split; intros ?; congruence.
Qed.

(** C3: [payloadsByDecryptingPayloads] returns for every input list, with
    one output per input: a deleted payload without content and a payload
    whose content is not a string are passed through unchanged, and a payload
    whose decryption throws is put out with error_decrypting = true, its
    content as it was, and error_decrypting_changed = true exactly when the
    flag was not set before. *)
Theorem batch_decryption_never_aborts (svc : ServiceState)
    (payloads : list (option PurePayload)) (key : option Key) :
  ∃ outputs,
    payloadsByDecryptingPayloads decryptString base64Json svc payloads key
    = Ok outputs
    ∧ Forall2 (entryOutcome decryptString base64Json svc key) payloads outputs.
Proof.
  induction payloads as [| input rest IH]; simpl.
  - by eexists.
  - destruct (decryptEntry_outcome svc key input) as (output & Hentry & Hout).
    destruct IH as (outputs & Hrest & Hall).
    exists (output :: outputs). split.
    + rewrite Hentry. simpl. rewrite Hrest. reflexivity.
    + by constructor.
Qed.

Lemma latest_without_items_key_id_throws svc p :
  latestWithoutItemsKeyId p = true →
  keyToUseForDecryptionOfPayload svc p
  = Throw "No associated key found for item encrypted with latest protocol version.".
Proof.
  unfold latestWithoutItemsKeyId, usesRootKey, keyToUseForDecryptionOfPayload.
  destruct (contentTypeUsesRootKeyEncryption _); [done |].
  destruct (truthy (raw p PayloadField.ItemsKeyId)); [done |]. simpl.
  intros Hlatest. apply bool_decide_eq_true in Hlatest.
  by rewrite decide_True.
Qed.

Lemma no_key_lookup svc p :
  latestWithoutItemsKeyId p = false →
  noKeyLocated svc p →
  keyToUseForDecryptionOfPayload svc p = Ok None.
Proof.
  unfold noKeyLocated, latestWithoutItemsKeyId, usesRootKey,
    keyToUseForDecryptionOfPayload.
  destruct (contentTypeUsesRootKeyEncryption _); simpl.
  - intros _ Hroot. unfold getRootKey. by rewrite Hroot.
  - destruct (truthy (raw p PayloadField.ItemsKeyId)); simpl.
    + by intros _ ->.
    + intros Hlatest Hver. apply bool_decide_eq_false in Hlatest.
      rewrite decide_False by done. by rewrite Hver.
Qed.

Lemma waiting_payload (p : PurePayload) :
  waitsForKey p
    (Generator.CreateMaxPayloadFromAnyObject (raw p) None None
       (Some waitingOverride)).
Proof.
  eexists. split; [reflexivity |].
  unfold waitingForKey, errorDecrypting, content. simpl.
  unfold deepMerge, pickByCopy, waitingOverride, setField. simpl.
  split; [| split].
  - by destruct (raw p PayloadField.WaitingForKey).
  - by destruct (raw p PayloadField.ErrorDecrypting).
  - done.
Qed.

(** C4, as amended: for an encrypted-string payload with non-empty content
    for which no decryption key can be located (no root key for a root-key
    content type; otherwise no items key with the items_key_id the payload
    names, whatever other keys there are; or, for a payload that names none,
    no items key of its version), [payloadByDecryptingPayload] returns a
    payload with waiting_for_key = true and error_decrypting = true whose
    content is the original content, except for a payload of the latest
    protocol version without items_key_id outside the root-key content
    types: for every such payload, and whatever keys the service holds, the
    call throws the error of the key lookup. *)
Theorem missing_key_marks_payload_waiting (svc : ServiceState)
    (p : PurePayload) :
  format p = Some PayloadFormat.EncryptedString →
  truthy (content p) = true →
  if latestWithoutItemsKeyId p
  then payloadByDecryptingPayload decryptString base64Json svc p None
       = Throw "No associated key found for item encrypted with latest protocol version."
  else noKeyLocated svc p →
       waitsForKey p
         (payloadByDecryptingPayload decryptString base64Json svc p None).
Proof.
  intros Hfmt Hcontent.
  unfold payloadByDecryptingPayload.
  rewrite Hcontent, Hfmt. simpl.
  destruct (latestWithoutItemsKeyId p) eqn:Hlatest.
  - by rewrite (latest_without_items_key_id_throws svc p Hlatest).
  - intros Hnone. rewrite (no_key_lookup svc p Hlatest Hnone). simpl.
    apply waiting_payload.
Qed.
End DecryptionProperties.

Lemma batch_decryption_never_aborts_witness :
  ∃ outputs,
    payloadsByDecryptingPayloads Examples.decryptFails Examples.base64JsonStub
      Examples.emptyService
      [Some Examples.tombstone; Some Examples.notePayload; None;
       Some Examples.legacyCiphertext]
      (Some (RootKeyOf Examples.accountKey))
    = Ok outputs
    ∧ Forall2
        (entryOutcome Examples.decryptFails Examples.base64JsonStub
           Examples.emptyService (Some (RootKeyOf Examples.accountKey)))
        [Some Examples.tombstone; Some Examples.notePayload; None;
         Some Examples.legacyCiphertext]
        outputs.
Proof.
  apply (batch_decryption_never_aborts Examples.decryptFails
           Examples.base64JsonStub Examples.emptyService).
Defined.

(** A ciphertext whose decryption throws is flagged, the entries around it
    are untouched. *)
Example batch_flags_the_failed_payload :
  ∃ q,
    payloadsByDecryptingPayloads Examples.decryptFails Examples.base64JsonStub
      Examples.emptyService
      [Some Examples.tombstone; Some Examples.legacyCiphertext;
       Some Examples.notePayload]
      (Some (RootKeyOf Examples.accountKey))
    = Ok [Some Examples.tombstone; Some q; Some Examples.notePayload]
    ∧ errorDecrypting q = true
    ∧ errorDecryptingValueChanged q = true
    ∧ content q = content Examples.legacyCiphertext.
Proof. eexists. repeat split; reflexivity. Qed.

(** The payload names an items key that the service does not hold, while the
    service holds another items key of the payload's version. *)
Lemma missing_key_marks_payload_waiting_witness :
  is_Some (defaultItemsKeyForItemVersion Examples.accountService
             (version Examples.orphanCiphertext))
  ∧ noKeyLocated Examples.accountService Examples.orphanCiphertext
  ∧ waitsForKey Examples.orphanCiphertext
      (payloadByDecryptingPayload Examples.decryptFails
         Examples.base64JsonStub Examples.accountService
         Examples.orphanCiphertext None).
Proof.
  split; [by eexists |]. split; [reflexivity |].
  apply (missing_key_marks_payload_waiting Examples.decryptFails
           Examples.base64JsonStub Examples.accountService
           Examples.orphanCiphertext).
  - reflexivity.
  - reflexivity.
  - reflexivity.
Defined.

(** With the items keys of the account at hand, a version 004 payload that
    names none of them still throws. *)
Example latest_payload_throws_whatever_the_keys :
  payloadByDecryptingPayload Examples.decryptFails Examples.base64JsonStub
    Examples.accountService Examples.latestCiphertext None
  = Throw "No associated key found for item encrypted with latest protocol version.".
Proof. reflexivity. Qed.

(** Without items_key_id and without an items key of its version, a version
    003 payload waits as well. *)
Example legacy_payload_without_key_waits :
  waitsForKey Examples.legacyCiphertext
    (payloadByDecryptingPayload Examples.decryptFails Examples.base64JsonStub
       Examples.emptyService Examples.legacyCiphertext None).
Proof. eexists. repeat split; reflexivity. Qed.

(** A version 004 note without items_key_id and without any items key: key
    lookup throws, and so does decryption; a payload whose content is the
    empty string is rejected before any key is looked up. *)
Lemma missing_key_of_latest_version_throws :
  ¬ missingKeyAlwaysWaits
  ∧ format Examples.latestCiphertext = Some PayloadFormat.EncryptedString
  ∧ noKeyLocated Examples.emptyService Examples.latestCiphertext
  ∧ payloadByDecryptingPayload Examples.decryptFails Examples.base64JsonStub
      Examples.emptyService Examples.latestCiphertext None
    = Throw "No associated key found for item encrypted with latest protocol version."
  ∧ payloadByDecryptingPayload Examples.decryptFails Examples.base64JsonStub
      Examples.emptyService Examples.emptyCiphertext None
    = Throw "Attempting to decrypt payload that has no content.".
Proof.
  assert (Hnone : noKeyLocated Examples.emptyService Examples.latestCiphertext)
    by reflexivity.
  split; [| split; [reflexivity | split; [exact Hnone | split; reflexivity]]].
  intros Hclaim.
  destruct (Hclaim Examples.decryptFails Examples.base64JsonStub
              Examples.emptyService Examples.latestCiphertext
              eq_refl Hnone) as (q & Hq & _).
  discriminate Hq.
Qed.

(** In a batch the same version 004 note comes out flagged
    error_decrypting, without waiting_for_key. *)
Example batch_catches_the_missing_key_throw :
  ∃ q,
    payloadsByDecryptingPayloads Examples.decryptFails Examples.base64JsonStub
      Examples.emptyService [Some Examples.latestCiphertext] None
    = Ok [Some q]
    ∧ errorDecrypting q = true
    ∧ waitingForKey q = false
    ∧ content q = content Examples.latestCiphertext.
Proof. eexists. repeat split; reflexivity. Qed.

(** ** Key manager *)

Section KeyManagerProperties.
Variable encryptString :
  string -> PurePayload -> option Key -> result (option PurePayload).
Variable jsonBase64 : JsValue -> string.
Variable keyObservers : list KeyChangeObserver.

Lemma all_listed (ks : list SNItemsKey) :
  map (fun k => if listed (ik_uuid k) ks then markDirty k else k) ks
  = map markDirty ks.
Proof.
  apply map_ext_in. intros k Hk.
  assert (listed (ik_uuid k) ks = true) as ->; [| done].
  unfold listed. apply existsb_exists. exists k. split; [done |].
  apply String.eqb_refl.
Qed.

Lemma reencryptItemsKeys_marks_all svc :
  reencryptItemsKeys svc
  = (Ok tt, setItemsKeys (map markDirty (itemsKeys svc)) svc).
Proof.
  unfold reencryptItemsKeys, allItemsKeys.
  cbv [mbind M_bind mret M_ret get setItemsDirty modify].
  destruct (itemsKeys svc) as [| k ks] eqn:Hks.
  - simpl. destruct svc; simpl in *. by subst.
  - cbn [length Nat.ltb Nat.leb]. by rewrite Hks, all_listed.
Qed.

#[local] Arguments reencryptItemsKeys : simpl never.
#[local] Arguments payloadByEncryptingPayload : simpl never.

(** C7, as amended: when the key is the object that is the current root key,
    [setNewRootKey] throws and changes nothing.  Otherwise it moves the key
    mode (None to RootKeyOnly, WrapperOnly to RootKeyPlusWrapper, the two
    root-key modes unchanged) and persists the key params; without a wrapper
    it stores the key in the keychain and not in storage, whether or not a
    wrapping key was passed; with a wrapper it leaves the keychain alone,
    throws when the wrapping key is missing or when wrapping the root key
    throws, and otherwise persists the wrapped root key.  It then awaits the
    key observers: when they all return, every items key is marked dirty and
    the call returns; when one of them throws, the call throws with it and no
    items key is marked. *)
Theorem setNewRootKey_installs_key (svc : ServiceState) (key : SNRootKey)
    (keyParams : SNRootKeyParams) (wrappingKey : option SNRootKey) :
  let out :=
    setNewRootKey encryptString jsonBase64 keyObservers key (Some keyParams)
      wrappingKey svc in
  if sameRootKey (rootKey svc) key
  then out = (Throw "Attempting to set root key as same current value.", svc)
  else newRootKeyInstalled encryptString jsonBase64 keyObservers svc key
         keyParams wrappingKey out.
Proof.
  unfold newRootKeyInstalled, reencryptedAfterObservers, setNewRootKey.
  cbv [mbind M_bind get].
  destruct (sameRootKey (rootKey svc) key); [done |].
  destruct svc as [mode rk st kc iks n]. simpl.
  destruct mode; run_monad.
  1, 2: destruct (awaitObservers keyObservers _) as [[] | e] eqn:Hobservers;
        rewrite ?reencryptItemsKeys_marks_all; simpl;
        rewrite lookup_insert_eq, ?lookup_insert_ne by done;
        by rewrite ?Hobservers.
  all: destruct wrappingKey as [w |]; simpl;
    [| by rewrite lookup_insert_eq].
  all: unfold wrappedRootKey; simpl.
  all: pose (s0 := mkService KeyMode.RootKeyNone None ∅ None [] 0).
  all: repeat match goal with
       | |- context [payloadByEncryptingPayload _ _ ?s _ _ (Some _)] =>
           tryif constr_eq s s0 then fail
           else rewrite (payloadByEncryptingPayload_with_key _ _ s s0)
       end.
  all: destruct (payloadByEncryptingPayload encryptString jsonBase64 s0 _ _ _)
         as [wrapped | e]; simpl.
  all: try (destruct (awaitObservers keyObservers _) as [[] | e']
              eqn:Hobservers);
    rewrite ?reencryptItemsKeys_marks_all; simpl.
  all: rewrite ?lookup_insert_ne by done; rewrite ?lookup_insert_eq.
  all: by rewrite ?Hobservers.
Qed.
End KeyManagerProperties.

(** Registering from a passcode-only installation, with an observer that
    returns. *)
Lemma setNewRootKey_installs_key_witness :
  newRootKeyInstalled Examples.encryptStub Examples.jsonBase64Stub
    [Examples.quietKeyObserver] Examples.passcodeOnlyService
    Examples.accountKey Examples.accountParams (Some Examples.passcodeKey)
    (setNewRootKey Examples.encryptStub Examples.jsonBase64Stub
       [Examples.quietKeyObserver] Examples.accountKey
       (Some Examples.accountParams) (Some Examples.passcodeKey)
       Examples.passcodeOnlyService).
Proof.
  exact (setNewRootKey_installs_key Examples.encryptStub
           Examples.jsonBase64Stub [Examples.quietKeyObserver]
           Examples.passcodeOnlyService Examples.accountKey
           Examples.accountParams (Some Examples.passcodeKey)).
Defined.

(** Registering from a passcode-only installation: the mode becomes
    RootKeyPlusWrapper, the wrapped root key is stored and the items key is
    dirty. *)
Example register_with_passcode :
  let out := setNewRootKey Examples.encryptStub Examples.jsonBase64Stub
               [Examples.quietKeyObserver] Examples.accountKey
               (Some Examples.accountParams) (Some Examples.passcodeKey)
               Examples.passcodeOnlyService in
  out.1 = Ok tt
  ∧ keyMode out.2 = KeyMode.RootKeyPlusWrapper
  ∧ is_Some (storage out.2 !! StorageKey.WrappedRootKey)
  ∧ map ik_dirty (itemsKeys out.2) = [true]
  ∧ keychain out.2 = None.
Proof. vm_compute. repeat split; eauto. Qed.

(** The same registration with a key observer that throws: the call throws,
    the key is installed and persisted, and the items key is not marked. *)
Example register_with_failing_observer :
  let out := setNewRootKey Examples.encryptStub Examples.jsonBase64Stub
               [Examples.quietKeyObserver; Examples.failingKeyObserver]
               Examples.accountKey (Some Examples.accountParams)
               (Some Examples.passcodeKey) Examples.passcodeOnlyService in
  out.1 = Throw "key observer failed"
  ∧ keyMode out.2 = KeyMode.RootKeyPlusWrapper
  ∧ rootKey out.2 = Some Examples.accountKey
  ∧ is_Some (storage out.2 !! StorageKey.WrappedRootKey)
  ∧ map ik_dirty (itemsKeys out.2) = [false].
Proof. vm_compute. repeat split; eauto. Qed.

(** Passing the object that already is the root key: the guard throws
    before the mode changes and before anything is persisted. *)
Lemma setNewRootKey_same_key_is_rejected :
  let out := setNewRootKey Examples.encryptStub Examples.jsonBase64Stub []
               Examples.passcodeKey (Some Examples.accountParams)
               (Some Examples.passcodeKey) Examples.passcodeOnlyService in
  out = (Throw "Attempting to set root key as same current value.",
         Examples.passcodeOnlyService)
  ∧ ¬ newRootKeyInstalled Examples.encryptStub Examples.jsonBase64Stub []
        Examples.passcodeOnlyService Examples.passcodeKey
        Examples.accountParams (Some Examples.passcodeKey) out.
Proof.
  split; [reflexivity |].
  intros [Hmode _]. vm_compute in Hmode. discriminate Hmode.
Qed.

(** ** Items-key reconciliation *)

Section ItemsKeyProperties.
Variable compareVersions : string -> string -> Z.
Variable generateUuid : ServiceState -> string.
Variable generateNewItemsKeyContent : string -> string * option string.

Lemma uuid_injective (ks : list SNItemsKey) (a b : SNItemsKey) :
  NoDup (map ik_uuid ks) → a ∈ ks → b ∈ ks → ik_uuid a = ik_uuid b → a = b.
Proof.
  induction ks as [| k ks IH]; simpl; intros Hnd Ha Hb Heq.
  - by apply elem_of_nil in Ha.
  - apply NoDup_cons in Hnd as [Hk Hnd].
    apply elem_of_cons in Ha as [-> | Ha], Hb as [-> | Hb]; auto.
    + exfalso. apply Hk. rewrite Heq. by apply list_elem_of_fmap_2.
    + exfalso. apply Hk. rewrite <- Heq. by apply list_elem_of_fmap_2.
Qed.

Lemma listed_filter (P : SNItemsKey -> Prop) `{!∀ k, Decision (P k)}
    (ks : list SNItemsKey) (k : SNItemsKey) :
  NoDup (map ik_uuid ks) → k ∈ ks →
  listed (ik_uuid k) (filter P ks) = bool_decide (P k).
Proof.
  intros Hnd Hk. unfold listed. apply eq_true_iff_eq.
  rewrite existsb_exists, bool_decide_eq_true. split.
  - intros (k' & Hin & Heq).
    apply list_elem_of_In, list_elem_of_filter in Hin as [HP Hin].
    apply String.eqb_eq in Heq.
    by rewrite <- (uuid_injective ks k' k Hnd Hin Hk Heq).
  - intros HP. exists k. split; [| apply String.eqb_refl].
    apply list_elem_of_In, list_elem_of_filter. done.
Qed.

Lemma setItemsToBeDeleted_filter (P : SNItemsKey -> Prop)
    `{!∀ k, Decision (P k)} (svc : ServiceState) :
  NoDup (map ik_uuid (itemsKeys svc)) →
  setItemsToBeDeleted (filter P (itemsKeys svc)) svc
  = (Ok tt, deleteWhere (fun k => bool_decide (P k)) svc).
Proof.
  intros Hnd. unfold setItemsToBeDeleted, modify, deleteWhere.
  f_equal. f_equal. apply map_ext_in. intros k Hk.
  rewrite (listed_filter P) by (done || by apply list_elem_of_In). done.
Qed.

Lemma find_existsb {A} (f : A -> bool) (l : list A) :
  existsb f l = bool_decide (is_Some (find f l)).
Proof.
  induction l as [| a l IH]; simpl.
  - reflexivity.
  - destruct (f a); simpl; [reflexivity | exact IH].
Qed.

Lemma createOperatorForVersion_supported v :
  supportedVersion v = true → createOperatorForVersion v = Ok v.
Proof.
  unfold supportedVersion. rewrite bool_decide_eq_true.
  rewrite !elem_of_cons, elem_of_nil.
  intros [-> | [-> | [-> | [-> | []]]]]; reflexivity.
Qed.

Lemma first_default_items_key svc rk :
  rootKey svc = Some rk → itemsKeys svc = [] →
  supportedVersion (rk_version rk) = true →
  ∃ k, createNewDefaultItemsKey compareVersions generateUuid
         generateNewItemsKeyContent svc
       = (Ok tt, setItemsKeys [k] svc)
       ∧ isDefault k = true ∧ ik_dirty k = true ∧ ik_deleted k = false
       ∧ ik_version k = rk_version rk.
Proof.
  intros Hrk Hks Hv. unfold createNewDefaultItemsKey.
  cbv [mbind M_bind mret M_ret get modify throw lift].
  rewrite Hrk. unfold getDefaultItemsKey, allItemsKeys. rewrite Hks.
  destruct (compareVersions _ _ <=? 0)%Z.
  - eexists. split; [simpl; by rewrite Hks |]. done.
  - unfold operatorForVersion.
    rewrite (createOperatorForVersion_supported _ Hv).
    destruct (generateNewItemsKeyContent _) as [key authenticationKey].
    eexists. split; [simpl; by rewrite Hks |]. done.
Qed.

Lemma setItemsKeys_same svc : setItemsKeys (itemsKeys svc) svc = svc.
Proof. by destruct svc. Qed.

Lemma delete_step (P : SNItemsKey -> Prop) `{!∀ k, Decision (P k)}
    (svc : ServiceState) :
  NoDup (map ik_uuid (itemsKeys svc)) →
  (if (0 <? length (filter P (itemsKeys svc)))%nat
   then setItemsToBeDeleted (filter P (itemsKeys svc))
   else mret tt) svc
  = (Ok tt, deleteWhere (fun k => bool_decide (P k)) svc).
Proof.
  intros Hnd. destruct (filter P (itemsKeys svc)) as [| k ks] eqn:Hf.
  - simpl. cbv [mret M_ret]. f_equal. unfold deleteWhere.
    rewrite <- (setItemsKeys_same svc) at 1. f_equal.
    rewrite <- (map_id (itemsKeys svc)) at 1.
    apply map_ext_in. intros k Hk.
    rewrite bool_decide_eq_false_2; [done |].
    intros HP. assert (k ∈ filter P (itemsKeys svc)) as Hin.
    { apply list_elem_of_filter. split; [done | by apply list_elem_of_In]. }
    rewrite Hf in Hin. by apply elem_of_nil in Hin.
  - cbn [length Nat.ltb Nat.leb]. rewrite <- Hf.
    by apply setItemsToBeDeleted_filter.
Qed.

(** C6, as amended: on download-first sync completion, with the never-synced
    items keys being those whose updated_at is null or the epoch: if a
    previously synced default items key exists, exactly the never-synced keys
    are marked deleted; otherwise, without a root key nothing is deleted or
    created; with a root key and no items keys at all a new default items key
    of the root key's version is created; and with a root key and some items
    keys, the never-synced keys whose version differs from the root key's are
    marked deleted and every other key is kept as it is. *)
Theorem download_first_reconciliation (svc : ServiceState) :
  NoDup (map ik_uuid (itemsKeys svc)) →
  let out := handleDownloadFirstSyncCompletion compareVersions generateUuid
               generateNewItemsKeyContent svc in
  if hasSyncedDefault (itemsKeys svc)
  then out = (Ok tt, deleteWhere neverSynced svc)
  else
    match rootKey svc with
    | None => out = (Ok tt, svc)
    | Some rk =>
        match itemsKeys svc with
        | [] =>
            supportedVersion (rk_version rk) = true →
            ∃ k, out = (Ok tt, setItemsKeys [k] svc)
                 ∧ isDefault k = true ∧ ik_dirty k = true
                 ∧ ik_deleted k = false ∧ ik_version k = rk_version rk
        | ks =>
            out.1 = Ok tt
            ∧ ∀ k, k ∈ ks →
                (if neverSynced k
                    && negb (String.eqb (ik_version k) (rk_version rk))
                 then markDeleted k else k) ∈ itemsKeys out.2
        end
    end.
Proof.
  intros Hnd out. subst out. unfold handleDownloadFirstSyncCompletion.
  cbv [mbind M_bind get]. unfold allItemsKeys, hasSyncedDefault.
  rewrite find_existsb.
  destruct (find _ (itemsKeys svc)) as [d |] eqn:Hfind.
  - rewrite bool_decide_eq_true_2 by eauto.
    rewrite (setItemsToBeDeleted_filter _ svc Hnd). f_equal.
    unfold deleteWhere. f_equal. apply map_ext. intros k.
    destruct (neverSynced k); by simpl.
  - rewrite bool_decide_eq_false_2 by (by intros [? ?]).
    destruct (rootKey svc) as [rk |] eqn:Hrk; [| done].
    destruct (itemsKeys svc) as [| k0 ks] eqn:Hks.
    + intros Hv. simpl. cbv [mbind M_bind mret M_ret].
      destruct (first_default_items_key svc rk Hrk Hks Hv) as (k & Hk & Hprops).
      exists k. by rewrite Hk.
    + rewrite <- Hks in *. rewrite list_filter_filter.
      rewrite (delete_step _ svc Hnd).
      assert ((length (itemsKeys svc) =? 0)%nat = false) as ->
        by (by rewrite Hks).
      cbv [mret M_ret].
      split; [done |]. intros k Hk. cbn [snd].
      unfold deleteWhere. simpl.
      assert (bool_decide (ik_version k ≠ rk_version rk ∧ neverSynced k = true)
              = neverSynced k
                && negb (String.eqb (ik_version k) (rk_version rk))) as <-.
      { destruct (neverSynced k),
          (String.eqb_spec (ik_version k) (rk_version rk)); simpl.
        all: try (by apply bool_decide_eq_true_2).
        all: apply bool_decide_eq_false_2; intros [? ?]; congruence. }
      apply list_elem_of_fmap. by exists k.
Qed.
End ItemsKeyProperties.

Lemma download_first_reconciliation_witness :
  NoDup (map ik_uuid (itemsKeys Examples.accountService))
  ∧ let out := handleDownloadFirstSyncCompletion Examples.compareVersionsStub
                 Examples.generateUuidStub Examples.newItemsKeyStub
                 Examples.accountService in
    out.1 = Ok tt
    ∧ ∀ k, k ∈ [Examples.localKey; Examples.staleKey] →
        (if neverSynced k
            && negb (String.eqb (ik_version k)
                       (rk_version Examples.accountKey))
         then markDeleted k else k) ∈ itemsKeys out.2.
Proof.
  assert (Hnd : NoDup (map ik_uuid (itemsKeys Examples.accountService)))
    by (apply (bool_decide_unpack _); vm_compute; exact I).
  split; [exact Hnd |].
  exact (download_first_reconciliation Examples.compareVersionsStub
           Examples.generateUuidStub Examples.newItemsKeyStub
           Examples.accountService Hnd).
Defined.

(** The account holds a never-synced 003 key and a never-synced 004 key and
    its root key is 004: the 003 key is marked deleted, the 004 key stays. *)
Example account_keeps_keys_of_its_version :
  (handleDownloadFirstSyncCompletion Examples.compareVersionsStub
     Examples.generateUuidStub Examples.newItemsKeyStub
     Examples.accountService).2
  = setItemsKeys [markDeleted Examples.localKey; Examples.staleKey]
      Examples.accountService.
Proof. reflexivity. Qed.

(** Without a root key and without items keys nothing is created, although
    no items key remains. *)
Lemma no_default_key_without_root_key :
  let out := handleDownloadFirstSyncCompletion Examples.compareVersionsStub
               Examples.generateUuidStub Examples.newItemsKeyStub
               Examples.emptyService in
  out = (Ok tt, Examples.emptyService)
  ∧ ¬ reconciledAsSpecified Examples.emptyService out.2.
Proof.
  split; [reflexivity |].
  intros [_ Hno]. destruct (Hno eq_refl) as [_ Hcreated].
  destruct (Hcreated eq_refl) as (k & Hk & _).
  vm_compute in Hk. by apply elem_of_nil in Hk.
Qed.

(** ** Item manager *)

Section ItemManagerProperties.
Import ItemManager.

(** C5: the items returned by [getDirtyItems] are exactly the items of the
    collection that are dirty, not dummies, and either free of a decryption
    error or deleted; so an item flagged error_decrypting is in the upload set
    only if it is deleted. *)
Theorem dirty_items_exclude_corrupt_items (st : State) :
  (∀ item,
     In item (getDirtyItems st)
     ↔ In item (collection st)
       ∧ dirty item = true
       ∧ dummy item = false
       ∧ (errorDecrypting item = false ∨ deleted item = true))
  ∧ (∀ item,
       In item (getDirtyItems st) →
       errorDecrypting item = true → deleted item = true).
Proof.
  assert (Hiff : ∀ item,
     In item (getDirtyItems st)
     ↔ In item (collection st)
       ∧ dirty item = true
       ∧ dummy item = false
       ∧ (errorDecrypting item = false ∨ deleted item = true)).
  { intros item. unfold getDirtyItems. rewrite filter_In.
    destruct (dirty item), (dummy item), (errorDecrypting item),
      (deleted item); simpl; intuition discriminate. }
  split; [exact Hiff |].
  intros item Hin Herr. apply Hiff in Hin as (_ & _ & _ & [Hno | Hdel]).
  - congruence.
  - exact Hdel.
Qed.

Lemma filter_none {A} (l : list A) : List.filter (fun _ => false) l = [].
Proof. induction l; simpl; auto. Qed.

Lemma filter_all {A} (l : list A) : List.filter (fun _ => true) l = l.
Proof. induction l; simpl; congruence. Qed.

Lemma relevant_items_delivered observer items :
  List.filter (isRelevant observer) items
  = delivered (contentType observer) items.
Proof.
  unfold isRelevant, delivered. destruct (contentType observer) as [c | cs].
  - simpl. case_decide as Hc.
    + subst c. simpl. apply filter_all.
    + rewrite bool_decide_eq_false_2 by done. simpl.
      apply filter_ext. intros item. apply bool_decide_ext. split; congruence.
  - simpl. apply filter_none.
Qed.

(** C10: [addObserver] accepts a single content type or an array, but
    [notifyObservers] compares the filter with [===] against [Any] and the
    item's content type.  Every call made to an observer registered with an
    array filter therefore carries an empty item list, while an observer with
    a single content type receives exactly the items of that type and one
    with [Any] receives all of them; and when no callback throws, every
    observer, array filter or not, is called once, in registration order. *)
Theorem array_filter_observer_receives_no_items (observers : list Observer)
    (items : list SNItem) (type : ObservationType)
    (source : option PayloadSource.t) (sourceKey : option string) :
  let run := notifyObservers observers items type source sourceKey in
  (∀ observer call,
      In (observer, call) run.1 →
      In observer observers
      ∧ call = mkNotification (delivered (contentType observer) items)
                 source sourceKey type
      ∧ (∀ cs, contentType observer = Many cs → n_items call = []))
  ∧ ((∀ observer call, In observer observers → callback observer call = Ok tt) →
     map fst run.1 = observers ∧ run.2 = Ok tt).
Proof.
  induction observers as [| o rest IH]; simpl.
  - split; [intros ? ? [] | done].
  - destruct IH as [IHcalls IHall].
    destruct (callback o _) as [[] | e] eqn:Hcb.
    + destruct (notifyObservers rest items type source sourceKey)
        as [calls outcome] eqn:Hrest.
      simpl in *. split.
      * intros observer call [Heq | Hin].
        -- inversion Heq; subst. rewrite relevant_items_delivered.
           split; [by left |]. split; [done |].
           intros cs Hcs. simpl. by rewrite Hcs.
        -- destruct (IHcalls _ _ Hin) as (? & ? & ?). by eauto.
      * intros Hok. destruct IHall as [Hm Ho]; [by eauto |]. by rewrite Hm.
    + simpl. split.
      * intros observer call [Heq | []].
        inversion Heq; subst. rewrite relevant_items_delivered.
        split; [by left |]. split; [done |].
        intros cs Hcs. simpl. by rewrite Hcs.
      * intros Hok. rewrite Hok in Hcb by (by left). discriminate.
Qed.

Lemma addObserver_registers filter callback st :
  In (mkObserver filter callback) (observers (addObserver filter callback st)).
Proof. simpl. apply in_or_app. right. by left. Qed.

Lemma establishReferenceIndex_without_references item st :
  references item = [] → establishReferenceIndex item st = st.
Proof. intros Hrefs. unfold establishReferenceIndex. by rewrite Hrefs. Qed.

(** C1: the reference indices do not stay consistent.  A live tag that
    references a note and is saved a second time is entered twice in the
    note's inverse entry; when the tag's reference list becomes empty, its
    forward entry and the note's inverse entry keep the old reference; and
    when the reference is replaced, the note's inverse entry keeps the tag
    although the tag's forward entry no longer has the note. *)
Theorem reference_indices_drift
    (removeFromArray : list string -> string -> list string) :
  let run := processAll removeFromArray in
  (inverseReferenceMap (run ItemExamples.savedTwice) !! "note"
   = Some ["tag"; "tag"]
   ∧ ¬ indicesConsistent (run ItemExamples.savedTwice))
  ∧ (collection (run ItemExamples.referenceDropped) = [ItemExamples.tag []]
     ∧ referenceMap (run ItemExamples.referenceDropped) !! "tag"
       = Some ["note"]
     ∧ inverseReferenceMap (run ItemExamples.referenceDropped) !! "note"
       = Some ["tag"]
     ∧ ¬ indicesConsistent (run ItemExamples.referenceDropped))
  ∧ (referenceMap (run ItemExamples.referenceReplaced) !! "tag"
     = Some ["other"]
     ∧ inverseReferenceMap (run ItemExamples.referenceReplaced) !! "note"
       = Some ["tag"]
     ∧ ¬ indicesConsistent (run ItemExamples.referenceReplaced)).
Proof.
  intros run.
  assert (H1 : inverseReferenceMap (run ItemExamples.savedTwice) !! "note"
               = Some ["tag"; "tag"]) by (vm_compute; reflexivity).
  assert (H2 : referenceMap (run ItemExamples.referenceDropped) !! "tag"
               = Some ["note"]) by (vm_compute; reflexivity).
  assert (H2c : collection (run ItemExamples.referenceDropped)
                = [ItemExamples.tag []]) by (vm_compute; reflexivity).
  assert (H2i : inverseReferenceMap (run ItemExamples.referenceDropped)
                !! "note" = Some ["tag"]) by (vm_compute; reflexivity).
  assert (H3 : referenceMap (run ItemExamples.referenceReplaced) !! "tag"
               = Some ["other"]) by (vm_compute; reflexivity).
  assert (H3i : inverseReferenceMap (run ItemExamples.referenceReplaced)
                !! "note" = Some ["tag"]) by (vm_compute; reflexivity).
  repeat split; try assumption.
  - intros (_ & Hnd & _). destruct (Hnd "note") as [_ Hinv].
    unfold inverseEntry in Hinv. rewrite H1 in Hinv. simpl in Hinv.
    apply NoDup_cons in Hinv as [Hin _]. apply Hin. by left.
  - intros (_ & _ & Hfwd & _).
    assert (Hin : ItemExamples.tag []
                  ∈ collection (run ItemExamples.referenceDropped))
      by (rewrite H2c; by left).
    specialize (Hfwd (ItemExamples.tag []) Hin eq_refl).
    unfold forwardEntry in Hfwd.
    change (uuid (ItemExamples.tag [])) with "tag" in Hfwd.
    rewrite H2 in Hfwd. discriminate.
  - intros (Hiff & _). specialize (Hiff "tag" "note").
    unfold forwardEntry, inverseEntry in Hiff. rewrite H3, H3i in Hiff.
    simpl in Hiff. destruct Hiff as [_ Hback].
    specialize (Hback ltac:(by left)).
    apply list_elem_of_singleton in Hback. discriminate.
Qed.
End ItemManagerProperties.

Lemma dirty_items_exclude_corrupt_items_witness :
  ItemManager.deleted ItemExamples.corruptDeleted = true.
Proof.
  apply (proj2 (dirty_items_exclude_corrupt_items ItemExamples.dirtyState)
           ItemExamples.corruptDeleted).
  - vm_compute. left. reflexivity.
  - reflexivity.
Defined.

(** The corrupt item that is not deleted stays out of the upload set. *)
Example upload_set_of_dirty_state :
  ItemManager.getDirtyItems ItemExamples.dirtyState
  = [ItemExamples.corruptDeleted; ItemExamples.edited].
Proof. reflexivity. Qed.

Lemma array_filter_observer_receives_no_items_witness :
  let run := ItemManager.notifyObservers ItemExamples.allObservers
               [ItemExamples.note []; ItemExamples.tag [ItemExamples.toNote]]
               ItemManager.Inserted None None in
  map fst run.1 = ItemExamples.allObservers ∧ run.2 = Ok tt.
Proof.
  apply (proj2 (array_filter_observer_receives_no_items
                  ItemExamples.allObservers
                  [ItemExamples.note []; ItemExamples.tag [ItemExamples.toNote]]
                  ItemManager.Inserted None None)).
  intros observer call [<- | [<- | [<- | []]]]; reflexivity.
Defined.

(** An array filter naming both content types still receives nothing. *)
Example array_observer_gets_an_empty_list :
  map (fun c => map ItemManager.uuid (ItemManager.n_items c.2))
    (ItemManager.notifyObservers ItemExamples.allObservers
       [ItemExamples.note []; ItemExamples.tag [ItemExamples.toNote]]
       ItemManager.Inserted None None).1
  = [ []; ["note"]; ["note"; "tag"] ].
Proof. reflexivity. Qed.

(** ** Protocol operator 001 *)

Section Operator001Properties.
Import Operator001 CryptoExamples.

(** C9: with an absent IV, the version 001 [encryptText] and [decryptText]
    do not substitute the 16-byte zero IV.  When the crypto adapter yields
    nothing for the empty hex string, the assignment to the constant [ivData]
    raises a TypeError and the operation fails; when it yields a buffer, that
    buffer is handed to AES as it is. *)
Theorem absent_iv_is_not_replaced_by_zero_iv :
  (∀ (Output : Type) (hexStringToArrayBuffer : string -> Buffer)
     (aes256CbcDecrypt aes256CbcEncrypt : string -> Buffer -> Buffer -> Output)
     (text key : string),
      encryptText hexStringToArrayBuffer aes256CbcEncrypt text key None
      = match hexStringToArrayBuffer EmptyString with
        | None => Throw "TypeError: Assignment to constant variable."
        | Some iv =>
            Ok (aes256CbcEncrypt text (hexStringToArrayBuffer key) (Some iv))
        end
      ∧ decryptText hexStringToArrayBuffer aes256CbcDecrypt text key None
        = match hexStringToArrayBuffer EmptyString with
          | None => Throw "TypeError: Assignment to constant variable."
          | Some iv =>
              Ok (aes256CbcDecrypt text (hexStringToArrayBuffer key) (Some iv))
          end)
  ∧ encryptText nullHex reportIv "text" "00ff" None
    = Throw "TypeError: Assignment to constant variable."
  ∧ decryptText nullHex reportIv "ciphertext" "00ff" None
    = Throw "TypeError: Assignment to constant variable."
  ∧ encryptText emptyHex reportIv "text" "00ff" None = Ok (Some [])
  ∧ decryptText emptyHex reportIv "ciphertext" "00ff" None = Ok (Some [])
  ∧ Ok (Some []) ≠ Ok zeroBuffer16.
Proof.
  split; [| repeat split; try reflexivity; discriminate].
  intros Output hex aesD aesE text key.
  unfold encryptText, decryptText. simpl.
  by destruct (hex EmptyString).
Qed.
End Operator001Properties.

(** * Further properties of the code *)

(** ** Payload generator: overrides, copies and re-projection *)

(** X1: the override of [CreatePayload] is merged after the projection and is
    not filtered by the field list: a property of the override that is not
    in the list is in the raw payload all the same, while the field list of
    the payload stays the one given. *)
Theorem override_is_not_filtered (object : RawPayload)
    (fs : list PayloadField.t) (override : RawPayload) (f : PayloadField.t)
    (v : JsValue) :
  f ∉ fs → override f = Some v →
  raw (Generator.CreatePayload object fs (Some override)) f = Some v
  ∧ f ∉ fields (Generator.CreatePayload object fs (Some override)).
Proof.
  intros Hf Hov. simpl. unfold deepMerge, pickByCopy. rewrite Hov.
  by case_decide.
Qed.

Lemma override_is_not_filtered_witness :
  raw (Generator.CreatePayload Examples.retrievedObject
         Generator.ServerPayloadFields
         (Some (setField PayloadField.Dirty (JBool true) emptyObject)))
    PayloadField.Dirty = Some (JBool true)
  ∧ PayloadField.Dirty
    ∉ fields (Generator.CreatePayload Examples.retrievedObject
                Generator.ServerPayloadFields
                (Some (setField PayloadField.Dirty (JBool true) emptyObject))).
Proof.
  apply (override_is_not_filtered Examples.retrievedObject
           Generator.ServerPayloadFields
           (setField PayloadField.Dirty (JBool true) emptyObject)
           PayloadField.Dirty (JBool true)).
  - intros Hin. apply list_elem_of_In in Hin. simpl in Hin.
    intuition discriminate.
  - reflexivity.
Defined.

Lemma mergeValue_scalar (d v : JsValue) :
  isPlainObject v = false → mergeValue d v = v.
Proof. by destruct v. Qed.

(** X2: [CopyPayload] keeps the payload's field list; a field without an
    entry in the override keeps its value when it is in the field list and is
    absent otherwise, and an override entry that is not an object replaces
    the value. *)
Theorem copy_overrides_selected_fields_only (p : PurePayload)
    (override : RawPayload) :
  fields (CopyPayload p (Some override)) = fields p
  ∧ (∀ f, override f = None → f ∈ fields p →
       raw (CopyPayload p (Some override)) f = raw p f)
  ∧ (∀ f, override f = None → f ∉ fields p →
       raw (CopyPayload p (Some override)) f = None)
  ∧ (∀ f v, override f = Some v → isPlainObject v = false →
       raw (CopyPayload p (Some override)) f = Some v).
Proof.
  split; [done |]. simpl. unfold deepMerge, pickByCopy.
  split; [| split].
  - intros f -> Hf. by rewrite decide_True.
  - intros f -> Hf. by rewrite decide_False.
  - intros f v -> Hv. case_decide; [| done].
    destruct (raw p f); [| done]. by rewrite mergeValue_scalar.
Qed.

(** X3: a payload created for one of the three local-storage intents
    loses nothing that another intent needs: creating a payload for any
    intent from the stored payload gives the field list and the properties
    that creating it from the original object gives. *)
Theorem storage_payload_reprojects_to_any_intent (object : RawPayload)
    (stored intent : EncryptionIntent.t) :
  storageIntent stored = true →
  ∃ p q d,
    Generator.CreateIntentPayloadFromObject object stored None = Ok p
    ∧ Generator.CreateIntentPayloadFromObject (raw p) intent None = Ok q
    ∧ Generator.CreateIntentPayloadFromObject object intent None = Ok d
    ∧ fields q = fields d
    ∧ ∀ f, raw q f = raw d f.
Proof.
  intros Hstored.
  destruct stored; try discriminate; destruct intent;
    (eexists _, _, _; split; [reflexivity |]; split; [reflexivity |];
     split; [reflexivity |]; split; [reflexivity |];
     intros []; reflexivity).
Qed.

Lemma storage_payload_reprojects_to_any_intent_witness :
  ∃ p q d,
    Generator.CreateIntentPayloadFromObject Examples.noteObject
      EncryptionIntent.LocalStoragePreferEncrypted None = Ok p
    ∧ Generator.CreateIntentPayloadFromObject (raw p) EncryptionIntent.Sync
        None = Ok q
    ∧ Generator.CreateIntentPayloadFromObject Examples.noteObject
        EncryptionIntent.Sync None = Ok d
    ∧ fields q = fields d
    ∧ ∀ f, raw q f = raw d f.
Proof.
  apply (storage_payload_reprojects_to_any_intent Examples.noteObject
           EncryptionIntent.LocalStoragePreferEncrypted EncryptionIntent.Sync).
  reflexivity.
Defined.

(** ** Deep merge *)

Lemma mergeValue_objects (fd fs : list (string * JsValue)) :
  mergeValue (JObj fd) (JObj fs) = JObj (mergeProperties fs fd).
Proof.
  simpl. f_equal. revert fd.
  induction fs as [| [k v] rest IH]; intros fd; [done |].
  simpl. rewrite IH. f_equal.
  clear. induction fd as [| [k' d] fd IH]; [done |].
  simpl. destruct (String.eqb k k'); [done |]. by rewrite IH.
Qed.

Lemma getProp_mergeProperty_same k v acc :
  getProp k (mergeProperty k v acc)
  = Some (match getProp k acc with
          | Some d => mergeValue d v
          | None => v
          end).
Proof.
  induction acc as [| [k' d] acc IH]; simpl.
  - by rewrite String.eqb_refl.
  - destruct (String.eqb k k') eqn:Hk; simpl; rewrite Hk;
      [reflexivity | exact IH].
Qed.

Lemma getProp_mergeProperty_other k k1 v acc :
  k ≠ k1 → getProp k (mergeProperty k1 v acc) = getProp k acc.
Proof.
  intros Hne. induction acc as [| [k' d] acc IH]; simpl.
  - by apply String.eqb_neq in Hne as ->.
  - destruct (String.eqb k1 k') eqn:Hk; simpl.
    + apply String.eqb_eq in Hk as <-.
      by apply String.eqb_neq in Hne as ->.
    + by rewrite IH.
Qed.

Lemma getProp_absent k (fs : list (string * JsValue)) :
  k ∉ fs.*1 → getProp k fs = None.
Proof.
  induction fs as [| [k' v] fs IH]; [done |].
  simpl. intros Hk. apply not_elem_of_cons in Hk as [Hne Hk].
  apply String.eqb_neq in Hne as ->. auto.
Qed.

Lemma getProp_mergeProperties fs acc k :
  NoDup (fs.*1) →
  getProp k (mergeProperties fs acc)
  = match getProp k fs with
    | Some v => Some (match getProp k acc with
                      | Some d => mergeValue d v
                      | None => v
                      end)
    | None => getProp k acc
    end.
Proof.
  revert acc. induction fs as [| [k1 v1] rest IH]; intros acc Hnd; [done |].
  simpl in *. apply NoDup_cons in Hnd as [Hk1 Hnd].
  rewrite IH by done.
  destruct (String.eqb k k1) eqn:Hk.
  - apply String.eqb_eq in Hk as ->.
    rewrite (getProp_absent k1 rest Hk1).
    apply getProp_mergeProperty_same.
  - apply String.eqb_neq in Hk.
    by rewrite getProp_mergeProperty_other.
Qed.

(** X4: the deep merge of two objects works key by key: for a source
    without repeated keys, a key of the source holds the source value merged
    into the destination value (the source value when the destination has
    none), and every other key keeps the destination value. *)
Theorem deep_merge_is_key_by_key (fd fs : list (string * JsValue))
    (k : string) :
  NoDup (fs.*1) →
  getProp k (properties (mergeValue (JObj fd) (JObj fs)))
  = match getProp k fs with
    | Some v => Some (match getProp k fd with
                      | Some d => mergeValue d v
                      | None => v
                      end)
    | None => getProp k fd
    end.
Proof.
  intros Hnd. rewrite mergeValue_objects. simpl.
  by apply getProp_mergeProperties.
Qed.

Lemma deep_merge_is_key_by_key_witness :
  getProp "text"
    (properties
       (mergeValue
          (JObj [("title", JStr "T"); ("text", JStr "old");
                 ("references", JArr [JStr "a"])])
          (JObj [("text", JStr "new"); ("references", JArr [])])))
  = Some (JStr "new").
Proof.
  apply (deep_merge_is_key_by_key
           [("title", JStr "T"); ("text", JStr "old");
            ("references", JArr [JStr "a"])]
           [("text", JStr "new"); ("references", JArr [])] "text").
  apply (bool_decide_unpack _). vm_compute. exact I.
Defined.

(** ** Protocol service: what encryption and decryption never do *)

Lemma substring_whole (s : string) :
  String.substring 0 (String.length s) s = s.
Proof. induction s as [| c s IH]; simpl; [done |]. by rewrite IH. Qed.

Section ProtocolServiceProperties.
Variable encryptString :
  string -> PurePayload -> option Key -> result (option PurePayload).
Variable decryptString :
  string -> PurePayload -> option Key -> result PurePayload.
Variable jsonBase64 : JsValue -> string.
Variable base64Json : string -> option JsValue.
Variable operatorComputeRootKey :
  string -> option string -> SNRootKeyParams -> result SNRootKey.

(** X5: a payload that is not flagged as errored and whose content is not a
    bare object is never encrypted: [payloadByEncryptingPayload] throws for
    every intent and key. *)
Theorem encrypted_payload_is_not_encrypted_twice (svc : ServiceState)
    (payload : PurePayload) (intent : option EncryptionIntent.t)
    (key : option Key) :
  errorDecrypting payload = false →
  format payload ≠ Some PayloadFormat.DecryptedBareObject →
  ∃ e, payloadByEncryptingPayload encryptString jsonBase64 svc payload intent
         key = Throw e.
Proof.
  intros Herr Hfmt. unfold payloadByEncryptingPayload. rewrite Herr.
  destruct intent as [intent |]; [| by eexists].
  match goal with
  | |- context [mbind _ ?m] => destruct m as [k | e]
  end; simpl; [| by eexists].
  destruct (bool_decide (k = None) && intentRequiresEncryption intent);
    [by eexists |].
  rewrite bool_decide_eq_false_2 by done. simpl. by eexists.
Qed.

(** X6: with one of the three decrypted intents and no key passed in,
    [payloadByEncryptingPayload] consults neither the keys of the service nor
    the cipher: its result is the same for every service state and every
    cipher. *)
Theorem decrypted_intent_needs_no_key
    (encryptString' :
       string -> PurePayload -> option Key -> result (option PurePayload))
    (svc svc' : ServiceState) (payload : PurePayload)
    (intent : EncryptionIntent.t) :
  isDecryptedIntent intent = true →
  payloadByEncryptingPayload encryptString jsonBase64 svc payload
    (Some intent) None
  = payloadByEncryptingPayload encryptString' jsonBase64 svc' payload
      (Some intent) None.
Proof.
  intros Hintent. unfold payloadByEncryptingPayload.
  destruct (errorDecrypting payload); [done |].
  rewrite Hintent. by destruct intent.
Qed.

(** X7: the field list of the payload returned by
    [payloadByEncryptingPayload] for a payload that is not errored is the
    field list of its intent. *)
Theorem encrypted_payload_fields_follow_intent (svc : ServiceState)
    (payload q : PurePayload) (intent : EncryptionIntent.t)
    (key : option Key) :
  errorDecrypting payload = false →
  payloadByEncryptingPayload encryptString jsonBase64 svc payload
    (Some intent) key = Ok q →
  Generator.payloadFieldsForIntent intent = Ok (fields q).
Proof.
  intros Herr. unfold payloadByEncryptingPayload. rewrite Herr.
  match goal with
  | |- context [mbind _ ?m] => destruct m as [k | e]
  end; simpl; [| done].
  repeat (case_match; try done); simpl.
  all: repeat match goal with
       | |- context [mbind _ ?m] => destruct m; simpl; try done
       end.
  all: repeat (case_match; try done); simpl.
  all: unfold Generator.CreateIntentPayloadFromObject.
  all: destruct (Generator.payloadFieldsForIntent intent); [| done].
  all: by intros [= <-].
Qed.
End ProtocolServiceProperties.

Lemma base64_prefix (b : string) :
  startsWith ("000" ++ b) "000" = true
  ∧ String.substring 0 VersionLength ("000" ++ b) = "000"
  ∧ String.substring VersionLength
      (String.length ("000" ++ b) - VersionLength) ("000" ++ b) = b
  ∧ truthy (Some (JStr ("000" ++ b))) = true.
Proof.
  split; [by destruct b |]. split; [by destruct b |]. split; [| done].
  change (String.substring 0 (String.length b - 0) b = b).
  rewrite Nat.sub_0_r. apply substring_whole.
Qed.

Section ProtocolServiceProperties2.
Variable encryptString :
  string -> PurePayload -> option Key -> result (option PurePayload).
Variable decryptString :
  string -> PurePayload -> option Key -> result PurePayload.
Variable jsonBase64 : JsValue -> string.
Variable base64Json : string -> option JsValue.

Lemma base64_payload_is_decoded (svc : ServiceState) (q : PurePayload)
    (b u : string) (c : list (string * JsValue)) (key : option Key) :
  content q = Some (JStr ("000" ++ b)) →
  raw q PayloadField.Uuid = Some (JStr u) →
  base64Json b = Some (JObj c) →
  ∃ r, payloadByDecryptingPayload decryptString base64Json svc q key = Ok r
       ∧ content r = Some (JObj c)
       ∧ raw r PayloadField.Uuid = Some (JStr u).
Proof.
  intros Hc Hu Hcodec.
  destruct (base64_prefix b) as (Hstart & Hversion & Hstrip & Htruthy).
  assert (Hp : content (Generator.CreateEncryptionParameters (raw q))
               = Some (JStr ("000" ++ b))) by exact Hc.
  unfold payloadByDecryptingPayload, generateDecryptedParameters, format,
    version.
  rewrite Hp, Hc, Htruthy, Hstart, Hversion, Hstrip, Hcodec.
  rewrite !bool_decide_eq_false_2 by done.
  rewrite andb_false_r.
  eexists. split; [reflexivity |].
  unfold content in *. simpl. unfold deepMerge, pickByCopy. simpl.
  by rewrite Hc, Hu.
Qed.

(** X8: when the base64 and JSON codec gives back the content it encoded, a
    decrypted payload with a uuid that is prepared with the intent
    SyncDecrypted gets the content 000 followed by the encoding, and
    [payloadByDecryptingPayload] of the result returns the original content
    and uuid, whatever key is passed. *)
Theorem sync_decrypted_round_trip (svc svc' : ServiceState)
    (payload : PurePayload) (c : list (string * JsValue)) (u : string)
    (key : option Key) :
  content payload = Some (JObj c) →
  raw payload PayloadField.Uuid = Some (JStr u) →
  u ≠ EmptyString →
  errorDecrypting payload = false →
  base64Json (jsonBase64 (JObj c)) = Some (JObj c) →
  ∃ q r,
    payloadByEncryptingPayload encryptString jsonBase64 svc payload
      (Some EncryptionIntent.SyncDecrypted) None = Ok q
    ∧ content q = Some (JStr ("000" ++ jsonBase64 (JObj c)))
    ∧ payloadByDecryptingPayload decryptString base64Json svc' q key = Ok r
    ∧ content r = Some (JObj c)
    ∧ raw r PayloadField.Uuid = Some (JStr u).
Proof.
  intros Hc Hu Hne Herr Hcodec.
  unfold payloadByEncryptingPayload. rewrite Herr. cbn [isDecryptedIntent].
  unfold format. rewrite Hc, Hu. simpl.
  apply String.eqb_neq in Hne as ->. simpl. rewrite Hc.
  pose (q := Generator.CreatePayload (raw payload)
               Generator.ServerPayloadFields
               (Some (raw (Generator.CreateEncryptionParameters
                             (contentOnly
                                (Some (JStr ("000" ++ jsonBase64 (JObj c))))))))).
  assert (Hqc : content q = Some (JStr ("000" ++ jsonBase64 (JObj c)))).
  { unfold content in *. subst q. simpl. unfold deepMerge, pickByCopy.
    simpl. by rewrite Hc. }
  assert (Hqu : raw q PayloadField.Uuid = Some (JStr u)).
  { subst q. simpl. unfold deepMerge, pickByCopy. simpl. by rewrite Hu. }
  destruct (base64_payload_is_decoded svc' q _ u c key Hqc Hqu Hcodec)
    as (r & Hr & Hrc & Hru).
  exists q, r. split; [reflexivity |]. split; [exact Hqc |].
  split; [exact Hr |]. by split.
Qed.

(** X9: the key chosen for encrypting or decrypting a payload is the
    service's root key exactly for the root-key content types (items keys and
    encrypted storage), and otherwise one of the service's items keys. *)
Theorem key_selection_by_content_type (svc : ServiceState)
    (payload : PurePayload) (intent : option EncryptionIntent.t) (k : Key) :
  keyToUseForEncryptionOfPayload svc payload intent = Ok (Some k)
  ∨ keyToUseForDecryptionOfPayload svc payload = Ok (Some k) →
  match k with
  | RootKeyOf rk => usesRootKey payload = true ∧ rootKey svc = Some rk
  | ItemsKeyOf ik => usesRootKey payload = false ∧ ik ∈ itemsKeys svc
  end.
Proof.
  unfold keyToUseForEncryptionOfPayload, keyToUseForDecryptionOfPayload,
    usesRootKey, getRootKey, getDefaultItemsKey, itemsKeyForPayload,
    defaultItemsKeyForItemVersion, allItemsKeys.
  assert (Hfind : ∀ f ik, find f (itemsKeys svc) = Some ik →
                          ik ∈ itemsKeys svc).
  { intros f ik Hf. apply find_some in Hf as [Hin _].
    by apply list_elem_of_In. }
  destruct (contentTypeUsesRootKeyEncryption _).
  - intros [H | H].
    + destruct intent; [| done].
      destruct (rootKey svc) as [rk |]; simpl in H.
      * by injection H as <-.
      * by destruct (intentRequiresEncryption _).
    + destruct (rootKey svc) as [rk |]; simpl in H; [| done].
      by injection H as <-.
  - intros [H | H].
    + destruct intent; [| done].
      destruct (itemsKeys svc) as [| k1 [| k2 ks]] eqn:Hks; simpl in H.
      * done.
      * injection H as <-. split; [done |]. apply list_elem_of_here.
      * match type of H with
        | Ok (ItemsKeyOf <$> ?o) = _ => destruct o as [ik |] eqn:Hf
        end; [| done].
        injection H as <-. split; [done |].
        apply (Hfind isDefault). exact Hf.
    + destruct (truthy _).
      * match type of H with
        | Ok (ItemsKeyOf <$> ?o) = _ => destruct o as [ik |] eqn:Hf
        end; [| done].
        injection H as <-. split; [done |]. by eapply Hfind.
      * case_decide; [done |].
        match type of H with
        | Ok (ItemsKeyOf <$> ?o) = _ => destruct o as [ik |] eqn:Hf
        end; [| done].
        injection H as <-. split; [done |]. by eapply Hfind.
Qed.

(** X10: [payloadsByEncryptingPayloads] throws exactly when the encryption
    of one of its payloads throws: unlike batch decryption it has no
    per-payload recovery. *)
Theorem batch_encryption_aborts_on_failure (svc : ServiceState)
    (payloads : list PurePayload) (intent : IntentArgument) :
  (∃ e, payloadsByEncryptingPayloads encryptString jsonBase64 svc payloads
          intent = Throw e)
  ↔ (∃ p e, p ∈ payloads
            ∧ payloadByEncryptingPayload encryptString jsonBase64 svc p
                (useIntent intent p) None = Throw e).
Proof.
  induction payloads as [| p rest IH]; simpl.
  - split; [by intros [? ?] |]. intros (p & e & Hin & _).
    by apply elem_of_nil in Hin.
  - destruct (payloadByEncryptingPayload _ _ svc p _ None) as [q | e] eqn:Hp;
      simpl.
    + destruct (payloadsByEncryptingPayloads _ _ svc rest intent)
        as [qs | e] eqn:Hrest; simpl.
      * split; [by intros [? ?] |]. intros (p' & e & Hin & Hthrow).
        apply elem_of_cons in Hin as [-> | Hin]; [congruence |].
        destruct IH as [_ IH]. destruct IH as [? ?]; [by eauto | done].
      * split; [| by eauto]. intros _.
        destruct IH as [IH _]. destruct IH as (p' & e' & Hin & Hthrow);
          [by eauto |].
        exists p', e'. split; [by apply list_elem_of_further | done].
    + split; [| by eauto]. intros _. exists p, e.
      split; [apply list_elem_of_here | done].
Qed.

Lemma payloadsByDecryptingPayloads_length svc payloads key :
  ∃ outputs,
    payloadsByDecryptingPayloads decryptString base64Json svc payloads key
    = Ok outputs
    ∧ length outputs = length payloads.
Proof.
  induction payloads as [| entry rest (outputs & Hrest & Hlen)]; simpl.
  - by eexists.
  - assert (∃ o, decryptEntry decryptString base64Json svc key entry = Ok o)
      as [o ->].
    { unfold decryptEntry. destruct entry as [p |]; [| by eexists].
      repeat (case_match; try by eexists). }
    simpl. rewrite Hrest. simpl. eexists. split; [done |]. simpl. by f_equal.
Qed.

Lemma sourcedPayloads_file rawItems :
  sourcedPayloads rawItems
  = Ok (map (fun rawItem =>
               Generator.CreatePayload rawItem Generator.FilePayloadFields
                 None) rawItems).
Proof.
  induction rawItems as [| rawItem rest IH]; [done |].
  simpl. by rewrite IH.
Qed.
End ProtocolServiceProperties2.

Section BackupImport.
Variable decryptString :
  string -> PurePayload -> option Key -> result PurePayload.
Variable base64Json : string -> option JsValue.
Variable operatorComputeRootKey :
  string -> option string -> SNRootKeyParams -> result SNRootKey.

(** X11: [payloadsByDecryptingBackupFile] without key params returns every
    item projected to the file fields and nothing else; with key params it
    throws what the key derivation throws, and otherwise returns one payload
    per item. *)
Theorem backup_import_keeps_every_item (svc : ServiceState)
    (data : BackupFile) (password : option string) :
  match backupKeyParams data with
  | None =>
      payloadsByDecryptingBackupFile decryptString base64Json
        operatorComputeRootKey svc data password
      = Ok (map (fun rawItem =>
                   Some (Generator.CreatePayload rawItem
                           Generator.FilePayloadFields None))
              (bf_items data))
  | Some keyParams =>
      match computeRootKey operatorComputeRootKey password keyParams with
      | Ok _ =>
          ∃ outputs,
            payloadsByDecryptingBackupFile decryptString base64Json
              operatorComputeRootKey svc data password = Ok outputs
            ∧ length outputs = length (bf_items data)
      | Throw e =>
          payloadsByDecryptingBackupFile decryptString base64Json
            operatorComputeRootKey svc data password = Throw e
      end
  end.
Proof.
  unfold payloadsByDecryptingBackupFile. rewrite sourcedPayloads_file.
  cbv [mbind result_bind].
  destruct (backupKeyParams data) as [keyParams |].
  - destruct (computeRootKey _ password keyParams) as [key | e]; [| done].
    destruct (payloadsByDecryptingPayloads_length decryptString base64Json
                svc
                (map Some
                   (map (fun rawItem =>
                           Generator.CreatePayload rawItem
                             Generator.FilePayloadFields None)
                      (bf_items data)))
                (Some (RootKeyOf key))) as (outputs & -> & Hlen).
    exists outputs. split; [done |]. by rewrite Hlen, !length_map.
  - by rewrite map_map.
Qed.
End BackupImport.

(** ** Key manager *)

Section KeyStateProperties.
Variable encryptString :
  string -> PurePayload -> option Key -> result (option PurePayload).
Variable decryptString :
  string -> PurePayload -> option Key -> result PurePayload.
Variable jsonBase64 : JsValue -> string.
Variable base64Json : string -> option JsValue.
Variable rootKeyCreate : option JsValue -> option JsValue -> SNRootKey.
Variable canDecryptWithKey : SNRootKey -> result bool.
Variable keyObservers : list KeyChangeObserver.

#[local] Arguments reencryptItemsKeys : simpl never.
#[local] Arguments payloadByEncryptingPayload : simpl never.
#[local] Arguments payloadByDecryptingPayload : simpl never.
#[local] Arguments awaitObservers : simpl never.

(** [initialize] reads the storage only: on a service object whose storage
    is that of a consistent state it sets that state's key mode, and it
    notifies the key observers in RootKeyOnly mode alone. *)
Lemma initialize_recomputes_mode svc fresh :
  keyStateConsistent svc →
  storage fresh = storage svc →
  initialize rootKeyCreate keyObservers fresh
  = if bool_decide (keyMode svc = KeyMode.RootKeyOnly)
    then
      (awaitObservers keyObservers
         (countNotification
            (setRootKey (getRootKeyFromKeychain rootKeyCreate fresh)
               (setKeyMode KeyMode.RootKeyOnly fresh))),
       countNotification
         (setRootKey (getRootKeyFromKeychain rootKeyCreate fresh)
            (setKeyMode KeyMode.RootKeyOnly fresh)))
    else (Ok tt, setKeyMode (keyMode svc) fresh).
Proof.
  destruct svc as [mode rk st kc iks n].
  destruct fresh as [mode0 rk0 st0 kc0 iks0 n0].
  unfold keyStateConsistent, isStored, hasPasscode. simpl.
  intros (Hw & Ha & Hk) ->.
  unfold initialize, hasRootKeyWrapper, getRootKeyWrapperKeyParams,
    getAccountKeyParams, getWrappedRootKey.
  run_key_manager.
  destruct (st !! StorageKey.RootKeyWrapperKeyParams) as [w |];
    destruct (st !! StorageKey.RootKeyParams) as [a |];
    destruct (st !! StorageKey.WrappedRootKey) as [k |];
    by destruct mode.
Qed.

Lemma keyStateConsistent_same svc svc' :
  keyMode svc' = keyMode svc → storage svc' = storage svc →
  keyStateConsistent svc → keyStateConsistent svc'.
Proof.
  unfold keyStateConsistent, isStored, hasPasscode.
  by intros -> ->.
Qed.

Lemma initialize_consistent svc :
  keyStateConsistent svc →
  keyStateConsistent (initialize rootKeyCreate keyObservers svc).2.
Proof.
  intros Hsvc. rewrite (initialize_recomputes_mode svc svc Hsvc eq_refl).
  apply (keyStateConsistent_same svc); [| | done];
    case_bool_decide as Hmode; simpl; congruence.
Qed.

Lemma setNewRootKey_consistent key keyParams wrappingKey svc :
  keyStateConsistent svc →
  (setNewRootKey encryptString jsonBase64 keyObservers key keyParams
     wrappingKey svc).1
  = Ok tt →
  keyStateConsistent
    (setNewRootKey encryptString jsonBase64 keyObservers key keyParams
       wrappingKey svc).2.
Proof.
  destruct svc as [mode rk st kc iks n].
  unfold keyStateConsistent, isStored, hasPasscode. simpl.
  intros (Hw & Ha & Hk).
  unfold setNewRootKey. destruct keyParams as [keyParams |]; [| done].
  cbv [mbind M_bind get]. simpl.
  destruct (sameRootKey rk key); [done |].
  destruct mode; run_key_manager.
  1, 2: destruct (awaitObservers keyObservers _) as [[] | e]; [| done];
        rewrite reencryptItemsKeys_marks_all; simpl; simplify_storage;
        by intros _.
  all: destruct wrappingKey as [w |]; simpl; [| done].
  all: match goal with
       | |- context [payloadByEncryptingPayload _ _ ?s ?p ?i (Some ?k)] =>
           destruct (payloadByEncryptingPayload encryptString jsonBase64
                       s p i (Some k)) as [wrapped | e]
       end; simpl; [| done].
  all: destruct (awaitObservers keyObservers _) as [[] | e]; [| done].
  all: rewrite reencryptItemsKeys_marks_all; simpl; simplify_storage.
  all: by intros _.
Qed.

Lemma setNewRootKeyWrapper_consistent wrappingKey keyParams svc :
  keyStateConsistent svc →
  (setNewRootKeyWrapper encryptString jsonBase64 keyObservers wrappingKey
     keyParams svc).1
  = Ok tt →
  keyStateConsistent
    (setNewRootKeyWrapper encryptString jsonBase64 keyObservers wrappingKey
       keyParams svc).2.
Proof.
  destruct svc as [mode rk st kc iks n].
  unfold keyStateConsistent, isStored, hasPasscode. simpl.
  intros (Hw & Ha & Hk).
  unfold setNewRootKeyWrapper.
  destruct mode; run_key_manager; try done.
  - rewrite reencryptItemsKeys_marks_all. simpl. simplify_storage.
    by intros _.
  - destruct rk as [rk |]; simpl; [| done].
    match goal with
    | |- context [payloadByEncryptingPayload _ _ ?s ?p ?i (Some ?k)] =>
        destruct (payloadByEncryptingPayload encryptString jsonBase64
                    s p i (Some k)) as [wrapped | e]
    end; simpl; [| done].
    simplify_storage. by intros _.
Qed.

Lemma removeRootKeyWrapper_consistent svc :
  keyStateConsistent svc →
  (removeRootKeyWrapper keyObservers svc).1 = Ok tt →
  keyStateConsistent (removeRootKeyWrapper keyObservers svc).2.
Proof.
  destruct svc as [mode rk st kc iks n].
  unfold keyStateConsistent, isStored, hasPasscode. simpl.
  intros (Hw & Ha & Hk).
  unfold removeRootKeyWrapper.
  destruct mode; run_key_manager; try done.
  - destruct rk as [rk |]; simpl; [| done].
    simplify_storage. by intros _.
  - simplify_storage. by intros _.
Qed.

Lemma unwrapRootKey_keeps_storage wrappingKey svc :
  keyMode (unwrapRootKey decryptString base64Json rootKeyCreate keyObservers
             wrappingKey svc).2 = keyMode svc
  ∧ storage (unwrapRootKey decryptString base64Json rootKeyCreate
               keyObservers wrappingKey svc).2 = storage svc.
Proof.
  destruct svc as [mode rk st kc iks n].
  unfold unwrapRootKey.
  destruct mode; run_key_manager; try done.
  destruct (decryptWrappedRootKey _ _ _ _) as [decrypted | e]; simpl;
    [| done].
  by destruct (errorDecrypting decrypted).
Qed.

Lemma clearLocalKeyState_consistent svc :
  keyStateConsistent (clearLocalKeyState keyObservers svc).2.
Proof.
  destruct svc as [mode rk st kc iks n].
  unfold keyStateConsistent, isStored, hasPasscode, clearLocalKeyState.
  run_key_manager. by simplify_storage.
Qed.

(** X12: every key-manager call that returns keeps the persisted values in
    step with the key mode: wrapper key params are stored exactly in the two
    passcode modes, account key params exactly in the two account modes, and
    a wrapped root key exactly with account and passcode. *)
Theorem key_state_stays_consistent (operation : KeyOperation)
    (svc : ServiceState) :
  keyStateConsistent svc →
  (perform encryptString decryptString jsonBase64 base64Json rootKeyCreate
     keyObservers operation svc).1 = Ok tt →
  keyStateConsistent
    (perform encryptString decryptString jsonBase64 base64Json rootKeyCreate
       keyObservers operation svc).2.
Proof.
  intros Hsvc. destruct operation; simpl.
  - intros _. by apply initialize_consistent.
  - by apply setNewRootKey_consistent.
  - by apply setNewRootKeyWrapper_consistent.
  - by apply removeRootKeyWrapper_consistent.
  - intros _. destruct (unwrapRootKey_keeps_storage wrappingKey svc)
      as [Hm Hs].
    by apply (keyStateConsistent_same svc).
  - intros _. apply clearLocalKeyState_consistent.
Qed.

(** X13: [initialize] reads the persisted values only.  On a service object
    whose storage is that of a state in which the persisted values agree with
    the key mode (the service of the next launch over the same storage), it
    sets that state's key mode again and leaves the storage alone, and
    [hasPasscode] then agrees with [hasRootKeyWrapper].  Only in RootKeyOnly
    mode does it read the root key from the keychain and await the key
    observers, and the outcome of the call is theirs; in the other modes it
    returns without touching the root key. *)
Theorem restart_recovers_key_mode (svc fresh : ServiceState) :
  keyStateConsistent svc →
  storage fresh = storage svc →
  let out := initialize rootKeyCreate keyObservers fresh in
  keyMode out.2 = keyMode svc
  ∧ storage out.2 = storage svc
  ∧ hasPasscode out.2 = hasRootKeyWrapper fresh
  ∧ if bool_decide (keyMode svc = KeyMode.RootKeyOnly)
    then rootKey out.2 = getRootKeyFromKeychain rootKeyCreate fresh
         ∧ out.1 = awaitObservers keyObservers out.2
    else out.1 = Ok tt ∧ rootKey out.2 = rootKey fresh.
Proof.
  intros Hsvc Hstorage. simpl.
  rewrite (initialize_recomputes_mode svc fresh Hsvc Hstorage).
  assert (Hpasscode :
            (bool_decide (keyMode svc = KeyMode.WrapperOnly)
             || bool_decide (keyMode svc = KeyMode.RootKeyPlusWrapper))
            = hasRootKeyWrapper fresh).
  { destruct Hsvc as (Hw & _). unfold hasPasscode in Hw. rewrite <- Hw.
    unfold isStored, hasRootKeyWrapper, getRootKeyWrapperKeyParams.
    rewrite Hstorage.
    by destruct (storage svc !! StorageKey.RootKeyWrapperKeyParams). }
  unfold hasPasscode.
  destruct (decide (keyMode svc = KeyMode.RootKeyOnly)) as [Hmode | Hmode].
  - rewrite !bool_decide_eq_true_2 by done. simpl.
    rewrite <- Hpasscode, Hmode. done.
  - rewrite !bool_decide_eq_false_2 by done. simpl.
    by rewrite <- Hpasscode.
Qed.

(** X14: [setNewRootKeyWrapper] with a passcode already set, and
    [removeRootKeyWrapper] and [unwrapRootKey] without one, throw and change
    nothing. *)
Theorem wrapper_changes_reject_wrong_mode (wrappingKey : SNRootKey)
    (keyParams : SNRootKeyParams) (svc : ServiceState) :
  (hasPasscode svc = true →
   ∃ e, setNewRootKeyWrapper encryptString jsonBase64 keyObservers
          wrappingKey keyParams svc = (Throw e, svc))
  ∧ (hasPasscode svc = false →
     ∃ e, removeRootKeyWrapper keyObservers svc = (Throw e, svc)
          ∧ ∃ e', unwrapRootKey decryptString base64Json rootKeyCreate
                    keyObservers wrappingKey svc = (Throw e', svc)).
Proof.
  destruct svc as [mode rk st kc iks n].
  unfold hasPasscode, setNewRootKeyWrapper, removeRootKeyWrapper,
    unwrapRootKey.
  split; intros Hmode; destruct mode; try discriminate; run_key_manager;
    eauto.
Qed.
End KeyStateProperties.

Section PasscodeProperties.
Variable encryptString :
  string -> PurePayload -> option Key -> result (option PurePayload).
Variable decryptString :
  string -> PurePayload -> option Key -> result PurePayload.
Variable jsonBase64 : JsValue -> string.
Variable base64Json : string -> option JsValue.
Variable rootKeyCreate : option JsValue -> option JsValue -> SNRootKey.
Variable canDecryptWithKey : SNRootKey -> result bool.
Variable keyObservers : list KeyChangeObserver.

#[local] Arguments reencryptItemsKeys : simpl never.
#[local] Arguments payloadByEncryptingPayload : simpl never.
#[local] Arguments payloadByDecryptingPayload : simpl never.
#[local] Arguments awaitObservers : simpl never.

Lemma not_stored_lookup (st : gmap StorageKey.t StorageValue) k :
  match st !! k with Some _ => true | None => false end = false →
  st !! k = None.
Proof. by destruct (st !! k). Qed.

Lemma remove_after_set (st : gmap StorageKey.t StorageValue) v :
  st !! StorageKey.WrappedRootKey = None →
  st !! StorageKey.RootKeyWrapperKeyParams = None →
  delete StorageKey.RootKeyWrapperKeyParams
    (delete StorageKey.WrappedRootKey
       (<[StorageKey.RootKeyWrapperKeyParams := v]> st)) = st.
Proof.
  intros Hk Hw. apply map_eq. intros []; simplify_storage; done.
Qed.

Lemma remove_after_wrap (st : gmap StorageKey.t StorageValue) v w :
  st !! StorageKey.WrappedRootKey = None →
  st !! StorageKey.RootKeyWrapperKeyParams = None →
  delete StorageKey.RootKeyWrapperKeyParams
    (delete StorageKey.WrappedRootKey
       (<[StorageKey.RootKeyWrapperKeyParams := v]>
          (<[StorageKey.WrappedRootKey := w]> st))) = st.
Proof.
  intros Hk Hw. apply map_eq. intros []; simplify_storage; done.
Qed.

(** X15: let the persisted values agree with the key mode, and let
    [setNewRootKeyWrapper] return.  Then [removeRootKeyWrapper] reaches a
    state with the key mode and the stored values from before the passcode
    was set, whether or not a key observer throws: the observers are awaited
    last, on that state, and the outcome of the call is theirs.  With an
    account the root key is back in the keychain and the items keys are as
    before; without an account no root key is left and every items key is
    dirty. *)
Theorem passcode_round_trip (wrappingKey : SNRootKey)
    (keyParams : SNRootKeyParams) (svc svc1 : ServiceState) :
  keyStateConsistent svc →
  setNewRootKeyWrapper encryptString jsonBase64 keyObservers wrappingKey
    keyParams svc
  = (Ok tt, svc1) →
  ∃ svc2,
    removeRootKeyWrapper keyObservers svc1
    = (awaitObservers keyObservers svc2, svc2)
    ∧ keyMode svc2 = keyMode svc
    ∧ storage svc2 = storage svc
    ∧ match keyMode svc with
      | KeyMode.RootKeyOnly =>
          rootKey svc2 = rootKey svc
          ∧ keychain svc2 = rootKey svc
          ∧ itemsKeys svc2 = itemsKeys svc
      | _ =>
          rootKey svc2 = None
          ∧ keychain svc2 = None
          ∧ itemsKeys svc2 = map markDirty (itemsKeys svc)
      end.
Proof.
  destruct svc as [mode rk st kc iks n].
  unfold keyStateConsistent, isStored, hasPasscode. simpl.
  intros (Hw & Ha & Hk).
  unfold setNewRootKeyWrapper.
  destruct mode; run_key_manager; try done.
  - rewrite reencryptItemsKeys_marks_all. simpl.
    destruct (awaitObservers keyObservers _) as [[] | e]; [| done].
    intros [= <-].
    unfold removeRootKeyWrapper. run_key_manager.
    eexists. split; [reflexivity |]. simpl.
    apply not_stored_lookup in Hw, Hk.
    by rewrite remove_after_set.
  - destruct rk as [rk |]; simpl; [| done].
    match goal with
    | |- context [payloadByEncryptingPayload _ _ ?s ?p ?i (Some ?k)] =>
        destruct (payloadByEncryptingPayload encryptString jsonBase64
                    s p i (Some k)) as [wrapped | e]
    end; simpl; [| done].
    destruct (awaitObservers keyObservers _) as [[] | e]; [| done].
    intros [= <-].
    unfold removeRootKeyWrapper. run_key_manager.
    eexists. split; [reflexivity |]. simpl.
    apply not_stored_lookup in Hw, Hk.
    by rewrite remove_after_wrap.
Qed.

(** X16: with account and passcode, [unwrapRootKey] installs the decrypted
    root key exactly when [validateWrappingKey] accepts the wrapping key, and
    then awaits the key observers: the call returns when they all return, and
    throws with the key installed when one of them throws.  When the
    validation fails or throws, the call throws without changing anything.
    With a passcode only, it installs the wrapping key itself as the root key
    without any check and without a notification. *)
Theorem unlocking_follows_validation (wrappingKey : SNRootKey)
    (svc : ServiceState) :
  let out :=
    unwrapRootKey decryptString base64Json rootKeyCreate keyObservers
      wrappingKey svc in
  match keyMode svc with
  | KeyMode.WrapperOnly => out = (Ok tt, setRootKey (Some wrappingKey) svc)
  | KeyMode.RootKeyPlusWrapper =>
      match validateWrappingKey decryptString base64Json canDecryptWithKey
              svc wrappingKey with
      | Ok true =>
          ∃ decrypted,
            decryptWrappedRootKey decryptString base64Json svc wrappingKey
            = Ok decrypted
            ∧ out.2
              = countNotification
                  (setRootKey
                     (Some (rootKeyCreate (content decrypted)
                              (raw decrypted PayloadField.Uuid))) svc)
            ∧ out.1 = awaitObservers keyObservers out.2
      | _ => ∃ e, out = (Throw e, svc)
      end
  | _ => ∃ e, out = (Throw e, svc)
  end.
Proof.
  destruct svc as [mode rk st kc iks n].
  unfold unwrapRootKey, validateWrappingKey.
  destruct mode; run_key_manager; eauto.
  destruct (decryptWrappedRootKey _ _ _ _) as [decrypted | e]; simpl;
    [| by eauto].
  destruct (errorDecrypting decrypted); simpl; eauto.
Qed.
End PasscodeProperties.

(** ** Items keys *)

Section DefaultItemsKeyProperties.
Variable compareVersions : string -> string -> Z.
Variable generateUuid : ServiceState -> string.
Variable generateNewItemsKeyContent : string -> string * option string.

Lemma createNewDefaultItemsKey_result svc :
  (createNewDefaultItemsKey compareVersions generateUuid
     generateNewItemsKeyContent svc).1 = Ok tt →
  ∃ created,
    isDefault created = true
    ∧ ik_dirty created = true
    ∧ ik_uuid created = generateUuid svc
    ∧ createNewDefaultItemsKey compareVersions generateUuid
        generateNewItemsKeyContent svc
      = (Ok tt,
         setItemsKeys
           (upsertItemsKey created
              (match getDefaultItemsKey svc with
               | Some currentDefault =>
                   map (fun k =>
                          if String.eqb (ik_uuid k) (ik_uuid currentDefault)
                          then clearDefault k else k)
                     (itemsKeys svc)
               | None => itemsKeys svc
               end)) svc).
Proof.
  unfold createNewDefaultItemsKey.
  cbv [mbind M_bind mret M_ret get modify throw lift].
  destruct (compareVersions _ _ <=? 0)%Z.
  - destruct (rootKey svc) as [rk |]; [| done]. intros _.
    eexists. split; [| split; [| split]]; [.. | by destruct (getDefaultItemsKey svc)];
      done.
  - destruct (operatorForVersion _) as [operator | e]; [| done].
    destruct (generateNewItemsKeyContent operator) as [key authenticationKey].
    intros _.
    eexists. split; [| split; [| split]]; [.. | by destruct (getDefaultItemsKey svc)];
      done.
Qed.

Lemma at_most_one_default (ks : list SNItemsKey) (a b : SNItemsKey) :
  (length (List.filter isDefault ks) ≤ 1)%nat →
  In a ks → isDefault a = true → In b ks → isDefault b = true → a = b.
Proof.
  intros Hlen Ha Hda Hb Hdb.
  assert (Hfa : In a (List.filter isDefault ks)) by by apply filter_In.
  assert (Hfb : In b (List.filter isDefault ks)) by by apply filter_In.
  destruct (List.filter isDefault ks) as [| x [| y l]]; simpl in *;
    [done | | lia].
  destruct Hfa as [<- |]; [| done]. by destruct Hfb as [<- |].
Qed.

Lemma find_none_filter {A} (f : A -> bool) (l : list A) :
  find f l = None → List.filter f l = [].
Proof.
  induction l as [| a l IH]; [done |]. simpl.
  destruct (f a); [done | exact IH].
Qed.

Lemma find_app_last {A} (f : A -> bool) (l : list A) (a : A) :
  List.filter f l = [] → f a = true → find f (l ++ [a]) = Some a.
Proof.
  intros Hl Ha. induction l as [| b l IH]; simpl in *.
  - by rewrite Ha.
  - destruct (f b); [done | by apply IH].
Qed.

Lemma cleared_keys_have_no_default svc :
  (length (defaultItemsKeys svc) ≤ 1)%nat →
  List.filter isDefault
    (match getDefaultItemsKey svc with
     | Some currentDefault =>
         map (fun k =>
                if String.eqb (ik_uuid k) (ik_uuid currentDefault)
                then clearDefault k else k)
           (itemsKeys svc)
     | None => itemsKeys svc
     end) = [].
Proof.
  unfold defaultItemsKeys, getDefaultItemsKey, allItemsKeys.
  intros Hlen.
  assert (Hclear : ∀ cur,
            In cur (itemsKeys svc) →
            (isDefault cur = false → ∀ k, In k (itemsKeys svc) → k = cur) →
            List.filter isDefault
              (map (fun k =>
                      if String.eqb (ik_uuid k) (ik_uuid cur)
                      then clearDefault k else k)
                 (itemsKeys svc)) = []).
  { intros cur Hcur Honly.
    destruct (List.filter isDefault (map _ (itemsKeys svc)))
      as [| k l] eqn:Hf; [done |].
    assert (Hk : In k (k :: l)) by by left.
    rewrite <- Hf in Hk. apply filter_In in Hk as [Hk Hdk].
    apply in_map_iff in Hk as (k0 & Hk0 & Hin).
    destruct (String.eqb (ik_uuid k0) (ik_uuid cur)) eqn:Hu.
    - by subst k.
    - subst k0. destruct (isDefault cur) eqn:Hdc.
      + assert (k = cur) as -> by by eapply at_most_one_default.
        by rewrite String.eqb_refl in Hu.
      + rewrite (Honly eq_refl k Hin) in Hu.
        by rewrite String.eqb_refl in Hu. }
  destruct (itemsKeys svc) as [| k1 [| k2 ks]] eqn:Hks.
  - done.
  - apply Hclear; [by left |]. intros _ k [<- | []]. done.
  - destruct (find isDefault (k1 :: k2 :: ks)) as [cur |] eqn:Hfind.
    + apply find_some in Hfind as [Hin Hd]. apply Hclear; [done |].
      congruence.
    + by apply find_none_filter.
Qed.

Lemma listed_fresh uuid (ks : list SNItemsKey) :
  uuid ∉ map ik_uuid ks → listed uuid ks = false.
Proof.
  intros Hfresh. unfold listed.
  destruct (existsb _ ks) eqn:He; [| done].
  apply existsb_exists in He as (k & Hk & Hu).
  apply String.eqb_eq in Hu. destruct Hfresh.
  apply list_elem_of_In, in_map_iff. by exists k.
Qed.

(** X17: when at most one items key is flagged default and the new uuid is
    fresh, a [createNewDefaultItemsKey] that returns leaves exactly one key
    flagged default: the new, dirty key, which [getDefaultItemsKey] then
    returns; one key has been added. *)
Theorem new_default_items_key_is_the_only_default (svc : ServiceState) :
  (length (defaultItemsKeys svc) ≤ 1)%nat →
  generateUuid svc ∉ map ik_uuid (itemsKeys svc) →
  (createNewDefaultItemsKey compareVersions generateUuid
     generateNewItemsKeyContent svc).1 = Ok tt →
  ∃ created,
    defaultItemsKeys
      (createNewDefaultItemsKey compareVersions generateUuid
         generateNewItemsKeyContent svc).2 = [created]
    ∧ getDefaultItemsKey
        (createNewDefaultItemsKey compareVersions generateUuid
           generateNewItemsKeyContent svc).2 = Some created
    ∧ ik_uuid created = generateUuid svc
    ∧ ik_dirty created = true
    ∧ length
        (itemsKeys
           (createNewDefaultItemsKey compareVersions generateUuid
              generateNewItemsKeyContent svc).2)
      = S (length (itemsKeys svc)).
Proof.
  intros Hone Hfresh Hok.
  destruct (createNewDefaultItemsKey_result svc Hok)
    as (created & Hdefault & Hdirty & Huuid & ->).
  pose proof (cleared_keys_have_no_default svc Hone) as Hnone.
  set (ks := match getDefaultItemsKey svc with
             | Some currentDefault => _
             | None => _
             end) in *.
  assert (Huuids : map ik_uuid ks = map ik_uuid (itemsKeys svc)).
  { subst ks. destruct (getDefaultItemsKey svc); [| done].
    rewrite map_map. apply map_ext. intros k. by destruct (String.eqb _ _). }
  exists created. unfold defaultItemsKeys, getDefaultItemsKey, allItemsKeys.
  simpl. unfold upsertItemsKey.
  rewrite listed_fresh by by rewrite Huuid, Huuids.
  rewrite List.filter_app, Hnone. simpl. rewrite Hdefault.
  split; [done |]. split.
  - destruct ks as [| k1 [| k2 l]]; [done | |].
    + simpl in *. destruct (isDefault k1); [done |]. by rewrite Hdefault.
    + by apply (find_app_last isDefault (k1 :: k2 :: l)).
  - split; [done |]. split; [done |].
    rewrite length_app. simpl.
    apply (f_equal length) in Huuids. rewrite !length_map in Huuids. lia.
Qed.

(** X18: after a [handleFullSyncCompletion] that returns there is a default
    items key; with one already present nothing changes, and all items are
    repersisted only in the passcode-only mode. *)
Theorem full_sync_leaves_a_default_items_key (svc : ServiceState)
    (repersisted : bool) :
  (handleFullSyncCompletion compareVersions generateUuid
     generateNewItemsKeyContent svc).1 = Ok repersisted →
  is_Some
    (getDefaultItemsKey
       (handleFullSyncCompletion compareVersions generateUuid
          generateNewItemsKeyContent svc).2)
  ∧ (is_Some (getDefaultItemsKey svc) →
     handleFullSyncCompletion compareVersions generateUuid
       generateNewItemsKeyContent svc = (Ok false, svc))
  ∧ (repersisted = true → keyMode svc = KeyMode.WrapperOnly).
Proof.
  unfold handleFullSyncCompletion.
  cbv [mbind M_bind mret M_ret get].
  destruct (getDefaultItemsKey svc) as [current |] eqn:Hcurrent.
  - simpl. rewrite Hcurrent. intros [= <-]. by eauto.
  - destruct (createNewDefaultItemsKey _ _ _ svc) as [[[] | e] svc'] eqn:Hcreate;
      [| done].
    assert (Hok : (createNewDefaultItemsKey compareVersions generateUuid
                     generateNewItemsKeyContent svc).1 = Ok tt)
      by by rewrite Hcreate.
    destruct (createNewDefaultItemsKey_result svc Hok)
      as (created & Hdefault & _ & _ & Heq).
    rewrite Hcreate, Hcurrent in Heq. injection Heq as ->.
    assert (Hsome : is_Some (getDefaultItemsKey
                               (setItemsKeys
                                  (upsertItemsKey created (itemsKeys svc))
                                  svc))).
    { unfold getDefaultItemsKey, allItemsKeys. simpl.
      assert (Hin : In created (upsertItemsKey created (itemsKeys svc))).
      { unfold upsertItemsKey. destruct (listed _ _) eqn:Hl.
        - unfold listed in Hl. apply existsb_exists in Hl as (k & Hk & Hu).
          apply in_map_iff. exists k. by rewrite Hu.
        - apply in_or_app. right. by left. }
      destruct (upsertItemsKey created (itemsKeys svc)) as [| k1 [| k2 l]];
        [done | by eauto |].
      destruct (find isDefault (k1 :: k2 :: l)) eqn:Hfind; [by eauto |].
      by rewrite (find_none _ _ Hfind created Hin) in Hdefault. }
    simpl. destruct (bool_decide (keyMode svc = KeyMode.WrapperOnly)) eqn:Hm;
      simpl; intros [= <-].
    + split; [done |]. split; [by intros [? ?] |]. intros _.
      by apply bool_decide_eq_true in Hm.
    + split; [done |]. split; [by intros [? ?] | done].
Qed.
End DefaultItemsKeyProperties.

(** ** Item manager: reference indices *)

Section ReferenceIndexProperties.
Import ItemManager ItemQueries.
Variable removeFromArray : list string -> string -> list string.

Lemma removeFromIndex_other index key value x :
  x ≠ key → removeFromIndex removeFromArray index key value !! x = index !! x.
Proof.
  intros Hne. unfold removeFromIndex.
  destruct (index !! key); [| done]. by rewrite lookup_insert_ne.
Qed.

Lemma removeFromIndex_same index key value :
  removeFromIndex removeFromArray index key value !! key
  = (fun array => removeFromArray array value) <$> index !! key.
Proof.
  unfold removeFromIndex.
  destruct (index !! key) eqn:Hk; simpl; [| done].
  by rewrite lookup_insert_eq.
Qed.

Lemma fold_removeFromIndex_is_Some keys index value x :
  is_Some (fold_left (fun index key =>
                        removeFromIndex removeFromArray index key value)
             keys index !! x)
  ↔ is_Some (index !! x).
Proof.
  revert index. induction keys as [| key keys IH]; intros index; [done |].
  simpl. rewrite IH.
  destruct (decide (x = key)) as [-> | Hne].
  - rewrite removeFromIndex_same. apply fmap_is_Some.
  - by rewrite removeFromIndex_other.
Qed.

(** X19: for a uuid and indices whose uuids name no property of
    [Object.prototype], and whatever [removeFromArray] does to an array,
    [deestablishReferenceIndexForDeletedItem] removes the uuid's own entry
    from both indices, adds or drops no other key, and leaves the collection
    and the observers alone. *)
Theorem deleted_item_leaves_both_indices (uuid : string) (st : State) :
  ordinaryUuid uuid →
  ordinaryIndices st →
  let st' := deestablishReferenceIndexForDeletedItem removeFromArray uuid st in
  referenceMap st' !! uuid = None
  ∧ inverseReferenceMap st' !! uuid = None
  ∧ (∀ x, x ≠ uuid →
       (is_Some (referenceMap st' !! x) ↔ is_Some (referenceMap st !! x))
       ∧ (is_Some (inverseReferenceMap st' !! x)
          ↔ is_Some (inverseReferenceMap st !! x)))
  ∧ collection st' = collection st
  ∧ observers st' = observers st.
Proof.
  intros _ _. simpl. split; [| split; [| split]].
  - apply eq_None_not_Some. rewrite fold_removeFromIndex_is_Some.
    rewrite lookup_delete_eq. by intros [? ?].
  - by rewrite lookup_delete_eq.
  - intros x Hne. split.
    + rewrite fold_removeFromIndex_is_Some. by rewrite lookup_delete_ne.
    + rewrite lookup_delete_ne by done. apply fold_removeFromIndex_is_Some.
  - done.
Qed.

Lemma fold_removeFromIndex_entry keys index value x :
  removesValue removeFromArray →
  NoDup (indexEntry index x) →
  NoDup (indexEntry
           (fold_left (fun index key =>
                         removeFromIndex removeFromArray index key value)
              keys index) x)
  ∧ ∀ y, y ∈ indexEntry
               (fold_left (fun index key =>
                             removeFromIndex removeFromArray index key value)
                  keys index) x
         ↔ y ∈ indexEntry index x ∧ (x ∈ keys → y ≠ value).
Proof.
  intros Hremove. revert index.
  induction keys as [| key keys IH]; intros index Hnd; simpl.
  - split; [done |]. intros y. split; [| by intros [? _]].
    intros Hy. split; [done |]. intros Hin. by apply elem_of_nil in Hin.
  - set (index1 := removeFromIndex removeFromArray index key value).
    assert (Hstep : NoDup (indexEntry index1 x)
                    ∧ ∀ y, y ∈ indexEntry index1 x
                           ↔ y ∈ indexEntry index x
                             ∧ (x = key → y ≠ value)).
    { unfold indexEntry, index1 in *.
      destruct (decide (x = key)) as [-> | Hne].
      - rewrite removeFromIndex_same.
        destruct (index !! key) as [array |]; simpl in *.
        + destruct (Hremove array value Hnd) as [Hnd' Hmem].
          split; [done |]. intros y. rewrite Hmem. tauto.
        + split; [done |]. intros y. split; [| by intros [? _]].
          intros Hy. by apply elem_of_nil in Hy.
      - rewrite removeFromIndex_other by done. split; [done |].
        intros y. tauto. }
    destruct Hstep as [Hnd1 Hmem1].
    destruct (IH index1 Hnd1) as [Hnd2 Hmem2].
    split; [done |]. intros y. rewrite Hmem2, Hmem1, elem_of_cons.
    split.
    + intros [[Hy Hkey] Hkeys]. split; [done |]. intros [-> | Hin]; auto.
    + intros [Hy Hall]. split; [split |]; auto.
Qed.

Lemma deestablish_entries uuid st :
  removesValue removeFromArray → indicesMirrored st →
  (∀ x, NoDup (forwardEntry
                 (deestablishReferenceIndexForDeletedItem removeFromArray
                    uuid st) x)
        ∧ NoDup (inverseEntry
                   (deestablishReferenceIndexForDeletedItem removeFromArray
                      uuid st) x))
  ∧ (∀ x y, y ∈ forwardEntry
                  (deestablishReferenceIndexForDeletedItem removeFromArray
                     uuid st) x
            ↔ x ≠ uuid ∧ y ≠ uuid ∧ y ∈ forwardEntry st x)
  ∧ (∀ x y, y ∈ inverseEntry
                  (deestablishReferenceIndexForDeletedItem removeFromArray
                     uuid st) x
            ↔ x ≠ uuid ∧ y ≠ uuid ∧ y ∈ inverseEntry st x).
Proof.
  intros Hremove [Hmirror Hnodup].
  unfold forwardEntry, inverseEntry in *. simpl.
  assert (HI1 : ∀ x,
            NoDup (indexEntry
                     (fold_left
                        (fun inverse directReference =>
                           removeFromIndex removeFromArray inverse
                             directReference uuid)
                        (default [] (referenceMap st !! uuid))
                        (inverseReferenceMap st)) x)
            ∧ ∀ y, y ∈ indexEntry
                         (fold_left
                            (fun inverse directReference =>
                               removeFromIndex removeFromArray inverse
                                 directReference uuid)
                            (default [] (referenceMap st !! uuid))
                            (inverseReferenceMap st)) x
                   ↔ y ≠ uuid ∧ y ∈ indexEntry (inverseReferenceMap st) x).
  { intros x.
    destruct (fold_removeFromIndex_entry
                (default [] (referenceMap st !! uuid))
                (inverseReferenceMap st) uuid x Hremove
                (proj2 (Hnodup x))) as [Hnd Hmem].
    split; [done |]. intros y. rewrite Hmem. unfold indexEntry.
    split.
    - intros [Hy Hne]. split; [| done]. intros ->.
      apply Hne; [| done]. by apply Hmirror.
    - intros [Hne Hy]. done. }
  assert (HF1 : ∀ x,
            NoDup (indexEntry (delete uuid (referenceMap st)) x)
            ∧ ∀ y, y ∈ indexEntry (delete uuid (referenceMap st)) x
                   ↔ x ≠ uuid ∧ y ∈ indexEntry (referenceMap st) x).
  { intros x. unfold indexEntry.
    destruct (decide (x = uuid)) as [-> | Hne].
    - rewrite lookup_delete_eq. simpl. split; [constructor |].
      intros y. split; [| by intros [? _]].
      intros Hy. by apply elem_of_nil in Hy.
    - rewrite lookup_delete_ne by done. split; [apply Hnodup |].
      tauto. }
  set (I1 := fold_left _ (default [] (referenceMap st !! uuid))
               (inverseReferenceMap st)) in *.
  assert (HF2 : ∀ x,
            NoDup (indexEntry
                     (fold_left
                        (fun direct inverseReference =>
                           removeFromIndex removeFromArray direct
                             inverseReference uuid)
                        (default [] (I1 !! uuid))
                        (delete uuid (referenceMap st))) x)
            ∧ ∀ y, y ∈ indexEntry
                         (fold_left
                            (fun direct inverseReference =>
                               removeFromIndex removeFromArray direct
                                 inverseReference uuid)
                            (default [] (I1 !! uuid))
                            (delete uuid (referenceMap st))) x
                   ↔ x ≠ uuid ∧ y ≠ uuid
                     ∧ y ∈ indexEntry (referenceMap st) x).
  { intros x.
    destruct (fold_removeFromIndex_entry (default [] (I1 !! uuid))
                (delete uuid (referenceMap st)) uuid x Hremove
                (proj1 (HF1 x))) as [Hnd Hmem].
    split; [done |]. intros y.
    rewrite Hmem, (proj2 (HF1 x)). split.
    - intros [[Hx Hy] Hne]. split; [done |]. split; [| done].
      intros ->. apply Hne; [| done].
      apply (proj2 (HI1 uuid)). split; [done |]. by apply Hmirror.
    - intros (Hx & Hy & Hin). done. }
  split; [| split].
  - intros x. split; [apply HF2 |].
    destruct (decide (x = uuid)) as [-> | Hne].
    + rewrite lookup_delete_eq. constructor.
    + rewrite lookup_delete_ne by done. apply HI1.
  - intros x y. apply HF2.
  - intros x y. destruct (decide (x = uuid)) as [-> | Hne].
    + rewrite lookup_delete_eq. simpl. split; [| by intros [? _]].
      intros Hy. by apply elem_of_nil in Hy.
    + rewrite lookup_delete_ne by done.
      pose proof (proj2 (HI1 x) y) as Hy. unfold indexEntry in Hy.
      rewrite Hy. tauto.
Qed.

Lemma ordinaryIndex_shrinks (index index' : gmap string (list string)) :
  ordinaryIndex index →
  (∀ x, is_Some (index' !! x) → is_Some (index !! x)) →
  (∀ x y, y ∈ indexEntry index' x → y ∈ indexEntry index x) →
  ordinaryIndex index'.
Proof.
  intros Hindex Hkeys Hentries key array' Hlookup.
  destruct (Hkeys key) as [array Harray]; [by eexists |].
  destruct (Hindex key array Harray) as [Hkey Harr].
  split; [done |].
  apply Forall_forall. intros y Hy.
  specialize (Hentries key y). unfold indexEntry in Hentries.
  rewrite Hlookup, Harray in Hentries. simpl in Hentries.
  rewrite Forall_forall in Harr. auto.
Qed.

(** X20: for a uuid and indices whose uuids name no property of
    [Object.prototype], and a [removeFromArray] that removes the value from an
    array without duplicates: deleting the uuid from mirrored indices leaves
    them mirrored and free of duplicates, the uuid occurs in no entry of
    either index, and the indices still hold no such property name. *)
Theorem deletion_keeps_indices_mirrored (uuid : string) (st : State) :
  ordinaryUuid uuid →
  ordinaryIndices st →
  removesValue removeFromArray →
  indicesMirrored st →
  indicesMirrored
    (deestablishReferenceIndexForDeletedItem removeFromArray uuid st)
  ∧ (∀ x,
       ¬ (uuid ∈ forwardEntry
                   (deestablishReferenceIndexForDeletedItem removeFromArray
                      uuid st) x)
       ∧ ¬ (uuid ∈ inverseEntry
                     (deestablishReferenceIndexForDeletedItem removeFromArray
                        uuid st) x))
  ∧ ordinaryIndices
      (deestablishReferenceIndexForDeletedItem removeFromArray uuid st).
Proof.
  intros _ [Hforward Hinverse] Hremove Hst.
  destruct (deestablish_entries uuid st Hremove Hst) as (Hnd & Hf & Hi).
  destruct Hst as [Hmirror _].
  split; [split | split].
  - intros a b. rewrite Hf, Hi, Hmirror. tauto.
  - exact Hnd.
  - intros x. rewrite Hf, Hi. tauto.
  - split.
    + apply (ordinaryIndex_shrinks (referenceMap st)); [done | |].
      * intros x. simpl. rewrite fold_removeFromIndex_is_Some.
        destruct (decide (x = uuid)) as [-> | Hne].
        -- rewrite lookup_delete_eq. by intros [? ?].
        -- by rewrite lookup_delete_ne.
      * intros x y Hy. by apply Hf in Hy as (_ & _ & Hy).
    + apply (ordinaryIndex_shrinks (inverseReferenceMap st)); [done | |].
      * intros x. simpl.
        destruct (decide (x = uuid)) as [-> | Hne].
        -- rewrite lookup_delete_eq. by intros [? ?].
        -- rewrite lookup_delete_ne by done.
           by rewrite fold_removeFromIndex_is_Some.
      * intros x y Hy. by apply Hi in Hy as (_ & _ & Hy).
Qed.

Lemma establish_fold (u : string) (all : list string)
    (rs : list ContentReference) (st : State) :
  let st' :=
    fold_left
      (fun st reference =>
         let direct := <[u := all]> (referenceMap st) in
         let index : list string :=
           default [] (inverseReferenceMap st !! ref_uuid reference) in
         mkState (collection st) direct
           (<[ref_uuid reference := (index ++ [u])%list]>
              (inverseReferenceMap st))
           (observers st))
      rs st in
  (∀ a, forwardEntry st' a
        = if decide (a = u ∧ rs ≠ []) then all else forwardEntry st a)
  ∧ (NoDup (map ref_uuid rs) →
     ∀ b, inverseEntry st' b
          = if decide (b ∈ map ref_uuid rs)
            then (inverseEntry st b ++ [u])%list
            else inverseEntry st b).
Proof.
  revert st. induction rs as [| r rs IH]; intros st; simpl.
  - split.
    + intros a. case_decide as H; [by destruct H | done].
    + by intros _ b.
  - destruct (IH (mkState (collection st) (<[u := all]> (referenceMap st))
                    (<[ref_uuid r :=
                         (default [] (inverseReferenceMap st !! ref_uuid r)
                          ++ [u])%list]> (inverseReferenceMap st))
                    (observers st))) as [Hf Hi].
    split.
    + intros a. rewrite Hf. unfold forwardEntry. simpl.
      destruct (decide (a = u)) as [-> | Hne].
      * rewrite lookup_insert_eq. simpl.
        rewrite (decide_True (P := u = u ∧ r :: rs ≠ [])) by done.
        by case_decide.
      * rewrite lookup_insert_ne by done.
        rewrite !decide_False by by intros [? _]. done.
    + intros Hnd b. apply NoDup_cons in Hnd as [Hr Hnd].
      rewrite (Hi Hnd). unfold inverseEntry. simpl.
      destruct (decide (b = ref_uuid r)) as [-> | Hne].
      * rewrite lookup_insert_eq. simpl.
        rewrite decide_False by done.
        rewrite decide_True by apply list_elem_of_here. done.
      * rewrite lookup_insert_ne by done.
        destruct (decide (b ∈ map ref_uuid rs)) as [Hin | Hin].
        -- rewrite decide_True by by apply list_elem_of_further. done.
        -- rewrite decide_False; [done |].
           intros Hc. by apply elem_of_cons in Hc as [? | ?].
Qed.

Lemma establish_fold_ordinary (u : string) (all : list string)
    (rs : list ContentReference) (st : State) :
  ordinaryUuid u →
  Forall ordinaryUuid all →
  Forall (fun reference => ordinaryUuid (ref_uuid reference)) rs →
  ordinaryIndices st →
  ordinaryIndices
    (fold_left
       (fun st reference =>
          let direct := <[u := all]> (referenceMap st) in
          let index : list string :=
            default [] (inverseReferenceMap st !! ref_uuid reference) in
          mkState (collection st) direct
            (<[ref_uuid reference := (index ++ [u])%list]>
               (inverseReferenceMap st))
            (observers st))
       rs st).
Proof.
  intros Hu Hall Hrs. revert st.
  induction Hrs as [| r rs Hr Hrs IH]; intros st Hst; [done |].
  simpl. apply IH. destruct Hst as [Hforward Hinverse].
  split; simpl.
  - by apply map_Forall_insert_2.
  - apply map_Forall_insert_2; [| done]. split; [done |].
    apply Forall_app. split; [| by apply Forall_singleton].
    destruct (inverseReferenceMap st !! ref_uuid r) as [array |] eqn:Harray;
      simpl; [| done].
    by destruct (Hinverse _ _ Harray).
Qed.

(** X21: for an item and indices whose uuids name no property of
    [Object.prototype]: indexing an item that has no forward entry yet and
    whose references are distinct keeps the indices mirrored and free of
    duplicates; a non-empty reference list becomes the forward entry, the
    item is in the inverse entry of every item it references, and the indices
    still hold no such property name. *)
Theorem first_indexing_keeps_indices_mirrored (item : SNItem) (st : State) :
  ordinaryItem item →
  ordinaryIndices st →
  indicesMirrored st →
  forwardEntry st (uuid item) = [] →
  NoDup (map ref_uuid (references item)) →
  indicesMirrored (establishReferenceIndex item st)
  ∧ (references item ≠ [] →
     forwardEntry (establishReferenceIndex item st) (uuid item)
     = map ref_uuid (references item))
  ∧ (∀ reference, reference ∈ references item →
       uuid item
       ∈ inverseEntry (establishReferenceIndex item st) (ref_uuid reference))
  ∧ ordinaryIndices (establishReferenceIndex item st).
Proof.
  intros [Huuid Hreferences] Hordinary [Hmirror Hnodup] Hnew Hrefs.
  assert (Hkept : ordinaryIndices (establishReferenceIndex item st)).
  { apply establish_fold_ordinary; [done | | done | done].
    by apply Forall_fmap. }
  destruct (establish_fold (uuid item) (map ref_uuid (references item))
              (references item) st) as [Hf Hi].
  specialize (Hi Hrefs).
  fold (establishReferenceIndex item st) in Hf, Hi.
  assert (Hfresh : ∀ b, ¬ (uuid item ∈ inverseEntry st b)).
  { intros b Hb. apply Hmirror in Hb. rewrite Hnew in Hb.
    by apply elem_of_nil in Hb. }
  split; [split |].
  - intros a b. rewrite Hf, Hi.
    destruct (decide (a = uuid item ∧ references item ≠ []))
      as [[-> Hne] | Hno].
    + destruct (decide (b ∈ map ref_uuid (references item))) as [Hb | Hb].
      * split; [| done]. intros _. apply elem_of_app. right.
        apply list_elem_of_here.
      * split; [done |]. intros Hin. by apply Hfresh in Hin.
    + destruct (decide (b ∈ map ref_uuid (references item))) as [Hb | Hb];
        [| apply Hmirror].
      rewrite elem_of_app, Hmirror. split; [by left |].
      intros [Hin | Hin]; [done |].
      apply list_elem_of_singleton in Hin. subst a. destruct Hno. split; [done |].
      intros Hnil. rewrite Hnil in Hb. by apply elem_of_nil in Hb.
  - intros a. rewrite Hf, Hi. split.
    + case_decide; [done | apply Hnodup].
    + case_decide; [| apply Hnodup]. apply NoDup_app.
      split; [apply Hnodup |]. split; [| apply NoDup_singleton].
      intros x Hx Hu. apply list_elem_of_singleton in Hu. subst x.
      by apply Hfresh in Hx.
  - split; [| split; [| done]].
    + intros Hne. rewrite Hf. by rewrite decide_True.
    + intros reference Hin. rewrite Hi. rewrite decide_True.
      * apply elem_of_app. right. apply list_elem_of_here.
      * apply list_elem_of_In, in_map, list_elem_of_In, Hin.
Qed.
End ReferenceIndexProperties.

(** ** Item manager: observers, discarded payloads, queries *)

Section ItemManagerMoreProperties.
Import ItemManager ItemQueries.
Variable removeFromArray : list string -> string -> list string.

(** X22: when the callbacks of the first observers return and the next one
    throws, [notifyObservers] has called exactly those observers, each with
    its relevant items, and throws: no later observer is notified. *)
Theorem throwing_observer_stops_notification
    (before after : list Observer) (observer : Observer)
    (items : list SNItem) (type : ObservationType)
    (source : option PayloadSource.t) (sourceKey : option string)
    (e : string) :
  let call (o : Observer) :=
    mkNotification (List.filter (isRelevant o) items) source sourceKey type in
  Forall (fun o => callback o (call o) = Ok tt) before →
  callback observer (call observer) = Throw e →
  notifyObservers (before ++ observer :: after) items type source sourceKey
  = (map (fun o => (o, call o)) (before ++ [observer]), Throw e).
Proof.
  intros call Hbefore Hthrow.
  induction before as [| o before IH]; simpl.
  - fold (call observer). by rewrite Hthrow.
  - apply Forall_cons in Hbefore as [Ho Hbefore].
    fold (call o). rewrite Ho. by rewrite (IH Hbefore).
Qed.

(** X23: after a change batch whose notification returns, no item of the
    collection has the uuid of a discardable payload of the batch, and every
    other item stays; when an observer throws, the discardable payloads stay
    in the collection. *)
Theorem discarded_payloads_leave_the_collection (items : list SNItem)
    (source : option PayloadSource.t) (sourceKey : option string)
    (st : State) :
  match setPayloads removeFromArray items Changed source sourceKey st with
  | (_, Ok _, st') =>
      (∀ d i, d ∈ items → discardable d = true →
              i ∈ collection (onPayloadChange removeFromArray items source
                                sourceKey st) →
              uuid i ≠ uuid d)
      ∧ (∀ i, i ∈ collection st' →
              (∀ d, d ∈ items → discardable d = true → uuid d ≠ uuid i) →
              i ∈ collection (onPayloadChange removeFromArray items source
                                sourceKey st))
  | (_, Throw _, st') =>
      onPayloadChange removeFromArray items source sourceKey st = st'
  end.
Proof.
  unfold onPayloadChange.
  destruct (setPayloads removeFromArray items Changed source sourceKey st)
    as [[calls [its | e]] st'] eqn:Hset; [| done].
  assert (its = items) as ->.
  { unfold setPayloads in Hset.
    destruct (notifyObservers _ _ _ _ _) as [? []]; by inversion Hset. }
  simpl. split.
  - intros d i Hd Hdisc Hi Heq.
    apply list_elem_of_In, filter_In in Hi as [_ Hi].
    apply negb_true_iff in Hi.
    assert (existsb (fun d => discardable d && String.eqb (uuid d) (uuid i))
              items = true); [| congruence].
    apply existsb_exists. exists d. split; [by apply list_elem_of_In |].
    rewrite Hdisc, Heq. simpl. apply String.eqb_refl.
  - intros i Hi Hnone. apply list_elem_of_In, filter_In.
    split; [by apply list_elem_of_In |].
    apply negb_true_iff. destruct (existsb _ items) eqn:Hex; [| done].
    apply existsb_exists in Hex as (d & Hd & Hdi).
    apply andb_prop in Hdi as [Hdisc Hu]. apply String.eqb_eq in Hu.
    destruct (Hnone d); [by apply list_elem_of_In | done | done].
Qed.

Lemma filter_filter_and {A} (f g : A -> bool) (l : list A) :
  List.filter f (List.filter g l) = List.filter (fun x => f x && g x) l.
Proof.
  induction l as [| a l IH]; [done |]. simpl.
  destruct (g a); simpl; rewrite ?andb_false_r, ?andb_true_r.
  - destruct (f a); by rewrite IH.
  - exact IH.
Qed.

Lemma single_type_membership (c c' : ContentType.t) :
  bool_decide (c' ∈ [c]) = bool_decide (c' = c).
Proof. apply bool_decide_ext. apply list_elem_of_singleton. Qed.

(** X24: [getItems] with an array of types returns exactly the items of the
    collection that are no dummy and whose type is in the array, so never a
    dummy, whatever the array; [getItems] with the single type Note, Component
    or Tag returns all items of the type, dummies included, and the array
    query for that one type is its result without the dummies; for the other
    types the two calls agree, and [noteCount] is the length of the array
    query for notes. *)
Theorem single_type_query_keeps_dummies (c : ContentType.t)
    (cs : list ContentType.t) (st : State) :
  (∀ item, item ∈ getItems (Many cs) st
           ↔ item ∈ collection st ∧ dummy item = false
             ∧ content_type item ∈ cs)
  ∧ getItems (Many [c]) st
    = List.filter (fun item => negb (dummy item)) (getItems (One c) st)
  ∧ (if bool_decide (c ∈ [ContentType.Note; ContentType.Component;
                          ContentType.Tag])
     then getItems (One c) st = all c st
     else getItems (One c) st = getItems (Many [c]) st)
  ∧ noteCount st = length (getItems (Many [ContentType.Note]) st).
Proof.
  assert (Hall : ∀ c, List.filter (fun item => negb (dummy item)) (all c st)
                      = getItemsOfTypes [c] st).
  { intros c0. unfold all, getItemsOfTypes, items.
    rewrite filter_filter_and. apply List.filter_ext. intros item.
    by rewrite single_type_membership. }
  split; [| split; [| split]].
  - intros item. simpl. unfold getItemsOfTypes, items.
    rewrite list_elem_of_In, filter_In, andb_true_iff, negb_true_iff,
      bool_decide_eq_true, <- list_elem_of_In. tauto.
  - simpl. unfold managedItemsForContentType, notes, components, tags.
    destruct c; simpl; rewrite ?Hall; try done.
    all: unfold getItemsOfTypes; rewrite filter_filter_and.
    all: apply List.filter_ext; intros item; by destruct (dummy item).
  - by destruct c.
  - unfold noteCount, notes. by rewrite Hall.
Qed.

(** X25: an item of the collection is in [invalidItems] exactly when it is
    not in [validItemsForContentType] of its own content type, and a valid
    item is never errored and always in the collection. *)
Theorem every_item_is_valid_or_invalid (item : SNItem) (st : State) :
  item ∈ collection st →
  (item ∈ invalidItems st
   ↔ ¬ (item ∈ validItemsForContentType (One (content_type item)) st))
  ∧ ∀ valid c, valid ∈ validItemsForContentType c st →
      errorDecrypting valid = false ∧ valid ∈ collection st.
Proof.
  intros Hin. split.
  - unfold invalidItems, validItemsForContentType, items.
    rewrite !list_elem_of_In, !filter_In.
    assert (Hmanaged :
              In item
                (match managedItemsForContentType (One (content_type item))
                         st with
                 | Some managed => managed
                 | None => collection st
                 end)).
    { unfold managedItemsForContentType, notes, components, tags, all.
      simpl. repeat case_bool_decide; try by apply list_elem_of_In.
      all: apply filter_In; split; [by apply list_elem_of_In |].
      all: by apply bool_decide_eq_true_2. }
    rewrite bool_decide_eq_true_2 by done. rewrite andb_true_r.
    destruct (errorDecrypting item); simpl.
    + split; [| by intros _; split; [apply list_elem_of_In |]].
      by intros _ [_ ?].
    + split; [by intros [_ ?] |]. intros Hno. by destruct Hno.
  - intros valid c. unfold validItemsForContentType.
    rewrite list_elem_of_In, filter_In. intros [Hv Hf].
    apply andb_prop in Hf as [Herr _]. apply negb_true_iff in Herr.
    split; [done |].
    unfold managedItemsForContentType, notes, components, tags, all, items
      in Hv.
    destruct (strictEquals c ContentType.Note);
      [| destruct (strictEquals c ContentType.Component);
         [| destruct (strictEquals c ContentType.Tag)]];
      try apply filter_In in Hv as [Hv _]; by apply list_elem_of_In.
Qed.
End ItemManagerMoreProperties.

(** ** Operator helpers *)

Lemma append_cons (c : Ascii.ascii) (a b : string) :
  String c a ++ b = String c (a ++ b).
Proof. reflexivity. Qed.

Lemma substring_prefix_suffix (s : string) (n : nat) :
  (n ≤ String.length s)%nat →
  String.substring 0 n s ++ String.substring n (String.length s - n) s = s.
Proof.
  revert n. induction s as [| c s IH]; intros n Hn; simpl in *.
  - by destruct n.
  - destruct n as [| n]; simpl.
    + by rewrite substring_whole.
    + rewrite append_cons, IH by lia. done.
Qed.

Lemma substring_prefix_length (s : string) (n : nat) :
  (n ≤ String.length s)%nat → String.length (String.substring 0 n s) = n.
Proof.
  revert n. induction s as [| c s IH]; intros n Hn; simpl in *.
  - by destruct n; [| lia].
  - destruct n as [| n]; simpl; [done |]. rewrite IH by lia. done.
Qed.

(** X26: the two halves of a key concatenate to the key, the first half has
    half the length rounded down, and [splitKey] in two parts returns the two
    halves. *)
Theorem key_halves_recompose (key : string) :
  ProtocolOperator.firstHalfOfKey key ++ ProtocolOperator.secondHalfOfKey key
  = key
  ∧ String.length (ProtocolOperator.firstHalfOfKey key)
    = (String.length key / 2)%nat
  ∧ ProtocolOperator.splitKey key 2
    = [ProtocolOperator.firstHalfOfKey key;
       ProtocolOperator.secondHalfOfKey key].
Proof.
  unfold ProtocolOperator.firstHalfOfKey, ProtocolOperator.secondHalfOfKey,
    ProtocolOperator.splitKey, ProtocolOperator.slice.
  assert (Hhalf : (String.length key / 2 ≤ String.length key)%nat)
    by (apply Nat.Div0.div_le_upper_bound; lia).
  split; [by apply substring_prefix_suffix |].
  split; [by apply substring_prefix_length |].
  cbn [seq map]. rewrite Nat.mul_0_r.
  change (0 + 1)%nat with 1%nat. change (1 + 1)%nat with 2%nat.
  rewrite Nat.mul_1_r, Nat.div_mul by done.
  change (0 / 2)%nat with 0%nat. by rewrite Nat.sub_0_r.
Qed.

Section Operator001ItemProperties.
Import Operator001 Operator001Items.
Variable hexStringToArrayBuffer : string -> Buffer.
Variable aes256CbcDecrypt : string -> Buffer -> Buffer -> option string.
Variable aes256CbcEncrypt : string -> Buffer -> Buffer -> string.
Variable base64Json : string -> option JsValue.

(** X27: version 001 frames a ciphertext with a three-character version
    prefix: [encryptionComponentsFromString] of the string built by
    [_private_encryptString] gives back the version and the ciphertext. *)
Theorem ciphertext_framing_round_trip
    (s encryptionKey authKey uuid version full key : string) :
  String.length version = 3%nat →
  _private_encryptString hexStringToArrayBuffer aes256CbcEncrypt s
    encryptionKey authKey uuid version = Ok full →
  ∃ ciphertext,
    encryptText hexStringToArrayBuffer aes256CbcEncrypt s encryptionKey None
    = Ok ciphertext
    ∧ full = version ++ ciphertext
    ∧ encryptionComponentsFromString full key
      = mkComponents ciphertext version key None.
Proof.
  intros Hlen. unfold _private_encryptString.
  destruct (encryptText _ _ s encryptionKey None) as [ciphertext | e];
    simpl; [| done].
  intros [= <-]. exists ciphertext. split; [done |]. split; [done |].
  destruct version as [| a [| b [| c [| d v]]]]; try discriminate.
  unfold encryptionComponentsFromString. f_equal.
  - change (String.substring 0 (String.length ciphertext - 0) ciphertext
            = ciphertext).
    rewrite Nat.sub_0_r. apply substring_whole.
  - by destruct ciphertext.
Qed.

(** X28: a version 001 [decryptItem] that returns keeps the encrypted item
    key; when it sets the error flag the content is untouched and the flag's
    change is recorded, and when it clears the flag the change is recorded
    and the content is the decrypted text. *)
Theorem failed_decryption_keeps_content (item item' : Item)
    (itemsKey : string) :
  decryptItem hexStringToArrayBuffer aes256CbcDecrypt base64Json item itemsKey
  = Ok item' →
  enc_item_key item' = enc_item_key item
  ∧ (errorDecrypting item = false → errorDecrypting item' = true →
     content item' = content item
     ∧ errorDecryptingValueChanged item' = true)
  ∧ (errorDecrypting item = true → errorDecrypting item' = false →
     errorDecryptingValueChanged item' = true
     ∧ ∃ text, content item' = Some (JStr text) ∧ text ≠ EmptyString).
Proof.
  unfold decryptItem.
  destruct (content item) as [[| | | s | |] |] eqn:Hc;
    try (intros [= <-]; split; [done |]; split; congruence).
  destruct (startsWith s "000").
  { destruct (base64Json _); intros [= <-]; simpl;
      (split; [done |]; split; congruence). }
  destruct (absent (enc_item_key item)).
  { intros [= <-]. split; [done |]. split; congruence. }
  destruct (decryptText _ _ _ _ _) as [item_key | e]; simpl; [| done].
  destruct (absent item_key).
  { intros [= <-]. simpl. split; [done |]. split; [| congruence].
    intros -> _. by rewrite Hc. }
  destruct (decryptText _ _ _ _ _) as [decrypted | e]; simpl; [| done].
  destruct (absent decrypted) eqn:Habsent.
  { intros [= <-]. simpl. split; [done |]. split; [| congruence].
    intros -> _. by rewrite Hc. }
  intros [= <-]. simpl. split; [done |]. split; [congruence |].
  intros -> _. split; [done |].
  destruct decrypted as [text |]; [| done].
  exists text. split; [done |]. intros ->. discriminate.
Qed.
End Operator001ItemProperties.

(** ** Privileges *)

Lemma filter_nil_iff {A} (f : A -> bool) (l : list A) :
  List.filter f l = [] ↔ ∀ x, In x l → f x = false.
Proof.
  induction l as [| a l IH]; simpl; [done |].
  destruct (f a) eqn:Ha.
  - split; [done |]. intros H. rewrite H in Ha by by left. done.
  - rewrite IH. split; [| by auto]. intros H x [<- | Hx]; auto.
Qed.

Section PrivilegesProperties.
Import Privileges.
Context {ProtectedAction : Type}.
Variable getCredentialsForAction : ProtectedAction -> list PrivilegeCredential.
Variable online : bool.
Variable hasRootKeyWrapper : bool.
Variable validateAccountPassword : option string -> result bool.
Variable validatePasscode : option string -> result bool.

Lemma verifyCredentials_result required mapping successful failed out :
  verifyCredentials validateAccountPassword validatePasscode required mapping
    successful failed = Ok out →
  let passed c :=
    passes (verifyAuthenticationParameters validateAccountPassword
              validatePasscode c) (mapping c) in
  out.1 = (successful ++ List.filter passed required)%list
  ∧ out.2 = (failed ++ List.filter (fun c => negb (passed c)) required)%list.
Proof.
  revert successful failed.
  induction required as [| c rest IH]; intros successful failed; simpl.
  - intros [= <-]. by rewrite !app_nil_r.
  - destruct (verifyAuthenticationParameters _ _ c (mapping c))
      as [passesAuth | e] eqn:Hv; [| done].
    assert (Hp : passes (verifyAuthenticationParameters validateAccountPassword
                           validatePasscode c) (mapping c) = passesAuth).
    { unfold passes. rewrite Hv. by destruct passesAuth. }
    rewrite Hp.
    destruct passesAuth; intros Hrest; destruct (IH _ _ Hrest) as [H1 H2];
      simpl; rewrite H1, H2, <- ?app_assoc; done.
Qed.

(** X29: [authenticateAction] sorts the required credentials into those that
    pass their validation and those that do not, in order, and succeeds
    exactly when every required credential passes. *)
Theorem authentication_succeeds_iff_every_credential_passes
    (action : ProtectedAction)
    (mapping : PrivilegeCredential -> option string)
    (outcome : AuthenticationResult) :
  authenticateAction getCredentialsForAction online hasRootKeyWrapper
    validateAccountPassword validatePasscode action mapping = Ok outcome →
  let required :=
    netCredentialsForAction getCredentialsForAction online hasRootKeyWrapper
      action in
  let passed c :=
    passes (verifyAuthenticationParameters validateAccountPassword
              validatePasscode c) (mapping c) in
  successfulCredentials outcome = List.filter passed required
  ∧ failedCredentials outcome
    = List.filter (fun c => negb (passed c)) required
  ∧ (success outcome = true ↔ ∀ c, c ∈ required → passed c = true).
Proof.
  unfold authenticateAction.
  destruct (verifyCredentials _ _ _ mapping [] []) as [out | e] eqn:Hout;
    [| done].
  intros [= <-]. simpl.
  destruct (verifyCredentials_result _ _ _ _ _ Hout) as [H1 H2].
  simpl in H1, H2. split; [done |]. split; [done |].
  rewrite H2, Nat.eqb_eq, length_zero_iff_nil, filter_nil_iff.
  split.
  - intros Hnone c Hc. apply negb_false_iff, Hnone.
    by apply list_elem_of_In.
  - intros Hall c Hc. apply negb_false_iff, Hall. by apply list_elem_of_In.
Qed.
End PrivilegesProperties.

(** X30: offline and without a passcode no credential is required for any
    action, no action has privileges configured, and [authenticateAction]
    succeeds with any credentials. *)
Theorem no_credential_is_required_offline_without_passcode
    {ProtectedAction : Type}
    (getCredentialsForAction :
       ProtectedAction -> list Privileges.PrivilegeCredential)
    (validateAccountPassword validatePasscode : option string -> result bool)
    (action : ProtectedAction)
    (mapping : Privileges.PrivilegeCredential -> option string) :
  Privileges.netCredentialsForAction getCredentialsForAction false false
    action = []
  ∧ Privileges.actionHasPrivilegesConfigured getCredentialsForAction false
      false action = false
  ∧ Privileges.authenticateAction getCredentialsForAction false false
      validateAccountPassword validatePasscode action mapping
    = Ok (Privileges.mkAuthentication true [] []).
Proof.
  assert (Hnone : Privileges.netCredentialsForAction getCredentialsForAction
                    false false action = []).
  { unfold Privileges.netCredentialsForAction.
    induction (getCredentialsForAction action) as [| [] l IH]; done. }
  split; [done |].
  unfold Privileges.actionHasPrivilegesConfigured,
    Privileges.authenticateAction.
  by rewrite Hnone.
Qed.

(** ** Concrete runs *)

Lemma encrypted_payload_is_not_encrypted_twice_witness :
  ∃ e, payloadByEncryptingPayload Examples.encryptStub
         Examples.jsonBase64Stub Examples.accountService
         Examples.latestCiphertext (Some EncryptionIntent.Sync) None
       = Throw e.
Proof.
  apply (encrypted_payload_is_not_encrypted_twice Examples.encryptStub
           Examples.jsonBase64Stub Examples.accountService
           Examples.latestCiphertext (Some EncryptionIntent.Sync) None).
  - reflexivity.
  - vm_compute. discriminate.
Defined.

Lemma decrypted_intent_needs_no_key_witness :
  payloadByEncryptingPayload Examples.encryptStub Examples.jsonBase64Stub
    Examples.accountService MoreExamples.blankNote
    (Some EncryptionIntent.FileDecrypted) None
  = payloadByEncryptingPayload MoreExamples.noCipher Examples.jsonBase64Stub
      Examples.emptyService MoreExamples.blankNote
      (Some EncryptionIntent.FileDecrypted) None.
Proof.
  apply (decrypted_intent_needs_no_key Examples.encryptStub
           Examples.jsonBase64Stub MoreExamples.noCipher
           Examples.accountService Examples.emptyService
           MoreExamples.blankNote EncryptionIntent.FileDecrypted).
  reflexivity.
Defined.

Lemma encrypted_payload_fields_follow_intent_witness :
  ∃ q, payloadByEncryptingPayload Examples.encryptStub
         Examples.jsonBase64Stub Examples.accountService
         MoreExamples.blankNote (Some EncryptionIntent.Sync) None = Ok q
       ∧ Generator.payloadFieldsForIntent EncryptionIntent.Sync
         = Ok (fields q).
Proof.
  eexists. split; [reflexivity |].
  eapply (encrypted_payload_fields_follow_intent Examples.encryptStub
            Examples.jsonBase64Stub Examples.accountService
            MoreExamples.blankNote _ EncryptionIntent.Sync None).
  - reflexivity.
  - reflexivity.
Defined.

Lemma sync_decrypted_round_trip_witness :
  ∃ q r,
    payloadByEncryptingPayload MoreExamples.noCipher MoreExamples.encodeStub
      Examples.emptyService MoreExamples.blankNote
      (Some EncryptionIntent.SyncDecrypted) None = Ok q
    ∧ content q = Some (JStr ("000" ++ MoreExamples.encodeStub (JObj [])))
    ∧ payloadByDecryptingPayload Examples.decryptFails
        MoreExamples.decodeStub Examples.accountService q None = Ok r
    ∧ content r = Some (JObj [])
    ∧ raw r PayloadField.Uuid = Some (JStr "note-1").
Proof.
  apply (sync_decrypted_round_trip MoreExamples.noCipher
           Examples.decryptFails MoreExamples.encodeStub
           MoreExamples.decodeStub Examples.emptyService
           Examples.accountService MoreExamples.blankNote [] "note-1" None).
  - reflexivity.
  - reflexivity.
  - discriminate.
  - reflexivity.
  - reflexivity.
Defined.

Lemma key_selection_by_content_type_witness :
  usesRootKey Examples.notePayload = false
  ∧ Examples.localKey ∈ itemsKeys Examples.accountService.
Proof.
  apply (key_selection_by_content_type Examples.accountService
           Examples.notePayload (Some EncryptionIntent.Sync)
           (ItemsKeyOf Examples.localKey)).
  left. reflexivity.
Defined.

Lemma key_state_stays_consistent_witness :
  keyStateConsistent
    (perform Examples.encryptStub Examples.decryptFails
       Examples.jsonBase64Stub Examples.base64JsonStub
       MoreExamples.rootKeyCreateStub [Examples.quietKeyObserver]
       (SetNewRootKeyWrapper Examples.passcodeKey Examples.accountParams)
       Examples.emptyService).2.
Proof.
  apply (key_state_stays_consistent Examples.encryptStub
           Examples.decryptFails Examples.jsonBase64Stub
           Examples.base64JsonStub MoreExamples.rootKeyCreateStub
           [Examples.quietKeyObserver]
           (SetNewRootKeyWrapper Examples.passcodeKey Examples.accountParams)
           Examples.emptyService).
  - repeat split; reflexivity.
  - reflexivity.
Defined.

(** The next launch of an installation with account and passcode: the mode
    RootKeyPlusWrapper is recovered from the three stored values, no root key
    is in memory, and the observer, which would throw, is not called. *)
Lemma restart_recovers_key_mode_witness :
  keyMode MoreExamples.lockedService = KeyMode.RootKeyPlusWrapper
  ∧ keyMode (MoreExamples.relaunched MoreExamples.lockedService)
    = KeyMode.RootKeyNone
  ∧ let out :=
      initialize MoreExamples.rootKeyCreateStub [Examples.failingKeyObserver]
        (MoreExamples.relaunched MoreExamples.lockedService) in
    keyMode out.2 = keyMode MoreExamples.lockedService
    ∧ storage out.2 = storage MoreExamples.lockedService
    ∧ hasPasscode out.2
      = hasRootKeyWrapper (MoreExamples.relaunched MoreExamples.lockedService)
    ∧ out.1 = Ok tt
    ∧ rootKey out.2
      = rootKey (MoreExamples.relaunched MoreExamples.lockedService).
Proof.
  split; [reflexivity |]. split; [reflexivity |].
  apply (restart_recovers_key_mode MoreExamples.rootKeyCreateStub
           [Examples.failingKeyObserver] MoreExamples.lockedService
           (MoreExamples.relaunched MoreExamples.lockedService)).
  - repeat split; reflexivity.
  - reflexivity.
Defined.

(** The next launch of an installation with an account only: the mode
    RootKeyOnly is recovered and the root key is read from the keychain, and
    the call throws with the observer. *)
Example restart_with_failing_observer :
  let out :=
    initialize MoreExamples.rootKeyCreateStub [Examples.failingKeyObserver]
      (MoreExamples.relaunched MoreExamples.registeredService) in
  out.1 = Throw "key observer failed"
  ∧ keyMode out.2 = KeyMode.RootKeyOnly
  ∧ rootKey out.2 = Some MoreExamples.unwrappedKey.
Proof. vm_compute. repeat split. Qed.

(** Setting and removing a passcode on an installation with an account. *)
Lemma passcode_round_trip_witness :
  keyMode MoreExamples.registeredService = KeyMode.RootKeyOnly
  ∧ ∃ svc2,
      removeRootKeyWrapper [Examples.quietKeyObserver]
        (setNewRootKeyWrapper Examples.encryptStub Examples.jsonBase64Stub
           [Examples.quietKeyObserver] Examples.passcodeKey
           MoreExamples.passcodeParams MoreExamples.registeredService).2
      = (awaitObservers [Examples.quietKeyObserver] svc2, svc2)
      ∧ keyMode svc2 = keyMode MoreExamples.registeredService
      ∧ storage svc2 = storage MoreExamples.registeredService
      ∧ rootKey svc2 = rootKey MoreExamples.registeredService
      ∧ keychain svc2 = rootKey MoreExamples.registeredService
      ∧ itemsKeys svc2 = itemsKeys MoreExamples.registeredService.
Proof.
  split; [reflexivity |].
  apply (passcode_round_trip Examples.encryptStub Examples.jsonBase64Stub
           [Examples.quietKeyObserver] Examples.passcodeKey
           MoreExamples.passcodeParams MoreExamples.registeredService
           (setNewRootKeyWrapper Examples.encryptStub
              Examples.jsonBase64Stub [Examples.quietKeyObserver]
              Examples.passcodeKey MoreExamples.passcodeParams
              MoreExamples.registeredService).2).
  - repeat split; reflexivity.
  - reflexivity.
Defined.

(** With an observer that throws in the round of the removal, the call
    throws, and the key mode and the stored values are restored all the
    same. *)
Example passcode_removed_with_failing_observer :
  let svc1 :=
    (setNewRootKeyWrapper Examples.encryptStub Examples.jsonBase64Stub
       [MoreExamples.tiringKeyObserver] Examples.passcodeKey
       MoreExamples.passcodeParams MoreExamples.registeredService) in
  let out := removeRootKeyWrapper [MoreExamples.tiringKeyObserver] svc1.2 in
  svc1.1 = Ok tt
  ∧ out.1 = Throw "key observer failed"
  ∧ keyMode out.2 = KeyMode.RootKeyOnly
  ∧ storage out.2 = storage MoreExamples.registeredService
  ∧ keychain out.2 = Some Examples.accountKey.
Proof. vm_compute. repeat split. Qed.

(** Unlocking an installation with account and passcode while an observer
    throws: the call throws, and the decrypted root key is installed. *)
Example unlocked_with_failing_observer :
  let launched :=
    (initialize MoreExamples.rootKeyCreateStub [Examples.failingKeyObserver]
       (MoreExamples.relaunched MoreExamples.lockedService)).2 in
  let out :=
    unwrapRootKey MoreExamples.decryptsAll Examples.base64JsonStub
      MoreExamples.rootKeyCreateStub [Examples.failingKeyObserver]
      Examples.passcodeKey launched in
  rootKey launched = None
  ∧ out.1 = Throw "key observer failed"
  ∧ rootKey out.2 = Some MoreExamples.unwrappedKey.
Proof. vm_compute. repeat split. Qed.

Lemma new_default_items_key_is_the_only_default_witness :
  ∃ created,
    defaultItemsKeys
      (createNewDefaultItemsKey Examples.compareVersionsStub
         Examples.generateUuidStub Examples.newItemsKeyStub
         Examples.accountService).2 = [created]
    ∧ getDefaultItemsKey
        (createNewDefaultItemsKey Examples.compareVersionsStub
           Examples.generateUuidStub Examples.newItemsKeyStub
           Examples.accountService).2 = Some created
    ∧ ik_uuid created = Examples.generateUuidStub Examples.accountService
    ∧ ik_dirty created = true
    ∧ length
        (itemsKeys
           (createNewDefaultItemsKey Examples.compareVersionsStub
              Examples.generateUuidStub Examples.newItemsKeyStub
              Examples.accountService).2)
      = S (length (itemsKeys Examples.accountService)).
Proof.
  apply (new_default_items_key_is_the_only_default
           Examples.compareVersionsStub Examples.generateUuidStub
           Examples.newItemsKeyStub Examples.accountService).
  - vm_compute. lia.
  - apply (bool_decide_unpack _). vm_compute. exact I.
  - reflexivity.
Defined.

Lemma full_sync_leaves_a_default_items_key_witness :
  is_Some
    (getDefaultItemsKey
       (handleFullSyncCompletion Examples.compareVersionsStub
          Examples.generateUuidStub Examples.newItemsKeyStub
          Examples.emptyService).2)
  ∧ (is_Some (getDefaultItemsKey Examples.emptyService) →
     handleFullSyncCompletion Examples.compareVersionsStub
       Examples.generateUuidStub Examples.newItemsKeyStub
       Examples.emptyService = (Ok false, Examples.emptyService))
  ∧ (false = true → keyMode Examples.emptyService = KeyMode.WrapperOnly).
Proof.
  apply (full_sync_leaves_a_default_items_key Examples.compareVersionsStub
           Examples.generateUuidStub Examples.newItemsKeyStub
           Examples.emptyService false).
  reflexivity.
Defined.

Lemma removeFirst_removes_value :
  ItemQueries.removesValue ItemExamples.removeFirst.
Proof.
  intros array value. induction array as [| a rest IH]; intros Hnd; simpl.
  - split; [done |]. intros x. split; [| by intros [? _]].
    intros Hx. by apply elem_of_nil in Hx.
  - apply NoDup_cons in Hnd as [Ha Hnd]. destruct (IH Hnd) as [Hnd' Hmem].
    destruct (String.eqb a value) eqn:Heq.
    + apply String.eqb_eq in Heq as ->. split; [done |].
      intros x. rewrite elem_of_cons. split.
      * intros Hx. split; [by right |]. by intros ->.
      * by intros [[-> | Hx] Hne].
    + apply String.eqb_neq in Heq. split.
      * apply NoDup_cons. split; [| done]. intros Hin.
        apply Hmem in Hin as [Hin _]. done.
      * intros x. rewrite !elem_of_cons, Hmem. split.
        -- intros [-> | [Hx Hne]]; [by split; [left |] | by split; [right |]].
        -- intros [[-> | Hx] Hne]; [by left | by right].
Qed.

Lemma tagged_indices_mirrored :
  ItemQueries.indicesMirrored MoreExamples.taggedState.
Proof.
  unfold ItemQueries.indicesMirrored, ItemManager.forwardEntry,
    ItemManager.inverseEntry. simpl. split.
  - intros a b.
    destruct (decide (a = "tag")) as [-> | Ha];
      destruct (decide (b = "note")) as [-> | Hb].
    + rewrite !lookup_singleton_eq. simpl.
      rewrite !list_elem_of_singleton. done.
    + rewrite lookup_singleton_eq, lookup_singleton_ne by done. simpl.
      rewrite list_elem_of_singleton, elem_of_nil. done.
    + rewrite lookup_singleton_ne, lookup_singleton_eq by done. simpl.
      rewrite list_elem_of_singleton, elem_of_nil. done.
    + rewrite !lookup_singleton_ne by done. simpl. by rewrite !elem_of_nil.
  - intros a. split.
    + destruct (decide (a = "tag")) as [-> | Ha].
      * rewrite lookup_singleton_eq. apply NoDup_singleton.
      * rewrite lookup_singleton_ne by done. constructor.
    + destruct (decide (a = "note")) as [-> | Ha].
      * rewrite lookup_singleton_eq. apply NoDup_singleton.
      * rewrite lookup_singleton_ne by done. constructor.
Qed.

Lemma initial_indices_mirrored :
  ItemQueries.indicesMirrored ItemManager.initialState.
Proof.
  unfold ItemQueries.indicesMirrored, ItemManager.forwardEntry,
    ItemManager.inverseEntry. simpl. split.
  - intros a b. rewrite !lookup_empty. simpl. by rewrite !elem_of_nil.
  - intros a. rewrite !lookup_empty. simpl. split; constructor.
Qed.

Lemma tagged_indices_ordinary :
  ItemQueries.ordinaryIndices MoreExamples.taggedState.
Proof.
  split; apply map_Forall_singleton; split;
    try apply Forall_singleton;
    by apply (bool_decide_unpack _); vm_compute.
Qed.

Lemma initial_indices_ordinary :
  ItemQueries.ordinaryIndices ItemManager.initialState.
Proof. split; apply map_Forall_empty. Qed.

Lemma deleted_item_leaves_both_indices_witness :
  let st' :=
    ItemManager.deestablishReferenceIndexForDeletedItem
      ItemExamples.removeFirst "note" MoreExamples.taggedState in
  ItemManager.referenceMap st' !! "note" = None
  ∧ ItemManager.inverseReferenceMap st' !! "note" = None
  ∧ (∀ x, x ≠ "note" →
       (is_Some (ItemManager.referenceMap st' !! x)
        ↔ is_Some (ItemManager.referenceMap MoreExamples.taggedState !! x))
       ∧ (is_Some (ItemManager.inverseReferenceMap st' !! x)
          ↔ is_Some
              (ItemManager.inverseReferenceMap MoreExamples.taggedState
               !! x)))
  ∧ ItemManager.collection st'
    = ItemManager.collection MoreExamples.taggedState
  ∧ ItemManager.observers st'
    = ItemManager.observers MoreExamples.taggedState.
Proof.
  apply (deleted_item_leaves_both_indices ItemExamples.removeFirst "note"
           MoreExamples.taggedState).
  - by apply (bool_decide_unpack _); vm_compute.
  - exact tagged_indices_ordinary.
Defined.

Lemma deletion_keeps_indices_mirrored_witness :
  ItemQueries.indicesMirrored
    (ItemManager.deestablishReferenceIndexForDeletedItem
       ItemExamples.removeFirst "note" MoreExamples.taggedState)
  ∧ (∀ x,
       ¬ ("note"
          ∈ ItemManager.forwardEntry
              (ItemManager.deestablishReferenceIndexForDeletedItem
                 ItemExamples.removeFirst "note" MoreExamples.taggedState) x)
       ∧ ¬ ("note"
            ∈ ItemManager.inverseEntry
                (ItemManager.deestablishReferenceIndexForDeletedItem
                   ItemExamples.removeFirst "note" MoreExamples.taggedState)
                x))
  ∧ ItemQueries.ordinaryIndices
      (ItemManager.deestablishReferenceIndexForDeletedItem
         ItemExamples.removeFirst "note" MoreExamples.taggedState).
Proof.
  apply (deletion_keeps_indices_mirrored ItemExamples.removeFirst "note"
           MoreExamples.taggedState).
  - by apply (bool_decide_unpack _); vm_compute.
  - exact tagged_indices_ordinary.
  - exact removeFirst_removes_value.
  - exact tagged_indices_mirrored.
Defined.

Lemma first_indexing_keeps_indices_mirrored_witness :
  ItemQueries.indicesMirrored
    (ItemManager.establishReferenceIndex
       (ItemExamples.tag [ItemExamples.toNote; ItemExamples.toOther])
       ItemManager.initialState)
  ∧ ([ItemExamples.toNote; ItemExamples.toOther] ≠ [] →
     ItemManager.forwardEntry
       (ItemManager.establishReferenceIndex
          (ItemExamples.tag [ItemExamples.toNote; ItemExamples.toOther])
          ItemManager.initialState) "tag"
     = ["note"; "other"])
  ∧ (∀ reference,
       reference ∈ [ItemExamples.toNote; ItemExamples.toOther] →
       "tag"
       ∈ ItemManager.inverseEntry
           (ItemManager.establishReferenceIndex
              (ItemExamples.tag [ItemExamples.toNote; ItemExamples.toOther])
              ItemManager.initialState)
           (ItemManager.ref_uuid reference))
  ∧ ItemQueries.ordinaryIndices
      (ItemManager.establishReferenceIndex
         (ItemExamples.tag [ItemExamples.toNote; ItemExamples.toOther])
         ItemManager.initialState).
Proof.
  apply (first_indexing_keeps_indices_mirrored
           (ItemExamples.tag [ItemExamples.toNote; ItemExamples.toOther])
           ItemManager.initialState).
  - split; [| repeat constructor];
      by apply (bool_decide_unpack _); vm_compute.
  - exact initial_indices_ordinary.
  - exact initial_indices_mirrored.
  - reflexivity.
  - apply (bool_decide_unpack _). vm_compute. exact I.
Defined.

Lemma throwing_observer_stops_notification_witness :
  ItemManager.notifyObservers
    ([ItemExamples.noteObserver] ++ MoreExamples.failingObserver
       :: [ItemExamples.anyObserver])
    [ItemExamples.note []] ItemManager.Changed None None
  = (map (fun o =>
            (o,
             ItemManager.mkNotification
               (List.filter (ItemManager.isRelevant o) [ItemExamples.note []])
               None None ItemManager.Changed))
       ([ItemExamples.noteObserver] ++ [MoreExamples.failingObserver]),
     Throw "observer failed").
Proof.
  apply (throwing_observer_stops_notification [ItemExamples.noteObserver]
           [ItemExamples.anyObserver] MoreExamples.failingObserver
           [ItemExamples.note []] ItemManager.Changed None None
           "observer failed").
  - repeat constructor.
  - reflexivity.
Defined.

Lemma every_item_is_valid_or_invalid_witness :
  (ItemExamples.corrupt ∈ ItemQueries.invalidItems ItemExamples.dirtyState
   ↔ ¬ (ItemExamples.corrupt
        ∈ ItemQueries.validItemsForContentType
            (ItemManager.One (ItemManager.content_type ItemExamples.corrupt))
            ItemExamples.dirtyState))
  ∧ ∀ valid c,
      valid ∈ ItemQueries.validItemsForContentType c ItemExamples.dirtyState →
      ItemManager.errorDecrypting valid = false
      ∧ valid ∈ ItemManager.collection ItemExamples.dirtyState.
Proof.
  apply (every_item_is_valid_or_invalid ItemExamples.corrupt
           ItemExamples.dirtyState).
  simpl. apply list_elem_of_here.
Defined.

Lemma ciphertext_framing_round_trip_witness :
  ∃ ciphertext,
    Operator001.encryptText CryptoExamples.emptyHex
      MoreExamples.fixedCiphertext "text" "00ff" None = Ok ciphertext
    ∧ "001ciphertext" = "001" ++ ciphertext
    ∧ Operator001Items.encryptionComponentsFromString "001ciphertext" "00ff"
      = Operator001Items.mkComponents ciphertext "001" "00ff" None.
Proof.
  apply (ciphertext_framing_round_trip CryptoExamples.emptyHex
           MoreExamples.fixedCiphertext "text" "00ff" "auth" "uuid" "001"
           "001ciphertext" "00ff").
  - reflexivity.
  - reflexivity.
Defined.

Lemma failed_decryption_keeps_content_witness :
  Operator001Items.enc_item_key MoreExamples.flaggedItem
  = Operator001Items.enc_item_key MoreExamples.lockedItem
  ∧ (Operator001Items.errorDecrypting MoreExamples.lockedItem = false →
     Operator001Items.errorDecrypting MoreExamples.flaggedItem = true →
     Operator001Items.content MoreExamples.flaggedItem
     = Operator001Items.content MoreExamples.lockedItem
     ∧ Operator001Items.errorDecryptingValueChanged MoreExamples.flaggedItem
       = true)
  ∧ (Operator001Items.errorDecrypting MoreExamples.lockedItem = true →
     Operator001Items.errorDecrypting MoreExamples.flaggedItem = false →
     Operator001Items.errorDecryptingValueChanged MoreExamples.flaggedItem
     = true
     ∧ ∃ text,
         Operator001Items.content MoreExamples.flaggedItem
         = Some (JStr text) ∧ text ≠ EmptyString).
Proof.
  apply (failed_decryption_keeps_content CryptoExamples.emptyHex
           MoreExamples.cannotDecrypt Examples.base64JsonStub
           MoreExamples.lockedItem MoreExamples.flaggedItem "items-key").
  reflexivity.
Defined.

Lemma authentication_succeeds_iff_every_credential_passes_witness :
  let outcome :=
    Privileges.mkAuthentication false [Privileges.AccountPassword]
      [Privileges.LocalPasscode] in
  let required :=
    Privileges.netCredentialsForAction MoreExamples.bothCredentials true true
      tt in
  let passed c :=
    passes (Privileges.verifyAuthenticationParameters
              MoreExamples.rightPassword MoreExamples.wrongPasscode c)
      (MoreExamples.typedPassword c) in
  Privileges.successfulCredentials outcome = List.filter passed required
  ∧ Privileges.failedCredentials outcome
    = List.filter (fun c => negb (passed c)) required
  ∧ (Privileges.success outcome = true
     ↔ ∀ c, c ∈ required → passed c = true).
Proof.
  apply (authentication_succeeds_iff_every_credential_passes
           MoreExamples.bothCredentials true true MoreExamples.rightPassword
           MoreExamples.wrongPasscode tt MoreExamples.typedPassword
           (Privileges.mkAuthentication false [Privileges.AccountPassword]
              [Privileges.LocalPasscode])).
  reflexivity.
Defined.
